(** * Service exposure, readiness polling and secret lifecycle

    A shallow embedding of minikube's [service] package
    (package service: [printURLsForService], [CheckService],
    [OptionallyHTTPSFormattedURLString], [WaitAndMaybeOpenService],
    [CreateSecret], [DeleteSecret]) together with the properties its
    specification states about it.

    Conventions.
    - Go [int32] and [int] values are integers in [Z]; the only
      arithmetic the package performs is the conversion of seconds to
      [time.Duration], whose 64-bit wrap-around is written out.
    - Go strings are [string]; [[]byte] is [list Byte.byte].
    - Go maps are [gmap]s; reading a missing key yields the zero value.
    - A Go [error] return is [option error] ([None] is [nil]).  A
      [(T, error)] return whose value is read only when the error is nil
      is [result T]; where the code hands back or reads the value next to
      the error it is a pair, and a pointer that may be nil is an
      [option].
    - Everything outside the package (the cluster API, the docker-machine
      host, the retry primitive, the browser) is a record of operations on
      an abstract world [W]; what the package prints is appended to an
      explicit output log. *)

From Stdlib Require Import ZArith Lia Bool Ascii String DecimalString.
From stdpp Require Import base option list gmap strings.

Local Open Scope string_scope.
Local Open Scope Z_scope.

(** ** Go's [strings] package (the part the service package uses) *)

Module strings.

(** [strings.HasPrefix(s, prefix)]. *)
Fixpoint HasPrefix (s prefix : string) : bool :=
  match prefix, s with
  | EmptyString, _ => true
  | String _ _, EmptyString => false
  | String c prefix', String d s' =>
      if Ascii.eqb c d then HasPrefix s' prefix' else false
  end.

(** [s[n:]]; the whole string is consumed when it is too short. *)
Fixpoint drop (n : nat) (s : string) : string :=
  match n, s with
  | O, _ => s
  | S _, EmptyString => EmptyString
  | S n', String _ s' => drop n' s'
  end.

(** [s[:n]]. *)
Fixpoint take (n : nat) (s : string) : string :=
  match n, s with
  | O, _ => EmptyString
  | S _, EmptyString => EmptyString
  | S n', String c s' => String c (take n' s')
  end.

(** [strings.Index(s, substr)]: the byte offset of the first occurrence
    of [substr] in [s]; Go's [-1] is [None]. *)
Fixpoint Index (s substr : string) {struct s} : option nat :=
  if HasPrefix s substr then Some O
  else match s with
       | EmptyString => None
       | String _ s' => option_map S (Index s' substr)
       end.

(** The replacement loop of [strings.Replace] for a non-empty [old]:
    at most [n] leftmost non-overlapping occurrences are rewritten. *)
Fixpoint replaceLoop (s old new : string) (n : nat) : string :=
  match n with
  | O => s
  | S n' =>
      match Index s old with
      | None => s
      | Some j =>
          take j s +:+ new
            +:+ replaceLoop (drop (j + String.length old) s) old new n'
      end
  end.

(** [strings.Replace(s, old, new, n)] for [n >= 0] and a non-empty
    [old] (the package only calls it with [old = "http"], [n = 1]). *)
Definition Replace (s old new : string) (n : nat) : string :=
  if String.eqb old new then s else replaceLoop s old new n.

(** [strings.Contains]. *)
Definition Contains (s substr : string) : bool :=
  match Index s substr with Some _ => true | None => false end.

(** [strings.Join(elems, sep)]. *)
Fixpoint Join (elems : list string) (sep : string) : string :=
  match elems with
  | [] => EmptyString
  | [e] => e
  | e :: rest => e +:+ sep +:+ Join rest sep
  end.

(** ASCII lower-casing, which is what [strings.ToLower] does on the
    bytes a URL scheme may contain. *)
Definition lowerByte (c : ascii) : ascii :=
  let n := nat_of_ascii c in
  if (Nat.leb 65 n && Nat.leb n 90)%bool then ascii_of_nat (n + 32) else c.

Fixpoint ToLower (s : string) : string :=
  match s with
  | EmptyString => EmptyString
  | String c s' => String (lowerByte c) (ToLower s')
  end.

End strings.

(** ** URLs: the scheme of a parsed URL *)

Module url.

(** The one field of [net/url.URL] the package reads. *)
Record URL := { Scheme : string }.

Definition isLetter (c : ascii) : bool :=
  let n := nat_of_ascii c in
  ((Nat.leb 97 n && Nat.leb n 122) || (Nat.leb 65 n && Nat.leb n 90))%bool.

Definition isDigit (c : ascii) : bool :=
  let n := nat_of_ascii c in (Nat.leb 48 n && Nat.leb n 57)%bool.

Definition isSchemePunct (c : ascii) : bool :=
  (Ascii.eqb c "+" || Ascii.eqb c "-" || Ascii.eqb c ".")%bool.

(** Modelled on Go's [net/url.getScheme]: scan for the first [:];
    letters may appear anywhere, digits and [+ - .] anywhere but first;
    any other byte means there is no scheme.  [None] is the error
    "missing protocol scheme" (a leading colon); otherwise the scheme
    and the rest of the string. *)
Fixpoint getSchemeFrom (acc : string) (first : bool) (whole rest : string)
  : option (string * string) :=
  match rest with
  | EmptyString => Some (EmptyString, whole)
  | String c rest' =>
      if isLetter c then
        getSchemeFrom (acc +:+ String c EmptyString) false whole rest'
      else if (isDigit c || isSchemePunct c)%bool then
        if first then Some (EmptyString, whole)
        else getSchemeFrom (acc +:+ String c EmptyString) false whole rest'
      else if Ascii.eqb c ":" then
        if first then None else Some (acc, rest')
      else Some (EmptyString, whole)
  end.

Definition getScheme (rawURL : string) : option (string * string) :=
  getSchemeFrom EmptyString true rawURL rawURL.

(** [stringContainsCTLByte]: a byte below 0x20 or equal to 0x7f. *)
Fixpoint stringContainsCTLByte (s : string) : bool :=
  match s with
  | EmptyString => false
  | String c s' =>
      let n := nat_of_ascii c in
      (Nat.ltb n 32 || Nat.eqb n 127 || stringContainsCTLByte s')%bool
  end.

(** The part of [s] before the first occurrence of [sep]
    ([strings.Cut], first component). *)
Definition before (s sep : string) : string :=
  match strings.Index s sep with
  | Some j => strings.take j s
  | None => s
  end.

Fixpoint allDigits (s : string) : bool :=
  match s with
  | EmptyString => true
  | String c s' => (isDigit c && allDigits s')%bool
  end.

(** [validOptionalPort]: empty, or a colon followed by digits. *)
Definition validOptionalPort (port : string) : bool :=
  match port with
  | EmptyString => true
  | String c digits => (Ascii.eqb c ":" && allDigits digits)%bool
  end.

(** The text of [s] from the last occurrence of the byte [b] on
    ([s[strings.LastIndex(s, b):]]), if [b] occurs. *)
Fixpoint fromLast (b : ascii) (s : string) : option string :=
  match s with
  | EmptyString => None
  | String c s' =>
      match fromLast b s' with
      | Some p => Some p
      | None => if Ascii.eqb c b then Some s else None
      end
  end.

(** The host part of an authority: what follows the last [@]. *)
Definition hostOf (authority : string) : string :=
  match fromLast "@" authority with
  | Some p => strings.drop 1 p
  | None => authority
  end.

(** Modelled on Go's [net/url.Parse], restricted to what decides the
    scheme: control bytes are rejected, the fragment is cut off, the
    scheme is split off and lower-cased, a scheme-less relative
    reference whose first path segment holds a colon is rejected, and
    the port of a plain (unbracketed) host must be numeric.  Percent
    escapes, user information and bracketed IP literals are not
    validated by this model. *)
Definition Parse (rawURL : string) : option URL :=
  let u := before rawURL "#" in
  if stringContainsCTLByte u then None
  else if String.eqb u "*" then Some {| Scheme := EmptyString |}
  else
    match getScheme u with
    | None => None
    | Some (scheme, rest) =>
        let scheme := strings.ToLower scheme in
        let rest := before rest "?" in
        if (negb (strings.HasPrefix rest "/")
            && negb (String.eqb scheme EmptyString))%bool
        then Some {| Scheme := scheme |}
        else if (negb (strings.HasPrefix rest "/")
                 && strings.Contains (before rest "/") ":")%bool
        then None
        else if strings.HasPrefix rest "//" then
          let host := hostOf (before (strings.drop 2 rest) "/") in
          match fromLast ":" host with
          | Some colonPort =>
              if (strings.HasPrefix host "["
                  || validOptionalPort colonPort)%bool
              then Some {| Scheme := scheme |} else None
          | None => Some {| Scheme := scheme |}
          end
        else Some {| Scheme := scheme |}
    end.

End url.

(** ** The HTTPS-upgrade rule *)

Section HTTPSUpgrade.

(** The URL parser the rule consults ([net/url.Parse]); [None] is a
    parse error. *)
Variable url_Parse : string -> option url.URL.

(** [OptionallyHTTPSFormattedURLString]: returns a formatted URL
    string, optionally HTTPS. *)
Definition OptionallyHTTPSFormattedURLString
    (bareURLString : string) (https : bool) : string * bool :=
  let httpsFormattedString := bareURLString in
  let isHTTPSchemedURL :=
    match url_Parse bareURLString with
    | Some u => String.eqb (url.Scheme u) "http"
    | None => false
    end in
  let httpsFormattedString :=
    if (isHTTPSchemedURL && https)%bool
    then strings.Replace bareURLString "http" "https" 1
    else httpsFormattedString in
  (httpsFormattedString, isHTTPSchemedURL).

End HTTPSUpgrade.


(** ** Errors *)

(** Go [error] values.  [errors_New] and [fmt_Errorf] are plain errors,
    [errors_Wrap] is [errors.Wrap]/[errors.Wrapf] with the formatted
    message, [RetriableError] is [&retry.RetriableError{Err: ...}].
    Errors reported by the cluster, the host or the browser are values of
    this type chosen by the environment. *)
Inductive error : Type :=
| errors_New (msg : string)
| fmt_Errorf (msg : string)
| errors_Wrap (cause : error) (msg : string)
| RetriableError (Err : error).

(** A Go [(T, error)] return whose value is only meaningful without an
    error. *)
Inductive result (A : Type) : Type :=
| Ok (a : A)
| Err (e : error).
Arguments Ok {A} a.
Arguments Err {A} e.

(** The dynamic type test the retry primitive performs. *)
Definition isRetriable (e : error) : bool :=
  match e with RetriableError _ => true | _ => false end.

(** ** Cluster objects ([k8s.io/api/core/v1], the fields the package reads) *)

(** [intstr.IntOrString]. *)
Inductive IntOrStringType := IntType | StringType.

Record IntOrString := {
  Type_ : IntOrStringType;
  IntVal : Z;
  StrVal : string
}.

(** [intstr.FromInt] and [intstr.FromString]: the field that is not
    given keeps Go's zero value. *)
Definition FromInt (val : Z) : IntOrString :=
  {| Type_ := IntType; IntVal := val; StrVal := EmptyString |}.
Definition FromString (val : string) : IntOrString :=
  {| Type_ := StringType; IntVal := 0; StrVal := val |}.

Record ServicePort := {
  ServicePort_Name : string;
  ServicePort_Port : Z;
  TargetPort : IntOrString;
  NodePort : Z
}.

Record Service := {
  Service_Name : string;
  Service_Namespace : string;
  Spec_Ports : list ServicePort
}.

Record EndpointPort := {
  EndpointPort_Name : string;
  EndpointPort_Port : Z
}.

Record EndpointSubset := { Ports : list EndpointPort }.

Record Endpoints := { Subsets : list EndpointSubset }.

Inductive SecretType := SecretTypeOpaque | SecretTypeOther (name : string).

Record Secret := {
  Secret_Name : string;
  Labels : gmap string string;
  Data : gmap string (list Byte.byte);
  Secret_Type : SecretType
}.

(** ** Results of the package *)

(** [SvcURL] represents a service URL.  Each item in [URLs] combines the
    service URL with one of the configured node ports; [PortNames] holds
    the names of the ports, sorted correspondingly. *)
Record SvcURL := {
  Namespace : string;
  Name : string;
  URLs : list string;
  PortNames : list string
}.

(** [SvcURL{}]. *)
Definition SvcURL_zero : SvcURL :=
  {| Namespace := EmptyString; Name := EmptyString; URLs := []; PortNames := [] |}.

(** The anonymous struct handed to the template. *)
Record TemplateData := {
  IP : string;
  Port : Z;
  Name_ : string
}.

(** A [*template.Template] that is not nil: what executing it on the data
    writes, or the error it stops with. *)
Record Template := { Execute : TemplateData -> result string }.

(** ** Output *)

Inductive Style := Sad | Empty | Celebrate.

(** A value of the [out.V] map. *)
Inductive VArg := VString (s : string) | VError (e : error).

Inductive Event :=
| PrintServiceList (data : list (list string))
| out_T (style : Style) (format : string) (v : gmap string VArg)
| out_ErrT (style : Style) (format : string) (v : gmap string VArg)
| glog_Infof (format : string) (svc : Service).

(** ** Reading a Go map *)

(** [m[k]] for a [map[int32]string]: the zero value when [k] is absent. *)
Definition index (m : gmap Z string) (k : Z) : string :=
  default EmptyString (m !! k).

(** What a call that may dereference nil does: it returns its error
    value, or the Go run time panics. *)
Inductive outcome := Returned (err : option error) | Panicked.

(** The line feed that joins multi-valued table cells. *)
Definition newline : string := String (ascii_of_nat 10) EmptyString.

(** ** Durations *)

Module time.

(** Wrap-around of a signed 64-bit integer. *)
Definition wrap64 (z : Z) : Z := (z + 2 ^ 63) mod 2 ^ 64 - 2 ^ 63.

(** [time.Second], in nanoseconds. *)
Definition Second : Z := 1000000000.

(** [time.Duration(n) * time.Second] for a Go [int] [n]. *)
Definition Seconds (n : Z) : Z := wrap64 (n * Second).

End time.

(** ** The world outside the package *)

Section World.

(** The state of everything the package talks to. *)
Context {W : Type}.

(** A call into the outside world: it answers and may change it. *)
Definition Call (A : Type) : Type := W -> A * W.

(** [typed_core.CoreV1Interface], the operations the package invokes;
    the first argument is the namespace the accessor was opened on. *)
Record CoreV1Interface := {
  Services_Get : string -> string -> Call (result Service);
  Endpoints_Get : string -> string -> Call (option Endpoints * option error);
  Secrets_Get : string -> string -> Call (option Secret * option error);
  Secrets_Delete : string -> string -> Call (option error);
  Secrets_Create : string -> Secret -> Call (result Secret)
}.

(** [K8sClient] represents a kubernetes client. *)
Record K8sClient := {
  GetCoreClient : Call (result CoreV1Interface)
}.

(** A loaded docker-machine host: [host.Driver.GetIP()]. *)
Record Host := { Driver_GetIP : Call (result string) }.

(** [libmachine.API] as the package uses it:
    [cluster.CheckIfHostExistsAndLoad(api, config.GetMachineName())]. *)
Record API := { CheckIfHostExistsAndLoad : Call (result Host) }.

(** ** Computations of the package: world and output log *)

Definition M (A : Type) : Type := W * list Event -> A * (W * list Event).

Definition ret {A} (a : A) : M A := fun s => (a, s).

Definition bind {A B} (c : M A) (k : A -> M B) : M B :=
  fun s => let (a, s') := c s in k a s'.

Definition call {A} (op : Call A) : M A :=
  fun s => let (a, w') := op (fst s) in (a, (w', snd s)).

Definition emit (e : Event) : M unit :=
  fun s => (tt, (fst s, (snd s ++ [e])%list)).

End World.

Arguments CoreV1Interface W : clear implicits.
Arguments K8sClient W : clear implicits.
Arguments Host W : clear implicits.
Arguments API W : clear implicits.
Arguments M W A : clear implicits.
Arguments Call W A : clear implicits.

Declare Scope go_scope.
Delimit Scope go_scope with go.
Notation "x <- c ;; k" := (bind c (fun x => k))
  (at level 100, c at next level, right associativity) : go_scope.
Notation "c ;;; k" := (bind c (fun _ => k))
  (at level 100, right associativity) : go_scope.
Local Open Scope go_scope.

(** ** The service URL resolver *)

(** Lines 181-188 of the source: the endpoint-port-to-name index.  The
    innermost statement is the assignment [m[p.Port] = p.Name]; later
    assignments to the same key overwrite earlier ones. *)
Definition insertPort (m : gmap Z string) (p : EndpointPort) : gmap Z string :=
  <[EndpointPort_Port p := EndpointPort_Name p]> m.

Definition addSubset (m : gmap Z string) (ept : EndpointSubset) : gmap Z string :=
  foldl insertPort m (Ports ept).

Definition endpointPortIndex (endpoints : option Endpoints) (err : option error)
  : gmap Z string :=
  let m : gmap Z string := ∅ in
  match err, endpoints with
  | None, Some endpoints =>
      if (0 <? List.length (Subsets endpoints))%nat
      then foldl addSubset m (Subsets endpoints)
      else m
  | _, _ => m
  end.

(** Lines 190-210 of the source: the loop over the declared ports.  The
    two slices grow by [append]; a template failure leaves the loop with
    the error. *)
Fixpoint renderPorts (t : Template) (ip : string) (m : gmap Z string)
    (ports : list ServicePort) (urls portNames : list string)
  : result (list string * list string) :=
  match ports with
  | [] => Ok (urls, portNames)
  | port :: ports' =>
      if 0 <? NodePort port then
        match Execute t {| IP := ip;
                           Port := NodePort port;
                           Name_ := index m (IntVal (TargetPort port)) |} with
        | Err err => Err err
        | Ok doc =>
            renderPorts t ip m ports'
              (urls ++ [doc])%list
              (portNames ++ [index m (IntVal (TargetPort port))])%list
        end
      else renderPorts t ip m ports' urls portNames
  end.

Section Package.

Context {W : Type}.

(** [K8s] is the current [K8sClient]. *)
Variable K8s : K8sClient W.

Definition printURLsForService (c : CoreV1Interface W)
    (ip service namespace : string) (t : option Template)
  : M W (SvcURL * option error) :=
  match t with
  | None =>
      ret (SvcURL_zero,
           Some (errors_New
             "Error, attempted to generate service url with nil --format template"))
  | Some t =>
      r <- call (Services_Get c namespace service) ;;
      match r with
      | Err err =>
          ret (SvcURL_zero,
               Some (errors_Wrap err
                 ("service '" +:+ service +:+ "' could not be found running")))
      | Ok svc =>
          e <- call (Endpoints_Get c namespace service) ;;
          let m := endpointPortIndex (fst e) (snd e) in
          match renderPorts t ip m (Spec_Ports svc) [] [] with
          | Err err => ret (SvcURL_zero, Some err)
          | Ok (urls, portNames) =>
              ret ({| Namespace := Service_Namespace svc;
                      Name := Service_Name svc;
                      URLs := urls;
                      PortNames := portNames |}, None)
          end
      end
  end.

(** [GetServiceURLsForService] returns a [SvcURL] object for a service
    in a namespace. *)
Definition GetServiceURLsForService (api : API W)
    (namespace service : string) (t : option Template)
  : M W (SvcURL * option error) :=
  h <- call (CheckIfHostExistsAndLoad api) ;;
  match h with
  | Err err =>
      ret (SvcURL_zero,
           Some (errors_Wrap err "Error checking if api exist and loading it"))
  | Ok host =>
      i <- call (Driver_GetIP host) ;;
      match i with
      | Err err =>
          ret (SvcURL_zero, Some (errors_Wrap err "Error getting ip from host"))
      | Ok ip =>
          c <- call (GetCoreClient K8s) ;;
          match c with
          | Err err => ret (SvcURL_zero, Some err)
          | Ok client => printURLsForService client ip service namespace t
          end
      end
  end.

(** [CheckService] checks if a service is listening on a port. *)
Definition CheckService (namespace service : string) : M W (option error) :=
  c <- call (GetCoreClient K8s) ;;
  match c with
  | Err err => ret (Some (errors_Wrap err "Error getting kubernetes client"))
  | Ok client =>
      r <- call (Services_Get client namespace service) ;;
      match r with
      | Err err =>
          ret (Some (RetriableError
                 (errors_Wrap err ("Error getting service " +:+ service))))
      | Ok svc =>
          if (List.length (Spec_Ports svc) =? 0)%nat
          then ret (Some (fmt_Errorf
                      (namespace +:+ ":" +:+ service +:+ " has no ports")))
          else emit (glog_Infof "Found service: %+v" svc) ;;; ret None
      end
  end.

(** ** The exposure orchestrator *)

(** [retry.Expo(callback, initInterval, maxTime)], the exponential
    backoff primitive of [pkg/util/retry]; the durations are in
    nanoseconds. *)
Variable retry_Expo : M W (option error) -> Z -> Z -> M W (option error).

(** [browser.OpenURL]. *)
Variable browser_OpenURL : string -> Call W (option error).

(** [net/url.Parse]. *)
Variable url_Parse : string -> option url.URL.

(** The per-URL loop at the end of [WaitAndMaybeOpenService]. *)
Fixpoint openURLs (namespace service : string) (urlMode https : bool)
    (urls : list string) : M W unit :=
  match urls with
  | [] => ret tt
  | bareURLString :: urls' =>
      let r := OptionallyHTTPSFormattedURLString url_Parse bareURLString https in
      let urlString := fst r in
      let isHTTPSchemedURL := snd r in
      (if (urlMode || negb isHTTPSchemedURL)%bool
       then emit (out_T Empty urlString ∅)
       else
         emit (out_T Celebrate
           "Opening kubernetes service  {{.namespace_name}}/{{.service_name}} in default browser..."
           {[ "namespace_name" := VString namespace;
              "service_name" := VString service ]}) ;;;
         err <- call (browser_OpenURL urlString) ;;
         match err with
         | Some err =>
             emit (out_ErrT Empty "browser failed to open url: {{.error}}"
                     {[ "error" := VError err ]})
         | None => ret tt
         end) ;;;
      openURLs namespace service urlMode https urls'
  end.

(** [WaitAndMaybeOpenService] waits for a service, and opens it when
    running. *)
Definition WaitAndMaybeOpenService (api : API W) (namespace service : string)
    (urlTemplate : option Template) (urlMode https : bool)
    (wait interval : Z) : M W (option error) :=
  let interval := if interval =? 0 then 1 else interval in
  let chkSVC := CheckService namespace service in
  err <- retry_Expo chkSVC (time.Seconds interval) (time.Seconds wait) ;;
  match err with
  | Some err =>
      ret (Some (errors_Wrap err
             ("Could not find finalized endpoint being pointed to by " +:+ service)))
  | None =>
      r <- GetServiceURLsForService api namespace service urlTemplate ;;
      match snd r with
      | Some err =>
          ret (Some (errors_Wrap err
            "Check that minikube is running and that you have specified the correct namespace"))
      | None =>
          let serviceURL := fst r in
          (if negb urlMode then
             let data :=
               if (List.length (URLs serviceURL) =? 0)%nat
               then [[namespace; service; EmptyString; "No node port"]]
               else [[namespace; service;
                      strings.Join (PortNames serviceURL) newline;
                      strings.Join (URLs serviceURL) newline]] in
             emit (PrintServiceList data)
           else ret tt) ;;;
          if (List.length (URLs serviceURL) =? 0)%nat then
            emit (out_T Sad
              "service {{.namespace_name}}/{{.service_name}} has no node port"
              {[ "namespace_name" := VString namespace;
                 "service_name" := VString service ]}) ;;;
            ret None
          else
            openURLs namespace service urlMode https (URLs serviceURL) ;;;
            ret None
      end
  end.

(** ** The secret lifecycle manager *)

(** [DeleteSecret] deletes a secret from a namespace. *)
Definition DeleteSecret (namespace name : string) : M W (option error) :=
  c <- call (GetCoreClient K8s) ;;
  match c with
  | Err err => ret (Some (RetriableError err))
  | Ok client =>
      err <- call (Secrets_Delete client namespace name) ;;
      match err with
      | Some err => ret (Some (RetriableError err))
      | None => ret None
      end
  end.

(** [CreateSecret] creates or modifies secrets.  The object the lookup
    hands back is dereferenced whatever the lookup's error was, so a nil
    object is a run-time panic. *)
Definition CreateSecret (namespace name : string)
    (dataValues labels : gmap string string) : M W outcome :=
  c <- call (GetCoreClient K8s) ;;
  match c with
  | Err err => ret (Returned (Some (RetriableError err)))
  | Ok client =>
      g <- call (Secrets_Get client namespace name) ;;
      match fst g with
      | None => ret Panicked
      | Some secret =>
          d <- (if (0 <? String.length (Secret_Name secret))%nat
                then DeleteSecret namespace name
                else ret None) ;;
          match d with
          | Some err => ret (Returned (Some (RetriableError err)))
          | None =>
              let data : gmap string (list Byte.byte) :=
                list_byte_of_string <$> dataValues in
              let secretObj :=
                {| Secret_Name := name;
                   Labels := labels;
                   Data := data;
                   Secret_Type := SecretTypeOpaque |} in
              r <- call (Secrets_Create client namespace secretObj) ;;
              match r with
              | Err err => ret (Returned (Some (RetriableError err)))
              | Ok _ => ret (Returned None)
              end
          end
      end
  end.

End Package.

(** ** A reference cluster

    An in-memory instance of the interfaces above, in the manner of
    client-go's fake clientset: objects are stored under their namespace
    and name, [Get] and [Delete] of an absent object fail with a
    not-found error, [Create] of a present one fails with an
    already-exists error, and a failed [Get] hands back an empty, non-nil
    object as the typed REST client does.  The retry primitive of this
    cluster makes a single attempt and records the durations it was
    started with; its browser records the URLs it was asked to open. *)

Module fake.

(** A stored secret; its name is the key it is stored under. *)
Record SecretBody := {
  body_Labels : gmap string string;
  body_Data : gmap string (list Byte.byte);
  body_Type : SecretType
}.

Record Cluster := {
  services : gmap (string * string) Service;
  endpoints : gmap (string * string) Endpoints;
  secrets : gmap (string * string) SecretBody;
  hostIP : string;
  polls : list (Z * Z);
  opened : list string
}.

Definition withSecrets (c : Cluster) (s : gmap (string * string) SecretBody)
  : Cluster :=
  {| services := services c; endpoints := endpoints c; secrets := s;
     hostIP := hostIP c; polls := polls c; opened := opened c |}.

Definition withPoll (c : Cluster) (p : Z * Z) : Cluster :=
  {| services := services c; endpoints := endpoints c; secrets := secrets c;
     hostIP := hostIP c; polls := (polls c ++ [p])%list; opened := opened c |}.

Definition withOpened (c : Cluster) (u : string) : Cluster :=
  {| services := services c; endpoints := endpoints c; secrets := secrets c;
     hostIP := hostIP c; polls := polls c; opened := (opened c ++ [u])%list |}.

Definition notFound (kind name : string) : error :=
  errors_New (kind +:+ " " +:+ name +:+ " not found").

Definition alreadyExists (kind name : string) : error :=
  errors_New (kind +:+ " " +:+ name +:+ " already exists").

Definition toSecret (name : string) (b : SecretBody) : Secret :=
  {| Secret_Name := name; Labels := body_Labels b;
     Data := body_Data b; Secret_Type := body_Type b |}.

Definition bodyOf (s : Secret) : SecretBody :=
  {| body_Labels := Labels s; body_Data := Data s; body_Type := Secret_Type s |}.

(** [&v1.Secret{}]. *)
Definition emptySecret : Secret :=
  {| Secret_Name := EmptyString; Labels := ∅; Data := ∅;
     Secret_Type := SecretTypeOther EmptyString |}.

Definition servicesGet (ns name : string) : Call Cluster (result Service) :=
  fun c =>
    match services c !! (ns, name) with
    | Some svc => (Ok svc, c)
    | None => (Err (notFound "services" name), c)
    end.

Definition endpointsGet (ns name : string)
  : Call Cluster (option Endpoints * option error) :=
  fun c =>
    match endpoints c !! (ns, name) with
    | Some e => ((Some e, None), c)
    | None => ((Some {| Subsets := [] |}, Some (notFound "endpoints" name)), c)
    end.

Definition secretsGet (ns name : string)
  : Call Cluster (option Secret * option error) :=
  fun c =>
    match secrets c !! (ns, name) with
    | Some b => ((Some (toSecret name b), None), c)
    | None => ((Some emptySecret, Some (notFound "secrets" name)), c)
    end.

Definition secretsDelete (ns name : string) : Call Cluster (option error) :=
  fun c =>
    match secrets c !! (ns, name) with
    | Some _ => (None, withSecrets c (delete (ns, name) (secrets c)))
    | None => (Some (notFound "secrets" name), c)
    end.

Definition secretsCreate (ns : string) (obj : Secret)
  : Call Cluster (result Secret) :=
  fun c =>
    if String.eqb (Secret_Name obj) EmptyString
    then (Err (errors_New "name is required"), c)
    else
      match secrets c !! (ns, Secret_Name obj) with
      | Some _ => (Err (alreadyExists "secrets" (Secret_Name obj)), c)
      | None =>
          (Ok obj,
           withSecrets c (<[(ns, Secret_Name obj) := bodyOf obj]> (secrets c)))
      end.

Definition client : CoreV1Interface Cluster :=
  {| Services_Get := servicesGet;
     Endpoints_Get := endpointsGet;
     Secrets_Get := secretsGet;
     Secrets_Delete := secretsDelete;
     Secrets_Create := secretsCreate |}.

Definition K8s : K8sClient Cluster :=
  {| GetCoreClient := fun c => (Ok client, c) |}.

(** A client getter that cannot reach the cluster. *)
Definition K8sDown : K8sClient Cluster :=
  {| GetCoreClient := fun c => (Err (errors_New "kubeConfig: unreachable"), c) |}.

Definition host : Host Cluster :=
  {| Driver_GetIP := fun c => (Ok (hostIP c), c) |}.

Definition api : API Cluster :=
  {| CheckIfHostExistsAndLoad := fun c => (Ok host, c) |}.

(** One attempt, after noting the initial interval and the time
    budget. *)
Definition Expo (callback : M Cluster (option error))
    (initInterval maxTime : Z) : M Cluster (option error) :=
  fun s => callback (withPoll (fst s) (initInterval, maxTime), snd s).

Definition OpenURL (u : string) : Call Cluster (option error) :=
  fun c => (None, withOpened c u).

Definition empty : Cluster :=
  {| services := ∅; endpoints := ∅; secrets := ∅;
     hostIP := "192.168.99.100"; polls := []; opened := [] |}.

(** Decimal text of a port number, as [{{.Port}}] prints it. *)
Definition portText (p : Z) : string :=
  NilEmpty.string_of_int (Z.to_int p).

(** The default format, [http://{{.IP}}:{{.Port}}]. *)
Definition defaultTemplate : Template :=
  {| Execute := fun d => Ok ("http://" +:+ IP d +:+ ":" +:+ portText (Port d)) |}.

(** A template that cannot render port 30001. *)
Definition brokenTemplate : Template :=
  {| Execute := fun d =>
       if Port d =? 30001
       then Err (errors_New "template: can't evaluate field")
       else Ok ("http://" +:+ IP d +:+ ":" +:+ portText (Port d)) |}.

(** A cluster with a service [default/web] exposing two of its three
    ports on the node, a service [default/internal] without node ports, a
    service [default/empty] without ports, and one secret. *)
Definition web : Service :=
  {| Service_Name := "web";
     Service_Namespace := "default";
     Spec_Ports :=
       [ {| ServicePort_Name := "http"; ServicePort_Port := 80;
            TargetPort := FromInt 8080; NodePort := 30000 |};
         {| ServicePort_Name := "metrics"; ServicePort_Port := 9090;
            TargetPort := FromInt 9090; NodePort := 0 |};
         {| ServicePort_Name := "admin"; ServicePort_Port := 8443;
            TargetPort := FromString "admin"; NodePort := 30001 |} ] |}.

Definition webEndpoints : Endpoints :=
  {| Subsets :=
       [ {| Ports := [ {| EndpointPort_Name := "http-old"; EndpointPort_Port := 8080 |};
                       {| EndpointPort_Name := "metrics"; EndpointPort_Port := 9090 |} ] |};
         {| Ports := [ {| EndpointPort_Name := "http"; EndpointPort_Port := 8080 |} ] |} ] |}.

Definition internal : Service :=
  {| Service_Name := "internal";
     Service_Namespace := "default";
     Spec_Ports :=
       [ {| ServicePort_Name := "grpc"; ServicePort_Port := 50051;
            TargetPort := FromInt 50051; NodePort := 0 |} ] |}.

Definition noPorts : Service :=
  {| Service_Name := "empty"; Service_Namespace := "default"; Spec_Ports := [] |}.

Definition demo : Cluster :=
  {| services := {[ ("default", "web") := web;
                    ("default", "internal") := internal;
                    ("default", "empty") := noPorts ]};
     endpoints := {[ ("default", "web") := webEndpoints ]};
     secrets := {[ ("default", "token") :=
                     {| body_Labels := ∅;
                        body_Data := {[ "key" := list_byte_of_string "old" ]};
                        body_Type := SecretTypeOpaque |} ]};
     hostIP := "192.168.99.100";
     polls := [];
     opened := [] |}.

End fake.

(** ** Vocabulary of the specification *)

(** [j] is the offset of the leftmost occurrence of [sub] in [s]. *)
Definition firstOccurrence (s sub : string) (j : nat) : Prop :=
  strings.HasPrefix (strings.drop j s) sub = true /\
  forall i, (i < j)%nat -> strings.HasPrefix (strings.drop i s) sub = false.

(** [sub] does not occur in [s]. *)
Definition noOccurrence (s sub : string) : Prop :=
  forall i, strings.HasPrefix (strings.drop i s) sub = false.

(** The declared ports that are reachable from outside: those with a
    strictly positive node port, in declaration order. *)
Definition qualifying (ports : list ServicePort) : list ServicePort :=
  List.filter (fun port => 0 <? NodePort port) ports.

(** The endpoint port name the index [m] resolves a service port to. *)
Definition resolvedName (m : gmap Z string) (port : ServicePort) : string :=
  index m (IntVal (TargetPort port)).

(** One execution of the template for a service port. *)
Definition renderPort (t : Template) (ip : string) (m : gmap Z string)
    (port : ServicePort) : result string :=
  Execute t {| IP := ip; Port := NodePort port; Name_ := resolvedName m port |}.

(** Executing the template on each port in turn, stopping at the first
    failure. *)
Fixpoint renderAll (t : Template) (ip : string) (m : gmap Z string)
    (ports : list ServicePort) : result (list string) :=
  match ports with
  | [] => Ok []
  | port :: ports' =>
      match renderPort t ip m port with
      | Err e => Err e
      | Ok u =>
          match renderAll t ip m ports' with
          | Err e => Err e
          | Ok us => Ok (u :: us)
          end
      end
  end.

(** The endpoint port entries of all subsets, in iteration order. *)
Definition entries (e : Endpoints) : list EndpointPort :=
  flat_map Ports (Subsets e).

(** A service port with the string value of its target port blanked. *)
Definition eraseStrVal (port : ServicePort) : ServicePort :=
  {| ServicePort_Name := ServicePort_Name port;
     ServicePort_Port := ServicePort_Port port;
     TargetPort := {| Type_ := Type_ (TargetPort port);
                      IntVal := IntVal (TargetPort port);
                      StrVal := EmptyString |};
     NodePort := NodePort port |}.

(** The object [CreateSecret] submits. *)
Definition secretObj (name : string) (dataValues labels : gmap string string)
  : Secret :=
  {| Secret_Name := name;
     Labels := labels;
     Data := list_byte_of_string <$> dataValues;
     Secret_Type := SecretTypeOpaque |}.

(** The stored secrets of a namespace that carry a given name. *)
Definition secretsNamed (namespace name : string)
    (store : gmap (string * string) fake.SecretBody)
  : gmap (string * string) fake.SecretBody :=
  filter (fun kv => fst kv = (namespace, name)) store.

(** What [CreateSecret] answers for the outcome of the create call. *)
Definition createAnswer (r : result Secret) : outcome :=
  match r with
  | Err err => Returned (Some (RetriableError err))
  | Ok _ => Returned None
  end.

(** ** Listing services *)

(** [meta.ListOptions], the field the package sets. *)
Record ListOptions := { LabelSelector : string }.

Section Listing.

Context {W : Type}.

(** [typed_core.ServiceInterface], the listing operation; the answer is
    the [Items] of the [core.ServiceList]. *)
Record ServiceInterface := {
  Services_List : ListOptions -> Call W (result (list Service))
}.

Variable K8s : K8sClient W.

(** [client.Services(namespace)]. *)
Variable Services : CoreV1Interface W -> string -> ServiceInterface.

(** [labels.SelectorFromSet(labels.Set{key: value}).String()]. *)
Variable selectorString : string -> string -> string.

(** The loop of [GetServiceURLs] over the listed services. *)
Fixpoint collectServiceURLs (client : CoreV1Interface W) (ip : string)
    (t : option Template) (items : list Service) (serviceURLs : list SvcURL)
  : M W (list SvcURL * option error) :=
  match items with
  | [] => ret (serviceURLs, None)
  | svc :: items' =>
      r <- printURLsForService client ip (Service_Name svc)
             (Service_Namespace svc) t ;;
      match snd r with
      | Some err => ret ([], Some err)
      | None =>
          collectServiceURLs client ip t items' (serviceURLs ++ [fst r])%list
      end
  end.

(** [GetServiceURLs] returns a [SvcURL] object for every service in a
    particular namespace. *)
Definition GetServiceURLs (api : API W) (namespace : string)
    (t : option Template) : M W (list SvcURL * option error) :=
  h <- call (CheckIfHostExistsAndLoad api) ;;
  match h with
  | Err err => ret ([], Some err)
  | Ok host =>
      i <- call (Driver_GetIP host) ;;
      match i with
      | Err err => ret ([], Some err)
      | Ok ip =>
          c <- call (GetCoreClient K8s) ;;
          match c with
          | Err err => ret ([], Some err)
          | Ok client =>
              let serviceInterface := Services client namespace in
              l <- call (Services_List serviceInterface
                           {| LabelSelector := EmptyString |}) ;;
              match l with
              | Err err => ret ([], Some err)
              | Ok svcs => collectServiceURLs client ip t svcs []
              end
          end
      end
  end.

Definition getServiceListFromServicesByLabel (services : ServiceInterface)
    (key value : string) : M W (list Service * option error) :=
  let selector := selectorString key value in
  l <- call (Services_List services {| LabelSelector := selector |}) ;;
  match l with
  | Err err => ret ([], Some (RetriableError err))
  | Ok serviceList => ret (serviceList, None)
  end.

(** [GetServiceListByLabel] returns a ServiceList by label. *)
Definition GetServiceListByLabel (namespace key value : string)
  : M W (list Service * option error) :=
  c <- call (GetCoreClient K8s) ;;
  match c with
  | Err err => ret ([], Some (RetriableError err))
  | Ok client =>
      getServiceListFromServicesByLabel (Services client namespace) key value
  end.

End Listing.

Arguments ServiceInterface W : clear implicits.

(** The reference cluster lists the services of a namespace; it keeps no
    labels, so only the empty selector matches. *)
Definition fake_Services (c : CoreV1Interface fake.Cluster) (namespace : string)
  : ServiceInterface fake.Cluster :=
  {| Services_List := fun opts cl =>
       if String.eqb (LabelSelector opts) EmptyString
       then (Ok (map snd
                   (List.filter
                      (fun kv => String.eqb (fst (fst kv)) namespace)
                      (map_to_list (fake.services cl)))), cl)
       else (Ok [], cl) |}.

(** The selector text of a single equality requirement. *)
Definition equalitySelector (key value : string) : string :=
  key +:+ "=" +:+ value.

(** ** The addon registry (package assets) *)

Module strconv.

(** [strconv.ParseBool]: the twelve spellings it accepts; anything else
    is a syntax error. *)
Definition ParseBool (str : string) : result bool :=
  if (String.eqb str "1" || String.eqb str "t" || String.eqb str "T"
      || String.eqb str "true" || String.eqb str "TRUE"
      || String.eqb str "True")%bool
  then Ok true
  else if (String.eqb str "0" || String.eqb str "f" || String.eqb str "F"
           || String.eqb str "false" || String.eqb str "FALSE"
           || String.eqb str "False")%bool
  then Ok false
  else Err (errors_New ("strconv.ParseBool: parsing " +:+ str
                          +:+ ": invalid syntax")).

End strconv.

Module assets.

Section Registry.

(** [*BinAsset] and its constructor [MustBinAsset(name, targetDir,
    targetName, permissions, isTemplate)], which live in another file of
    the package. *)
Variable BinAsset : Type.
Variable MustBinAsset : string -> string -> string -> string -> bool -> BinAsset.

(** The guest paths of package [constants]. *)
Variables GuestManifestsDir GuestAddonsDir GvisorFilesPath
          GvisorConfigTomlTargetName : string.

(** [Addon] is a named list of assets, that can be enabled. *)
Record Addon := {
  Assets : list BinAsset;
  enabled : bool;
  addonName : string
}.

(** [NewAddon] creates a new Addon. *)
Definition NewAddon (assets : list BinAsset) (enabled : bool)
    (addonName : string) : Addon :=
  {| Assets := assets; enabled := enabled; addonName := addonName |}.

(** [Name] get the addon name. *)
Definition Name (a : Addon) : string := addonName a.

(** [config.Get]: the persisted value of a setting, or the error of its
    lookup. *)
Variable config_Get : string -> result string.

(** [IsEnabled] checks if an Addon is enabled. *)
Definition IsEnabled (a : Addon) : bool * option error :=
  match config_Get (addonName a) with
  | Ok addonStatusText =>
      match strconv.ParseBool addonStatusText with
      | Err err => (false, Some err)
      | Ok addonStatus => (addonStatus, None)
      end
  | Err _ => (enabled a, None)
  end.

(** The entries of the [Addons] map literal, in source order. *)
Definition AddonsList : list (string * Addon) :=
[ ("addon-manager",
   NewAddon
     [ MustBinAsset "deploy/addons/addon-manager.yaml.tmpl"
          GuestManifestsDir "addon-manager.yaml.tmpl" "0640" true ]
     true "addon-manager");
  ("dashboard",
   NewAddon
     [ MustBinAsset "deploy/addons/dashboard/dashboard-clusterrole.yaml"
          GuestAddonsDir "dashboard-clusterrole.yaml" "0640" false;
        MustBinAsset "deploy/addons/dashboard/dashboard-clusterrolebinding.yaml"
          GuestAddonsDir "dashboard-clusterrolebinding.yaml" "0640" false;
        MustBinAsset "deploy/addons/dashboard/dashboard-configmap.yaml"
          GuestAddonsDir "dashboard-configmap.yaml" "0640" false;
        MustBinAsset "deploy/addons/dashboard/dashboard-dp.yaml"
          GuestAddonsDir "dashboard-dp.yaml" "0640" false;
        MustBinAsset "deploy/addons/dashboard/dashboard-ns.yaml"
          GuestAddonsDir "dashboard-ns.yaml" "0640" false;
        MustBinAsset "deploy/addons/dashboard/dashboard-role.yaml"
          GuestAddonsDir "dashboard-role.yaml" "0640" false;
        MustBinAsset "deploy/addons/dashboard/dashboard-rolebinding.yaml"
          GuestAddonsDir "dashboard-rolebinding.yaml" "0640" false;
        MustBinAsset "deploy/addons/dashboard/dashboard-sa.yaml"
          GuestAddonsDir "dashboard-sa.yaml" "0640" false;
        MustBinAsset "deploy/addons/dashboard/dashboard-secret.yaml"
          GuestAddonsDir "dashboard-secret.yaml" "0640" false;
        MustBinAsset "deploy/addons/dashboard/dashboard-svc.yaml"
          GuestAddonsDir "dashboard-svc.yaml" "0640" false ]
     false "dashboard");
  ("default-storageclass",
   NewAddon
     [ MustBinAsset "deploy/addons/storageclass/storageclass.yaml.tmpl"
          GuestAddonsDir "storageclass.yaml" "0640" false ]
     true "default-storageclass");
  ("storage-provisioner",
   NewAddon
     [ MustBinAsset "deploy/addons/storage-provisioner/storage-provisioner.yaml.tmpl"
          GuestAddonsDir "storage-provisioner.yaml" "0640" true ]
     true "storage-provisioner");
  ("storage-provisioner-gluster",
   NewAddon
     [ MustBinAsset "deploy/addons/storage-provisioner-gluster/storage-gluster-ns.yaml.tmpl"
          GuestAddonsDir "storage-gluster-ns.yaml" "0640" false;
        MustBinAsset "deploy/addons/storage-provisioner-gluster/glusterfs-daemonset.yaml.tmpl"
          GuestAddonsDir "glusterfs-daemonset.yaml" "0640" false;
        MustBinAsset "deploy/addons/storage-provisioner-gluster/heketi-deployment.yaml.tmpl"
          GuestAddonsDir "heketi-deployment.yaml" "0640" false;
        MustBinAsset "deploy/addons/storage-provisioner-gluster/storage-provisioner-glusterfile.yaml.tmpl"
          GuestAddonsDir "storage-privisioner-glusterfile.yaml" "0640" false ]
     false "storage-provisioner-gluster");
  ("heapster",
   NewAddon
     [ MustBinAsset "deploy/addons/heapster/influx-grafana-rc.yaml.tmpl"
          GuestAddonsDir "influxGrafana-rc.yaml" "0640" true;
        MustBinAsset "deploy/addons/heapster/grafana-svc.yaml.tmpl"
          GuestAddonsDir "grafana-svc.yaml" "0640" false;
        MustBinAsset "deploy/addons/heapster/influxdb-svc.yaml.tmpl"
          GuestAddonsDir "influxdb-svc.yaml" "0640" false;
        MustBinAsset "deploy/addons/heapster/heapster-rc.yaml.tmpl"
          GuestAddonsDir "heapster-rc.yaml" "0640" true;
        MustBinAsset "deploy/addons/heapster/heapster-svc.yaml.tmpl"
          GuestAddonsDir "heapster-svc.yaml" "0640" false ]
     false "heapster");
  ("efk",
   NewAddon
     [ MustBinAsset "deploy/addons/efk/elasticsearch-rc.yaml.tmpl"
          GuestAddonsDir "elasticsearch-rc.yaml" "0640" true;
        MustBinAsset "deploy/addons/efk/elasticsearch-svc.yaml.tmpl"
          GuestAddonsDir "elasticsearch-svc.yaml" "0640" false;
        MustBinAsset "deploy/addons/efk/fluentd-es-rc.yaml.tmpl"
          GuestAddonsDir "fluentd-es-rc.yaml" "0640" true;
        MustBinAsset "deploy/addons/efk/fluentd-es-configmap.yaml.tmpl"
          GuestAddonsDir "fluentd-es-configmap.yaml" "0640" false;
        MustBinAsset "deploy/addons/efk/kibana-rc.yaml.tmpl"
          GuestAddonsDir "kibana-rc.yaml" "0640" false;
        MustBinAsset "deploy/addons/efk/kibana-svc.yaml.tmpl"
          GuestAddonsDir "kibana-svc.yaml" "0640" false ]
     false "efk");
  ("ingress",
   NewAddon
     [ MustBinAsset "deploy/addons/ingress/ingress-configmap.yaml.tmpl"
          GuestAddonsDir "ingress-configmap.yaml" "0640" false;
        MustBinAsset "deploy/addons/ingress/ingress-rbac.yaml.tmpl"
          GuestAddonsDir "ingress-rbac.yaml" "0640" false;
        MustBinAsset "deploy/addons/ingress/ingress-dp.yaml.tmpl"
          GuestAddonsDir "ingress-dp.yaml" "0640" true ]
     false "ingress");
  ("metrics-server",
   NewAddon
     [ MustBinAsset "deploy/addons/metrics-server/metrics-apiservice.yaml.tmpl"
          GuestAddonsDir "metrics-apiservice.yaml" "0640" false;
        MustBinAsset "deploy/addons/metrics-server/metrics-server-deployment.yaml.tmpl"
          GuestAddonsDir "metrics-server-deployment.yaml" "0640" true;
        MustBinAsset "deploy/addons/metrics-server/metrics-server-service.yaml.tmpl"
          GuestAddonsDir "metrics-server-service.yaml" "0640" false ]
     false "metrics-server");
  ("registry",
   NewAddon
     [ MustBinAsset "deploy/addons/registry/registry-rc.yaml.tmpl"
          GuestAddonsDir "registry-rc.yaml" "0640" false;
        MustBinAsset "deploy/addons/registry/registry-svc.yaml.tmpl"
          GuestAddonsDir "registry-svc.yaml" "0640" false;
        MustBinAsset "deploy/addons/registry/registry-proxy.yaml.tmpl"
          GuestAddonsDir "registry-proxy.yaml" "0640" false ]
     false "registry");
  ("registry-creds",
   NewAddon
     [ MustBinAsset "deploy/addons/registry-creds/registry-creds-rc.yaml.tmpl"
          GuestAddonsDir "registry-creds-rc.yaml" "0640" false ]
     false "registry-creds");
  ("freshpod",
   NewAddon
     [ MustBinAsset "deploy/addons/freshpod/freshpod-rc.yaml.tmpl"
          GuestAddonsDir "freshpod-rc.yaml" "0640" true ]
     false "freshpod");
  ("nvidia-driver-installer",
   NewAddon
     [ MustBinAsset "deploy/addons/gpu/nvidia-driver-installer.yaml.tmpl"
          GuestAddonsDir "nvidia-driver-installer.yaml" "0640" true ]
     false "nvidia-driver-installer");
  ("nvidia-gpu-device-plugin",
   NewAddon
     [ MustBinAsset "deploy/addons/gpu/nvidia-gpu-device-plugin.yaml.tmpl"
          GuestAddonsDir "nvidia-gpu-device-plugin.yaml" "0640" true ]
     false "nvidia-gpu-device-plugin");
  ("logviewer",
   NewAddon
     [ MustBinAsset "deploy/addons/logviewer/logviewer-dp-and-svc.yaml.tmpl"
          GuestAddonsDir "logviewer-dp-and-svc.yaml" "0640" false;
        MustBinAsset "deploy/addons/logviewer/logviewer-rbac.yaml.tmpl"
          GuestAddonsDir "logviewer-rbac.yaml" "0640" false ]
     false "logviewer");
  ("gvisor",
   NewAddon
     [ MustBinAsset "deploy/addons/gvisor/gvisor-pod.yaml.tmpl"
          GuestAddonsDir "gvisor-pod.yaml" "0640" true;
        MustBinAsset "deploy/addons/gvisor/gvisor-runtimeclass.yaml"
          GuestAddonsDir "gvisor-runtimeclass.yaml" "0640" false;
        MustBinAsset "deploy/addons/gvisor/gvisor-config.toml"
          GvisorFilesPath GvisorConfigTomlTargetName "0640" true ]
     false "gvisor") ].

(** [Addons] is the list of addons. *)
Definition Addons : gmap string Addon := list_to_map AddonsList.

End Registry.

Arguments Assets {BinAsset} a.
Arguments enabled {BinAsset} a.
Arguments addonName {BinAsset} a.
Arguments Name {BinAsset} a.
Arguments IsEnabled {BinAsset} config_Get a.

(** ** Collecting the files of the minikube directories *)

(** The octal digit of a value below eight. *)
Definition octalDigit (d : Z) : ascii := ascii_of_nat (48 + Z.to_nat d).

(** The digits of [n] in base eight, most significant first, in front of
    [acc]; [fuel] bounds the number of digits. *)
Fixpoint octalDigits (fuel : nat) (n : Z) (acc : string) : string :=
  match fuel with
  | O => acc
  | S fuel' =>
      let acc' := String (octalDigit (n mod 8)) acc in
      if n / 8 =? 0 then acc' else octalDigits fuel' (n / 8) acc'
  end.

(** [fmt.Sprintf("%o", n)] for an unsigned 32-bit [n], which has at most
    eleven octal digits. *)
Definition formatOctal (n : Z) : string := octalDigits 11 n EmptyString.

(** Lines 368-373 of the source: the permission string of a file whose
    permission bits are [perm]. *)
Definition permStringOf (perm : Z) : string :=
  let permString := formatOctal perm in
  if (String.length permString =? 3)%nat
  then "0" +:+ permString
  else permString.

(** [os.FileInfo], the part the walk reads: [info.Mode().Perm()]. *)
Record FileInfo := { Mode_Perm : Z }.

(** One call [filepath.Walk] makes to its callback. *)
Record Visit := {
  hostpath : string;
  info : FileInfo;
  walkErr : option error
}.

Section MinikubeDir.

(** [CopyableFile] and [NewFileAsset(path, targetDir, targetName,
    permissions)], which live in another file of the package. *)
Variable CopyableFile : Type.
Variable NewFileAsset : string -> string -> string -> string -> result CopyableFile.

(** [util.IsDirectory]. *)
Variable util_IsDirectory : string -> result bool.

(** [filepath.Rel], [filepath.Dir], [filepath.ToSlash], [filepath.Base]
    and [path.Join]. *)
Variable filepath_Rel : string -> string -> result string.
Variables filepath_Dir filepath_ToSlash filepath_Base : string -> string.
Variable path_Join : string -> string -> string.

(** The files and directories [filepath.Walk] visits under a root, in
    the order it visits them.  The callback below never asks to skip a
    directory, so the visits do not depend on its answers. *)
Variable filepath_Walk : string -> list Visit.

(** [localpath.MakeMiniPath]. *)
Variable MakeMiniPath : string -> string.

(** [constants.GuestAddonsDir]. *)
Variable GuestAddonsDir : string.

(** The callback of [addMinikubeDirToAssets]; the slice behind [assets]
    is updated in place, so what it holds survives an error. *)
Definition walkFn (basedir vmpath : string) (assets : list CopyableFile)
    (v : Visit) : list CopyableFile * option error :=
  match walkErr v with
  | Some err => (assets, Some err)
  | None =>
      match util_IsDirectory (hostpath v) with
      | Err err =>
          (assets,
           Some (errors_Wrap err
                   ("checking if " +:+ hostpath v +:+ " is directory")))
      | Ok isDir =>
          if negb isDir then
            let vmdir :=
              if String.eqb vmpath EmptyString then
                match filepath_Rel basedir (hostpath v) with
                | Err err => Err (errors_Wrap err "generating relative path")
                | Ok rPath =>
                    let rPath := filepath_Dir rPath in
                    let rPath := filepath_ToSlash rPath in
                    Ok (path_Join "/" rPath)
                end
              else Ok vmpath in
            match vmdir with
            | Err err => (assets, Some err)
            | Ok vmdir =>
                let permString := permStringOf (Mode_Perm (info v)) in
                match NewFileAsset (hostpath v) vmdir
                        (filepath_Base (hostpath v)) permString with
                | Err err =>
                    (assets,
                     Some (errors_Wrap err
                             ("creating file asset for " +:+ hostpath v)))
                | Ok f => ((assets ++ [f])%list, None)
                end
            end
          else (assets, None)
      end
  end.

(** [filepath.Walk] applied to a callback: the visits are handed over one
    by one until the callback reports an error. *)
Fixpoint walk (fn : list CopyableFile -> Visit -> list CopyableFile * option error)
    (visits : list Visit) (assets : list CopyableFile)
  : list CopyableFile * option error :=
  match visits with
  | [] => (assets, None)
  | v :: visits' =>
      match fn assets v with
      | (assets', Some err) => (assets', Some err)
      | (assets', None) => walk fn visits' assets'
      end
  end.

(** [addMinikubeDirToAssets] adds all the files in the basedir argument
    to the list of files to be copied to the vm.  If vmpath is left
    blank, the files will be transferred to the location according to
    their relative minikube folder path. *)
Definition addMinikubeDirToAssets (basedir vmpath : string)
    (assets : list CopyableFile) : list CopyableFile * option error :=
  walk (walkFn basedir vmpath) (filepath_Walk basedir) assets.

(** [AddMinikubeDirAssets] adds all addons and files to the list of
    files to be copied to the vm. *)
Definition AddMinikubeDirAssets (assets : list CopyableFile)
  : list CopyableFile * option error :=
  match addMinikubeDirToAssets (MakeMiniPath "addons") GuestAddonsDir assets with
  | (assets, Some err) =>
      (assets, Some (errors_Wrap err "adding addons folder to assets"))
  | (assets, None) =>
      match addMinikubeDirToAssets (MakeMiniPath "files") EmptyString assets with
      | (assets, Some err) =>
          (assets, Some (errors_Wrap err "adding files rootfs to assets"))
      | (assets, None) => (assets, None)
      end
  end.

(** A visit that contributes a file: no walk error, and not a
    directory. *)
Definition isFile (v : Visit) : bool :=
  match walkErr v, util_IsDirectory (hostpath v) with
  | None, Ok false => true
  | _, _ => false
  end.

(** [f] is the asset made for the visited file [v]: its target name is
    the base name of the host path, its permissions are the permission
    string of the file, and its target directory is [vmpath], or, when
    [vmpath] is blank, the slash form of the directory of the host path
    relative to [basedir], made absolute. *)
Definition placed (basedir vmpath : string) (v : Visit) (f : CopyableFile)
  : Prop :=
  exists vmdir,
    NewFileAsset (hostpath v) vmdir (filepath_Base (hostpath v))
      (permStringOf (Mode_Perm (info v))) = Ok f /\
    (vmpath <> EmptyString -> vmdir = vmpath) /\
    (vmpath = EmptyString ->
     exists rPath,
       filepath_Rel basedir (hostpath v) = Ok rPath /\
       vmdir = path_Join "/" (filepath_ToSlash (filepath_Dir rPath))).

End MinikubeDir.

(** [GenerateTemplateData] generates template data for template assets;
    [GOARCH] is [runtime.GOARCH]. *)
Record TemplateOpts := {
  Arch : string;
  ExoticArch : string;
  ImageRepository : string
}.

Definition GenerateTemplateData (GOARCH : string) (cfg_ImageRepository : string)
  : TemplateOpts :=
  let a := GOARCH in
  let ea := if negb (String.eqb GOARCH "amd64") then GOARCH else EmptyString in
  {| Arch := a; ExoticArch := ea; ImageRepository := cfg_ImageRepository |}.

(** *** A small instance for the examples *)

(** Assets as the tuples of their constructor arguments. *)
Definition demoBinAsset : Type := (string * string * string * string * bool)%type.

Definition demoMustBinAsset (name targetDir targetName permissions : string)
    (isTemplate : bool) : demoBinAsset :=
  (name, targetDir, targetName, permissions, isTemplate).

Definition demoAddons : gmap string (Addon demoBinAsset) :=
  Addons demoBinAsset demoMustBinAsset "/etc/kubernetes/manifests"
    "/etc/kubernetes/addons" "/tmp/gvisor" "gvisor-config.toml".

(** A configuration that sets three addons and knows no other. *)
Definition demoConfig (name : string) : result string :=
  if String.eqb name "dashboard" then Ok "true"
  else if String.eqb name "addon-manager" then Ok "F"
  else if String.eqb name "ingress" then Ok "yes"
  else Err (errors_New "no such setting").


(** Files as the tuples of the arguments of [NewFileAsset]. *)
Definition demoFile : Type := (string * string * string * string)%type.

Definition demoNewFileAsset (path targetDir targetName permissions : string)
  : result demoFile :=
  if String.eqb targetName "locked"
  then Err (errors_New "open: permission denied")
  else Ok (path, targetDir, targetName, permissions).

(** The text after the last slash, and the text before it. *)
Definition demoBase (p : string) : string :=
  match url.fromLast "/" p with
  | Some tail => strings.drop 1 tail
  | None => p
  end.

Definition demoDir (p : string) : string :=
  match url.fromLast "/" p with
  | Some tail => strings.take (String.length p - String.length tail) p
  | None => "."
  end.

Definition demoRel (basedir p : string) : result string :=
  if strings.HasPrefix p (basedir +:+ "/")
  then Ok (strings.drop (String.length basedir + 1) p)
  else Err (errors_New "Rel: can't make relative").

Definition demoJoin (a b : string) : string :=
  if String.eqb b "." then a else a +:+ b.

Definition demoIsDirectory (p : string) : result bool :=
  Ok (String.eqb p "/m/addons" || String.eqb p "/m/addons/sub"
      || String.eqb p "/m/files" || String.eqb p "/m/files/etc"
      || String.eqb p "/m/broken")%bool.

Definition demoVisit (p : string) (perm : Z) : Visit :=
  {| hostpath := p; info := {| Mode_Perm := perm |}; walkErr := None |}.

(** A minikube directory with two addon files and one rootfs file. *)
Definition demoWalk (root : string) : list Visit :=
  if String.eqb root "/m/addons" then
    [ demoVisit "/m/addons" 493;
      demoVisit "/m/addons/a.yaml" 420;
      demoVisit "/m/addons/sub" 493;
      demoVisit "/m/addons/sub/b.yaml" 36 ]
  else if String.eqb root "/m/files" then
    [ demoVisit "/m/files" 493;
      demoVisit "/m/files/etc" 493;
      demoVisit "/m/files/etc/hosts" 384 ]
  else if String.eqb root "/m/broken" then
    [ demoVisit "/m/broken" 493;
      demoVisit "/m/broken/ok" 420;
      demoVisit "/m/broken/locked" 420;
      demoVisit "/m/broken/later" 420 ]
  else [].

Definition demoMakeMiniPath (name : string) : string := "/m/" +:+ name.

End assets.

(** ** Further vocabulary *)

(** The text [WaitAndMaybeOpenService] prints or opens for a resolved
    URL, and whether that URL goes to the browser outside URL mode. *)
Definition rewrittenURL (url_Parse : string -> option url.URL) (https : bool)
    (bareURLString : string) : string :=
  fst (OptionallyHTTPSFormattedURLString url_Parse bareURLString https).

Definition isHTTPSchemed (url_Parse : string -> option url.URL) (https : bool)
    (bareURLString : string) : bool :=
  snd (OptionallyHTTPSFormattedURLString url_Parse bareURLString https).

(** The nil-template error of [printURLsForService]. *)
Definition nilTemplateError : error :=
  errors_New "Error, attempted to generate service url with nil --format template".

(** The value of a string of octal digits. *)
Fixpoint parseOctalFrom (acc : Z) (s : string) : option Z :=
  match s with
  | EmptyString => Some acc
  | String c s' =>
      let d := Z.of_nat (nat_of_ascii c) - 48 in
      if ((0 <=? d) && (d <? 8))%bool
      then parseOctalFrom (acc * 8 + d) s'
      else None
  end.

Definition parseOctal (s : string) : option Z :=
  match s with
  | EmptyString => None
  | _ => parseOctalFrom 0 s
  end.

(** The table [WaitAndMaybeOpenService] prints outside URL mode. *)
Definition serviceTable (namespace service : string) (serviceURL : SvcURL)
  : Event :=
  PrintServiceList
    (if (List.length (URLs serviceURL) =? 0)%nat
     then [[namespace; service; EmptyString; "No node port"]]
     else [[namespace; service;
            strings.Join (PortNames serviceURL) newline;
            strings.Join (URLs serviceURL) newline]]).

(** The notice for a service without node port. *)
Definition noNodePortNotice (namespace service : string) : Event :=
  out_T Sad "service {{.namespace_name}}/{{.service_name}} has no node port"
    {[ "namespace_name" := VString namespace;
       "service_name" := VString service ]}.

(** ** A second reference cluster

    A service whose target port is declared by name, backed by endpoints
    that hold an entry for port 0 beside an entry carrying the declared
    name, and a service exposed on the node that has no endpoints. *)

Definition fake_named : Service :=
  {| Service_Name := "named";
     Service_Namespace := "default";
     Spec_Ports :=
       [ {| ServicePort_Name := "web"; ServicePort_Port := 80;
            TargetPort := FromString "web"; NodePort := 30002 |} ] |}.

Definition fake_namedEndpoints : Endpoints :=
  {| Subsets :=
       [ {| Ports := [ {| EndpointPort_Name := "web"; EndpointPort_Port := 8080 |};
                       {| EndpointPort_Name := "zero"; EndpointPort_Port := 0 |} ] |} ] |}.

Definition fake_bare : Service :=
  {| Service_Name := "bare";
     Service_Namespace := "default";
     Spec_Ports :=
       [ {| ServicePort_Name := "http"; ServicePort_Port := 80;
            TargetPort := FromInt 8080; NodePort := 30003 |} ] |}.

Definition fake_demoNamed : fake.Cluster :=
  {| fake.services := {[ ("default", "named") := fake_named;
                         ("default", "bare") := fake_bare ]};
     fake.endpoints := {[ ("default", "named") := fake_namedEndpoints ]};
     fake.secrets := ∅;
     fake.hostIP := "192.168.99.100";
     fake.polls := [];
     fake.opened := [] |}.

(** The format [http://{{.IP}}:{{.Port}}/{{.Name}}]. *)
Definition fake_nameTemplate : Template :=
  {| Execute := fun d =>
       Ok ("http://" +:+ IP d +:+ ":" +:+ fake.portText (Port d)
             +:+ "/" +:+ Name_ d) |}.

(** A walk that strays outside its root, and a file system that cannot
    relate such a path to the root. *)
Definition demoStrayWalk (root : string) : list assets.Visit :=
  [ assets.demoVisit (root +:+ "/kept") 420;
    assets.demoVisit "/elsewhere/stray" 420;
    assets.demoVisit (root +:+ "/later") 420 ].

Definition demoNoDirectory (p : string) : result bool := Ok false.

(** * Properties *)

(** ** Substring search and replacement *)

Module strings_facts.
Import strings.

Lemma drop_empty n : drop n EmptyString = EmptyString.
Proof. destruct n; reflexivity. Qed.

Lemma Index_Some s sub j : Index s sub = Some j -> firstOccurrence s sub j.
Proof.
  revert j. induction s as [|c s IH]; intros j; cbn [Index].
  - destruct (HasPrefix EmptyString sub) eqn:E; [|discriminate].
    intros [= <-]. split; [exact E | intros i Hi; lia].
  - destruct (HasPrefix (String c s) sub) eqn:E.
    + intros [= <-]. split; [exact E | intros i Hi; lia].
    + destruct (Index s sub) as [k|] eqn:Ek; [|discriminate].
      cbn. intros [= <-]. destruct (IH k eq_refl) as [Hk Hlt].
      split; [exact Hk|].
      intros [|i] Hi; [exact E|]. cbn. apply Hlt. lia.
Qed.

Lemma Index_None s sub : Index s sub = None -> noOccurrence s sub.
Proof.
  induction s as [|c s IH]; cbn [Index].
  - destruct (HasPrefix EmptyString sub) eqn:E; [discriminate|].
    intros _ i. rewrite drop_empty. exact E.
  - destruct (HasPrefix (String c s) sub) eqn:E; [discriminate|].
    destruct (Index s sub) eqn:Ek; [discriminate|].
    intros _ [|i]; [exact E|]. cbn. apply IH. reflexivity.
Qed.

Lemma take_drop n s : take n s +:+ drop n s = s.
Proof.
  revert s. induction n as [|n IH]; intros [|c s]; try reflexivity.
  exact (f_equal (String c) (IH s)).
Qed.

(** Replacing once rewrites the leftmost occurrence and nothing else. *)
Lemma Replace_once s old new :
  old <> new ->
  Replace s old new 1 =
    match Index s old with
    | Some j => take j s +:+ new +:+ drop (j + String.length old) s
    | None => s
    end.
Proof.
  intros Hne. unfold Replace.
  destruct (String.eqb_spec old new) as [->|_]; [congruence|].
  cbn [replaceLoop]. destruct (Index s old); reflexivity.
Qed.

End strings_facts.


(** ** The HTTPS-upgrade rule *)

Import strings_facts.

Lemma scheme_is_http (url_Parse : string -> option url.URL) s https :
  (exists u, url_Parse s = Some u /\ url.Scheme u = "http") ->
  OptionallyHTTPSFormattedURLString url_Parse s https =
    (if https then strings.Replace s "http" "https" 1 else s, true).
Proof.
  intros (u & Hu & Hs). unfold OptionallyHTTPSFormattedURLString.
  rewrite Hu, Hs. cbn [String.eqb andb]. destruct https; reflexivity.
Qed.

Lemma scheme_not_http (url_Parse : string -> option url.URL) s https :
  (forall u, url_Parse s = Some u -> url.Scheme u <> "http") ->
  OptionallyHTTPSFormattedURLString url_Parse s https = (s, false).
Proof.
  intros H. unfold OptionallyHTTPSFormattedURLString.
  destruct (url_Parse s) as [u|] eqn:Hu; [|reflexivity].
  destruct (String.eqb_spec (url.Scheme u) "http") as [E|_]; [|reflexivity].
  exfalso. exact (H u eq_refl E).
Qed.

(** C3, as amended.  When the parsed scheme of the input is exactly
    [http], [OptionallyHTTPSFormattedURLString] answers [true] whatever
    the flag is; with the flag set the returned string is the input with
    the leftmost occurrence of the text [http] (wherever it is) replaced
    by [https], and the input itself when [http] does not occur; with the
    flag unset the input is returned unchanged.  When the input does not
    parse or has another scheme, the input is returned unchanged with
    [false].  On [http://10.0.0.1:3000] the result is
    [(https://10.0.0.1:3000, true)] with the flag and
    [(http://10.0.0.1:3000, true)] without it; [https://x] with the flag
    gives [(https://x, false)]. *)
Theorem OptionallyHTTPSFormattedURLString_rule :
  (forall (url_Parse : string -> option url.URL) (s : string) (https : bool),
      (exists u, url_Parse s = Some u /\ url.Scheme u = "http") ->
      let r := OptionallyHTTPSFormattedURLString url_Parse s https in
      snd r = true /\
      (https = true ->
         (exists j, firstOccurrence s "http" j /\
            fst r = strings.take j s +:+ "https" +:+ strings.drop (j + 4) s)
         \/ (noOccurrence s "http" /\ fst r = s)) /\
      (https = false -> fst r = s)) /\
  (forall (url_Parse : string -> option url.URL) (s : string) (https : bool),
      (forall u, url_Parse s = Some u -> url.Scheme u <> "http") ->
      OptionallyHTTPSFormattedURLString url_Parse s https = (s, false)) /\
  OptionallyHTTPSFormattedURLString url.Parse "http://10.0.0.1:3000" true
    = ("https://10.0.0.1:3000", true) /\
  OptionallyHTTPSFormattedURLString url.Parse "http://10.0.0.1:3000" false
    = ("http://10.0.0.1:3000", true) /\
  OptionallyHTTPSFormattedURLString url.Parse "https://x" true
    = ("https://x", false).
Proof.
  split; [|split; [|repeat split; vm_compute; reflexivity]].
  - intros url_Parse s https H r. subst r.
    rewrite (scheme_is_http url_Parse s https H). cbn [fst snd].
    split; [reflexivity|]. split.
    + intros ->. rewrite Replace_once by discriminate.
      destruct (strings.Index s "http") as [j|] eqn:E.
      * left. exists j. split; [apply Index_Some; exact E | reflexivity].
      * right. split; [apply Index_None; exact E | reflexivity].
    + intros ->. reflexivity.
  - intros url_Parse s https H. apply scheme_not_http. exact H.
Qed.

Lemma OptionallyHTTPSFormattedURLString_rule_witness :
  let r := OptionallyHTTPSFormattedURLString url.Parse "HTTP://http-svc.local" true in
  snd r = true /\
  (true = true ->
     (exists j, firstOccurrence "HTTP://http-svc.local" "http" j /\
        fst r = strings.take j "HTTP://http-svc.local" +:+ "https"
                  +:+ strings.drop (j + 4) "HTTP://http-svc.local")
     \/ (noOccurrence "HTTP://http-svc.local" "http"
         /\ fst r = "HTTP://http-svc.local")) /\
  (true = false -> fst r = "HTTP://http-svc.local").
Proof.
  apply (proj1 OptionallyHTTPSFormattedURLString_rule
           url.Parse "HTTP://http-svc.local" true).
  exists {| url.Scheme := "http" |}. split; vm_compute; reflexivity.
Defined.

(** The boolean of the second example of C3 is [true] on the code, not
    [false]: the scheme test does not look at the flag. *)
Lemma OptionallyHTTPSFormattedURLString_flag_false :
  OptionallyHTTPSFormattedURLString url.Parse "http://10.0.0.1:3000" false
    <> ("http://10.0.0.1:3000", false).
Proof. vm_compute. discriminate. Qed.

(** ** The service URL resolver *)

Lemma qualifying_cons port ports :
  qualifying (port :: ports) =
    if 0 <? NodePort port then port :: qualifying ports else qualifying ports.
Proof. reflexivity. Qed.

(** The append loop computes the functional rendering of the qualifying
    ports. *)
Lemma renderPorts_renderAll t ip m ports urls names :
  renderPorts t ip m ports urls names =
    match renderAll t ip m (qualifying ports) with
    | Ok us =>
        Ok ((urls ++ us)%list,
            (names ++ map (resolvedName m) (qualifying ports))%list)
    | Err e => Err e
    end.
Proof.
  revert urls names. induction ports as [|port ports IH]; intros urls names.
  - cbn. rewrite !app_nil_r. reflexivity.
  - cbn [renderPorts]. rewrite qualifying_cons.
    destruct (0 <? NodePort port); [|apply IH].
    cbn [renderAll map]. unfold renderPort, resolvedName.
    destruct (Execute t _) as [u|e]; [|reflexivity].
    rewrite IH. fold (resolvedName m port).
    destruct (renderAll t ip m (qualifying ports)) as [us|e]; [|reflexivity].
    rewrite <- !app_assoc. reflexivity.
Qed.

Lemma renderAll_Ok t ip m q us :
  renderAll t ip m q = Ok us <->
  Forall2 (fun port u => renderPort t ip m port = Ok u) q us.
Proof.
  revert us. induction q as [|port q IH]; intros us; cbn [renderAll].
  - split.
    + intros [= <-]. constructor.
    + intros H. inversion H. reflexivity.
  - split.
    + destruct (renderPort t ip m port) as [u|e] eqn:Eu; [|discriminate].
      destruct (renderAll t ip m q) as [us'|e]; [|discriminate].
      intros [= <-]. constructor; [exact Eu | apply IH; reflexivity].
    + intros H. inversion H as [|port' u q' us' Hu Hrest]; subst.
      rewrite Hu. apply IH in Hrest. rewrite Hrest. reflexivity.
Qed.

(** The error of a failed rendering is the error of the first port the
    template fails on. *)
Lemma renderAll_Err t ip m q e :
  renderAll t ip m q = Err e <->
  exists done port rest us,
    q = (done ++ port :: rest)%list /\
    Forall2 (fun port u => renderPort t ip m port = Ok u) done us /\
    renderPort t ip m port = Err e.
Proof.
  revert e. induction q as [|port q IH]; intros e; cbn [renderAll].
  - split; [discriminate|].
    intros (done & p & rest & us & H & _). destruct done; discriminate.
  - destruct (renderPort t ip m port) as [u|e'] eqn:Eu.
    + destruct (renderAll t ip m q) as [us'|e'].
      * split; [discriminate|].
        intros (done & p & rest & us & H & Hd & Hp).
        destruct done as [|d done]; cbn in H; injection H as -> ->.
        -- congruence.
        -- inversion Hd; subst.
           assert (@Ok (list string) us' = Err e) by (apply IH; eauto 10).
           discriminate.
      * split.
        -- intros [= <-]. destruct (proj1 (IH e') eq_refl)
             as (done & p & rest & us & -> & Hd & Hp).
           exists (port :: done), p, rest, (u :: us).
           split; [reflexivity|]. split; [constructor; assumption | exact Hp].
        -- intros (done & p & rest & us & H & Hd & Hp).
           destruct done as [|d done]; cbn in H; injection H as -> ->.
           ++ congruence.
           ++ inversion Hd; subst.
              assert (@Err (list string) e' = Err e) as [= ->]
                by (apply IH; eauto 10).
              reflexivity.
    + split.
      * intros [= <-]. exists [], port, q, []. repeat split; [constructor | exact Eu].
      * intros (done & p & rest & us & H & Hd & Hp).
        destruct done as [|d done]; cbn in H; injection H as -> ->.
        -- congruence.
        -- inversion Hd; subst. congruence.
Qed.

Lemma renderAll_total t ip m q :
  (forall port, In port q -> exists u, renderPort t ip m port = Ok u) ->
  exists us, renderAll t ip m q = Ok us.
Proof.
  induction q as [|port q IH]; intros H; cbn [renderAll]; [eauto|].
  destruct (H port (or_introl eq_refl)) as [u ->].
  destruct IH as [us ->]; [intros p Hp; apply H; right; exact Hp|]. eauto.
Qed.

Lemma renderAll_fails t ip m q port e :
  In port q -> renderPort t ip m port = Err e ->
  exists e' port', In port' q /\ renderPort t ip m port' = Err e'
                   /\ renderAll t ip m q = Err e'.
Proof.
  induction q as [|p q IH]; intros Hin He; [destruct Hin|].
  cbn [renderAll]. destruct (renderPort t ip m p) as [u|e0] eqn:Ep.
  - destruct Hin as [->|Hin]; [congruence|].
    destruct (IH Hin He) as (e' & p' & Hp' & Hr & ->).
    exists e', p'. split; [right; exact Hp' | split; [exact Hr | reflexivity]].
  - exists e0, p. split; [left; reflexivity | split; [exact Ep | reflexivity]].
Qed.

Section Resolver.

Context {W : Type}.
Variable c : CoreV1Interface W.
Variables ip service namespace : string.

(** The resolver with a template, once the two lookups are known. *)
Lemma printURLsForService_eq tpl s svc w1 eps w2 :
  Services_Get c namespace service (fst s) = (Ok svc, w1) ->
  Endpoints_Get c namespace service w1 = (eps, w2) ->
  let m := endpointPortIndex (fst eps) (snd eps) in
  let q := qualifying (Spec_Ports svc) in
  printURLsForService c ip service namespace (Some tpl) s =
    (match renderAll tpl ip m q with
     | Ok us =>
         ({| Namespace := Service_Namespace svc;
             Name := Service_Name svc;
             URLs := us;
             PortNames := map (resolvedName m) q |}, None)
     | Err e => (SvcURL_zero, Some e)
     end, (w2, snd s)).
Proof.
  intros Hs He m q. unfold printURLsForService, bind, call, ret.
  rewrite Hs. cbn [fst snd]. rewrite He.
  rewrite renderPorts_renderAll. fold m q.
  destruct (renderAll tpl ip m q); reflexivity.
Qed.

Lemma printURLsForService_no_service tpl s err w1 :
  Services_Get c namespace service (fst s) = (Err err, w1) ->
  printURLsForService c ip service namespace (Some tpl) s =
    ((SvcURL_zero,
      Some (errors_Wrap err
              ("service '" +:+ service +:+ "' could not be found running"))),
     (w1, snd s)).
Proof.
  intros Hs. unfold printURLsForService, bind, call, ret. rewrite Hs. reflexivity.
Qed.

End Resolver.

(** C1.  The two sequences of a [SvcURL] returned by
    [printURLsForService] always have the same length.  When the call
    returns without an error, there is one URL and one port name per
    declared port with a strictly positive node port, in declaration
    order: [PortNames] lists the resolved endpoint names of those ports
    and [URLs] lists, position by position, the template output for the
    same port and that name.  The call does return without an error
    whenever the template is present, the service is found and the
    template renders every such port. *)
Theorem printURLsForService_ports :
  forall (W : Type) (c : CoreV1Interface W) (ip service namespace : string)
         (t : option Template) (s : W * list Event),
    let r := fst (printURLsForService c ip service namespace t s) in
    List.length (URLs (fst r)) = List.length (PortNames (fst r)) /\
    (snd r = None ->
     exists tpl svc w1 eps w2,
       t = Some tpl /\
       Services_Get c namespace service (fst s) = (Ok svc, w1) /\
       Endpoints_Get c namespace service w1 = (eps, w2) /\
       let m := endpointPortIndex (fst eps) (snd eps) in
       let q := qualifying (Spec_Ports svc) in
       List.length (URLs (fst r)) = List.length q /\
       List.length (PortNames (fst r)) = List.length q /\
       PortNames (fst r) = map (resolvedName m) q /\
       Forall2 (fun port u => renderPort tpl ip m port = Ok u) q (URLs (fst r))) /\
    (forall tpl svc w1 eps w2,
       t = Some tpl ->
       Services_Get c namespace service (fst s) = (Ok svc, w1) ->
       Endpoints_Get c namespace service w1 = (eps, w2) ->
       (forall port, In port (qualifying (Spec_Ports svc)) ->
          exists u,
            renderPort tpl ip (endpointPortIndex (fst eps) (snd eps)) port = Ok u) ->
       snd r = None).
Proof.
  intros W c ip service namespace t s r. subst r.
  destruct t as [tpl|]; [|cbn; split; [reflexivity | split; [discriminate|]];
                          intros; discriminate].
  destruct (Services_Get c namespace service (fst s)) as [[svc|err] w1] eqn:Hs.
  2:{ rewrite (printURLsForService_no_service c ip service namespace tpl s err w1 Hs).
      cbn. split; [reflexivity | split; [discriminate|]]. intros; discriminate. }
  destruct (Endpoints_Get c namespace service w1) as [eps w2] eqn:He.
  rewrite (printURLsForService_eq c ip service namespace tpl s svc w1 eps w2 Hs He).
  set (m := endpointPortIndex (fst eps) (snd eps)).
  set (q := qualifying (Spec_Ports svc)).
  destruct (renderAll tpl ip m q) as [us|e] eqn:Hr; cbn [fst snd URLs PortNames].
  - apply renderAll_Ok in Hr. pose proof (Forall2_length _ _ _ Hr) as Hlen.
    rewrite length_map. split; [symmetry; exact Hlen|]. split.
    + intros _. exists tpl, svc, w1, eps, w2.
      repeat split; try reflexivity; try assumption.
      symmetry; exact Hlen.
    + reflexivity.
  - split; [reflexivity|]. split; [discriminate|].
    intros tpl' svc' w1' eps' w2' [= <-] [= <- <-] He'.
    rewrite He in He'. injection He' as <- <-. intros Hall.
    destruct (renderAll_total tpl ip m q Hall) as [us Hus]. congruence.
Qed.

Lemma printURLsForService_ports_witness :
  let r := fst (printURLsForService fake.client "192.168.99.100" "web" "default"
                  (Some fake.defaultTemplate) (fake.demo, [])) in
  URLs (fst r) = ["http://192.168.99.100:30000"; "http://192.168.99.100:30001"] /\
  exists tpl svc w1 eps w2,
    Some fake.defaultTemplate = Some tpl /\
    Services_Get fake.client "default" "web" fake.demo = (Ok svc, w1) /\
    Endpoints_Get fake.client "default" "web" w1 = (eps, w2) /\
    let m := endpointPortIndex (fst eps) (snd eps) in
    let q := qualifying (Spec_Ports svc) in
    List.length (URLs (fst r)) = List.length q /\
    List.length (PortNames (fst r)) = List.length q /\
    PortNames (fst r) = map (resolvedName m) q /\
    Forall2 (fun port u => renderPort tpl "192.168.99.100" m port = Ok u)
      q (URLs (fst r)).
Proof.
  split; [vm_compute; reflexivity|].
  apply (proj1 (proj2 (printURLsForService_ports _ fake.client "192.168.99.100"
                         "web" "default" (Some fake.defaultTemplate) (fake.demo, [])))).
  vm_compute. reflexivity.
Defined.

(** C5.  Without a template [printURLsForService] fails at once, with a
    plain (not retriable) error, whatever its other inputs are.  When the
    template fails on a qualifying port, the call returns the error of
    the first port it fails on together with the zero [SvcURL]: nothing
    rendered for earlier ports is returned. *)
Theorem printURLsForService_fatal :
  (forall (W : Type) (c : CoreV1Interface W) (ip service namespace : string)
          (s : W * list Event),
      exists e,
        printURLsForService c ip service namespace None s
          = ((SvcURL_zero, Some e), s) /\ isRetriable e = false) /\
  (forall (W : Type) (c : CoreV1Interface W) (ip service namespace : string)
          (tpl : Template) (s : W * list Event) svc w1 eps w2,
      Services_Get c namespace service (fst s) = (Ok svc, w1) ->
      Endpoints_Get c namespace service w1 = (eps, w2) ->
      let m := endpointPortIndex (fst eps) (snd eps) in
      let q := qualifying (Spec_Ports svc) in
      (forall done port rest us e,
          q = (done ++ port :: rest)%list ->
          Forall2 (fun port u => renderPort tpl ip m port = Ok u) done us ->
          renderPort tpl ip m port = Err e ->
          printURLsForService c ip service namespace (Some tpl) s
            = ((SvcURL_zero, Some e), (w2, snd s))) /\
      (forall port e,
          In port q -> renderPort tpl ip m port = Err e ->
          exists e' port',
            In port' q /\ renderPort tpl ip m port' = Err e' /\
            printURLsForService c ip service namespace (Some tpl) s
              = ((SvcURL_zero, Some e'), (w2, snd s)))).
Proof.
  split.
  - intros W c ip service namespace s. eexists. split; reflexivity.
  - intros W c ip service namespace tpl s svc w1 eps w2 Hs He m q.
    pose proof (printURLsForService_eq c ip service namespace tpl s svc w1 eps w2
                  Hs He) as Heq. cbv zeta in Heq. fold m q in Heq.
    split.
    + intros done port rest us e Hq Hd Hp. rewrite Heq.
      assert (renderAll tpl ip m q = Err e) as ->; [|reflexivity].
      apply renderAll_Err. exists done, port, rest, us. auto.
    + intros port e Hin Hp.
      destruct (renderAll_fails tpl ip m q port e Hin Hp) as (e' & p' & Hp' & Hr & Hall).
      exists e', p'. rewrite Heq, Hall. auto.
Qed.

Lemma printURLsForService_fatal_witness :
  exists e' port',
    In port' (qualifying (Spec_Ports fake.web)) /\
    renderPort fake.brokenTemplate "192.168.99.100"
      (endpointPortIndex (Some fake.webEndpoints) None) port' = Err e' /\
    printURLsForService fake.client "192.168.99.100" "web" "default"
      (Some fake.brokenTemplate) (fake.demo, [])
      = ((SvcURL_zero, Some e'), (fake.demo, [])).
Proof.
  refine (proj2 (proj2 printURLsForService_fatal _ fake.client "192.168.99.100"
            "web" "default" fake.brokenTemplate (fake.demo, [])
            fake.web fake.demo (Some fake.webEndpoints, None) fake.demo _ _)
            {| ServicePort_Name := "admin"; ServicePort_Port := 8443;
               TargetPort := FromString "admin"; NodePort := 30001 |}
            (errors_New "template: can't evaluate field") _ _).
  - vm_compute. reflexivity.
  - vm_compute. reflexivity.
  - right. left. reflexivity.
  - vm_compute. reflexivity.
Defined.

(** ** The endpoint port index *)

Lemma foldl_insertPort_other (m : gmap Z string) l k :
  (forall p, In p l -> EndpointPort_Port p <> k) ->
  foldl insertPort m l !! k = m !! k.
Proof.
  revert m. induction l as [|p l IH]; intros m H; [reflexivity|].
  cbn [foldl]. rewrite IH by (intros p' Hp'; apply H; right; exact Hp').
  unfold insertPort. apply lookup_insert_ne. apply H. left. reflexivity.
Qed.

Lemma foldl_insertPort_last (m : gmap Z string) done p rest :
  (forall p', In p' rest -> EndpointPort_Port p' <> EndpointPort_Port p) ->
  foldl insertPort m (done ++ p :: rest) !! EndpointPort_Port p
    = Some (EndpointPort_Name p).
Proof.
  intros H. rewrite foldl_app. cbn [foldl].
  rewrite foldl_insertPort_other by exact H.
  unfold insertPort. apply lookup_insert_eq.
Qed.

Lemma foldl_addSubset (m : gmap Z string) subsets :
  foldl addSubset m subsets = foldl insertPort m (flat_map Ports subsets).
Proof.
  revert m. induction subsets as [|ept subsets IH]; intros m; [reflexivity|].
  cbn [foldl flat_map]. rewrite foldl_app, IH. reflexivity.
Qed.

Lemma endpointPortIndex_entries e :
  endpointPortIndex (Some e) None = foldl insertPort ∅ (entries e).
Proof.
  unfold endpointPortIndex, entries.
  destruct (Subsets e) as [|ept subsets]; [reflexivity|].
  cbn [List.length Nat.ltb Nat.leb]. apply foldl_addSubset.
Qed.

(** C6.  The index built from the endpoints maps a port number to the
    name of its last entry in iteration order over the subsets and their
    ports, whatever earlier entries said, and maps nothing else; it is
    empty when the endpoints could not be fetched. *)
Theorem endpointPortIndex_last_wins :
  (forall (e : Endpoints) done p rest,
      entries e = (done ++ p :: rest)%list ->
      (forall p', In p' rest -> EndpointPort_Port p' <> EndpointPort_Port p) ->
      endpointPortIndex (Some e) None !! EndpointPort_Port p
        = Some (EndpointPort_Name p)) /\
  (forall (e : Endpoints) k,
      (forall p, In p (entries e) -> EndpointPort_Port p <> k) ->
      endpointPortIndex (Some e) None !! k = None) /\
  (forall endpoints err,
      endpoints = None \/ err <> None -> endpointPortIndex endpoints err = ∅).
Proof.
  split; [|split].
  - intros e done p rest He Hlast.
    rewrite endpointPortIndex_entries, He. apply foldl_insertPort_last, Hlast.
  - intros e k H. rewrite endpointPortIndex_entries.
    rewrite foldl_insertPort_other by exact H. apply lookup_empty.
  - intros endpoints err [-> | Herr]; unfold endpointPortIndex.
    + destruct err; reflexivity.
    + destruct err; [reflexivity | congruence].
Qed.

Lemma endpointPortIndex_last_wins_witness :
  endpointPortIndex (Some fake.webEndpoints) None !! 8080 = Some "http".
Proof.
  apply (proj1 endpointPortIndex_last_wins fake.webEndpoints
           [ {| EndpointPort_Name := "http-old"; EndpointPort_Port := 8080 |};
             {| EndpointPort_Name := "metrics"; EndpointPort_Port := 9090 |} ]
           {| EndpointPort_Name := "http"; EndpointPort_Port := 8080 |}
           []).
  - reflexivity.
  - intros p' [].
Defined.

(** ** Target ports declared by name *)

Lemma renderPorts_eraseStrVal t ip m ports urls names :
  renderPorts t ip m (map eraseStrVal ports) urls names
    = renderPorts t ip m ports urls names.
Proof.
  revert urls names. induction ports as [|port ports IH]; intros urls names;
    [reflexivity|].
  cbn [map renderPorts eraseStrVal NodePort TargetPort IntVal].
  destruct (0 <? NodePort port); [|apply IH].
  destruct (Execute t _); [apply IH | reflexivity].
Qed.

(** C10.  For a service port whose target port is declared by name, the
    resolver looks up the integer value of the target port, which is 0:
    the name reported for that port, and the name given to the template
    for it, is what the endpoint index holds for port 0, whatever that
    is, and the empty string when the index has no port 0.  The declared
    name is not consulted: blanking the string values of all target ports
    leaves the outcome of the port loop unchanged. *)
Theorem printURLsForService_named_target_port :
  (forall (W : Type) (c : CoreV1Interface W) (ip service namespace : string)
          (tpl : Template) (s : W * list Event) svc w1 eps w2,
      Services_Get c namespace service (fst s) = (Ok svc, w1) ->
      Endpoints_Get c namespace service w1 = (eps, w2) ->
      let m := endpointPortIndex (fst eps) (snd eps) in
      let r := fst (printURLsForService c ip service namespace (Some tpl) s) in
      snd r = None ->
      forall (i : nat) port name,
        qualifying (Spec_Ports svc) !! i = Some port ->
        TargetPort port = FromString name ->
        PortNames (fst r) !! i = Some (index m 0) /\
        (forall n, m !! 0 = Some n ->
           PortNames (fst r) !! i = Some n /\
           exists u, URLs (fst r) !! i = Some u /\
                     Execute tpl {| IP := ip; Port := NodePort port;
                                    Name_ := n |} = Ok u) /\
        (m !! 0 = None ->
           PortNames (fst r) !! i = Some EmptyString /\
           exists u, URLs (fst r) !! i = Some u /\
                     Execute tpl {| IP := ip; Port := NodePort port;
                                    Name_ := EmptyString |} = Ok u) /\
        exists u, URLs (fst r) !! i = Some u /\
                  Execute tpl {| IP := ip; Port := NodePort port;
                                 Name_ := index m 0 |} = Ok u) /\
  (forall t ip m ports,
      renderPorts t ip m (map eraseStrVal ports) [] []
        = renderPorts t ip m ports [] []).
Proof.
  split; [|intros; apply renderPorts_eraseStrVal].
  intros W c ip service namespace tpl s svc w1 eps w2 Hs He m r. subst r.
  rewrite (printURLsForService_eq c ip service namespace tpl s svc w1 eps w2 Hs He).
  fold m. set (q := qualifying (Spec_Ports svc)).
  destruct (renderAll tpl ip m q) as [us|e] eqn:Hr; cbn [fst snd]; [|discriminate].
  intros _ i port name Hi Htp. cbn [PortNames URLs].
  assert (resolvedName m port = index m 0) as Hname
    by (unfold resolvedName; rewrite Htp; reflexivity).
  assert (map (resolvedName m) q !! i = Some (index m 0)) as Hpn
    by (rewrite list_lookup_fmap, Hi; cbn; rewrite Hname; reflexivity).
  assert (exists u, us !! i = Some u /\
                    Execute tpl {| IP := ip; Port := NodePort port;
                                   Name_ := index m 0 |} = Ok u) as Hurl.
  { apply renderAll_Ok in Hr.
    destruct (Forall2_lookup_l _ _ _ _ _ Hr Hi) as (u & Hu & Hren).
    exists u. split; [exact Hu|].
    unfold renderPort in Hren. rewrite Hname in Hren. exact Hren. }
  split; [exact Hpn|]. split; [|split; [|exact Hurl]].
  - intros n H0.
    assert (index m 0 = n) as Hn by (unfold index; rewrite H0; reflexivity).
    rewrite Hn in Hpn, Hurl. split; assumption.
  - intros H0.
    assert (index m 0 = EmptyString) as Hn
      by (unfold index; rewrite H0; reflexivity).
    rewrite Hn in Hpn, Hurl. split; assumption.
Qed.

Lemma printURLsForService_named_target_port_witness :
  let r := fst (printURLsForService fake.client "192.168.99.100" "named" "default"
                  (Some fake_nameTemplate) (fake_demoNamed, [])) in
  PortNames (fst r) !! 0%nat = Some "zero" /\
  exists u, URLs (fst r) !! 0%nat = Some u /\
            Execute fake_nameTemplate
              {| IP := "192.168.99.100"; Port := 30002; Name_ := "zero" |} = Ok u.
Proof.
  refine (proj1 (proj2 (proj1 printURLsForService_named_target_port _ fake.client
            "192.168.99.100" "named" "default" fake_nameTemplate
            (fake_demoNamed, [])
            fake_named fake_demoNamed (Some fake_namedEndpoints, None)
            fake_demoNamed _ _ _ 0%nat
            {| ServicePort_Name := "web"; ServicePort_Port := 80;
               TargetPort := FromString "web"; NodePort := 30002 |}
            "web" _ _)) "zero" _); vm_compute; reflexivity.
Defined.

(** ** The readiness check *)

(** C2.  Once the client is obtained, [CheckService] returns a
    [RetriableError] wrapping the cause when the service cannot be
    fetched, a plain error when the service is fetched but declares no
    port, and no error when it declares at least one port. *)
Theorem CheckService_classification :
  forall (W : Type) (K8s : K8sClient W) (namespace service : string)
         (s : W * list Event) client w1,
    GetCoreClient K8s (fst s) = (Ok client, w1) ->
    (forall err w2,
        Services_Get client namespace service w1 = (Err err, w2) ->
        CheckService K8s namespace service s
          = (Some (RetriableError
                     (errors_Wrap err ("Error getting service " +:+ service))),
             (w2, snd s))) /\
    (forall svc w2,
        Services_Get client namespace service w1 = (Ok svc, w2) ->
        Spec_Ports svc = [] ->
        exists e,
          CheckService K8s namespace service s = (Some e, (w2, snd s)) /\
          isRetriable e = false /\
          e = fmt_Errorf (namespace +:+ ":" +:+ service +:+ " has no ports")) /\
    (forall svc w2,
        Services_Get client namespace service w1 = (Ok svc, w2) ->
        Spec_Ports svc <> [] ->
        fst (CheckService K8s namespace service s) = None).
Proof.
  intros W K8s namespace service s client w1 Hc.
  unfold CheckService, bind, call, ret. rewrite Hc. cbn [fst snd].
  split; [|split].
  - intros err w2 ->. reflexivity.
  - intros svc w2 -> ->. eexists. split; [reflexivity|]. split; reflexivity.
  - intros svc w2 -> Hne. destruct (Spec_Ports svc); [congruence | reflexivity].
Qed.

Lemma CheckService_classification_witness :
  CheckService fake.K8s "default" "missing" (fake.demo, [])
    = (Some (RetriableError
               (errors_Wrap (fake.notFound "services" "missing")
                  ("Error getting service " +:+ "missing"))),
       (fake.demo, [])) /\
  (exists e,
      CheckService fake.K8s "default" "empty" (fake.demo, [])
        = (Some e, (fake.demo, [])) /\
      isRetriable e = false /\
      e = fmt_Errorf ("default" +:+ ":" +:+ "empty" +:+ " has no ports")) /\
  fst (CheckService fake.K8s "default" "web" (fake.demo, [])) = None.
Proof.
  split; [|split].
  - apply (proj1 (CheckService_classification _ fake.K8s "default" "missing"
                    (fake.demo, []) fake.client fake.demo eq_refl)).
    vm_compute. reflexivity.
  - apply (proj1 (proj2 (CheckService_classification _ fake.K8s "default" "empty"
                           (fake.demo, []) fake.client fake.demo eq_refl))
             fake.noPorts).
    + vm_compute. reflexivity.
    + reflexivity.
  - apply (proj2 (proj2 (CheckService_classification _ fake.K8s "default" "web"
                           (fake.demo, []) fake.client fake.demo eq_refl))
             fake.web fake.demo).
    + vm_compute. reflexivity.
    + discriminate.
Defined.

(** ** The exposure orchestrator *)

Section Orchestrator.

Context {W : Type}.
Variable K8s : K8sClient W.
Variable retry_Expo : M W (option error) -> Z -> Z -> M W (option error).
Variable browser_OpenURL : string -> Call W (option error).
Variable url_Parse : string -> option url.URL.
Variable api : API W.
Variables namespace service : string.
Variable urlTemplate : option Template.
Variables urlMode https : bool.

(** The orchestrator after a successful poll and a resolution without
    URLs. *)
Lemma WaitAndMaybeOpenService_no_node_port wait interval s s1 serviceURL s2 :
  retry_Expo (CheckService K8s namespace service)
    (time.Seconds (if interval =? 0 then 1 else interval))
    (time.Seconds wait) s = (None, s1) ->
  GetServiceURLsForService K8s api namespace service urlTemplate s1
    = ((serviceURL, None), s2) ->
  URLs serviceURL = [] ->
  WaitAndMaybeOpenService K8s retry_Expo browser_OpenURL url_Parse api
    namespace service urlTemplate urlMode https wait interval s
  = (None,
     (fst s2,
      (snd s2
       ++ (if urlMode then []
           else [PrintServiceList
                   [[namespace; service; EmptyString; "No node port"]]])
       ++ [out_T Sad
             "service {{.namespace_name}}/{{.service_name}} has no node port"
             {[ "namespace_name" := VString namespace;
                "service_name" := VString service ]}])%list)).
Proof.
  intros Hpoll Hres Hurls. unfold WaitAndMaybeOpenService, bind.
  rewrite Hpoll, Hres. cbn [fst snd]. rewrite Hurls. cbn [List.length Nat.eqb].
  destruct urlMode; cbn [negb]; unfold emit, ret; cbn [fst snd].
  - rewrite app_nil_l. reflexivity.
  - rewrite <- app_assoc. reflexivity.
Qed.

(** An interval of zero is the interval of one second. *)
Lemma WaitAndMaybeOpenService_interval_zero wait s :
  WaitAndMaybeOpenService K8s retry_Expo browser_OpenURL url_Parse api
    namespace service urlTemplate urlMode https wait 0 s
  = WaitAndMaybeOpenService K8s retry_Expo browser_OpenURL url_Parse api
      namespace service urlTemplate urlMode https wait 1 s.
Proof. reflexivity. Qed.

End Orchestrator.

(** On the reference cluster, reading services and endpoints leaves the
    cluster as it is, and opening URLs does not touch the record of
    polls. *)
Lemma CheckService_fake_world namespace service c l :
  fst (snd (CheckService fake.K8s namespace service (c, l))) = c.
Proof.
  unfold CheckService, bind, call, ret, emit. cbn.
  unfold fake.servicesGet. destruct (fake.services c !! _) as [svc|]; cbn;
    [|reflexivity].
  destruct (Spec_Ports svc); reflexivity.
Qed.

Lemma GetServiceURLsForService_fake_world namespace service t c l :
  snd (GetServiceURLsForService fake.K8s fake.api namespace service t (c, l))
    = (c, l).
Proof.
  unfold GetServiceURLsForService, printURLsForService, bind, call, ret. cbn.
  destruct t as [tpl|]; [|reflexivity]. cbn.
  unfold fake.servicesGet. destruct (fake.services c !! _) as [svc|]; cbn;
    [|reflexivity].
  unfold fake.endpointsGet. destruct (fake.endpoints c !! _) as [e|]; cbn;
    destruct (renderPorts _ _ _ _ _ _) as [[urls names]|err]; reflexivity.
Qed.

Lemma openURLs_fake_polls url_Parse namespace service urlMode https urls c l :
  fake.polls (fst (snd (openURLs fake.OpenURL url_Parse namespace service
                          urlMode https urls (c, l))))
    = fake.polls c.
Proof.
  revert c l. induction urls as [|u urls IH]; intros c l; [reflexivity|].
  cbn [openURLs]. unfold bind at 1.
  destruct (urlMode || negb (snd (OptionallyHTTPSFormattedURLString url_Parse u https)))%bool.
  - unfold emit at 1. cbn [fst snd]. apply IH.
  - unfold bind, emit, call, ret, fake.OpenURL. cbn [fst snd]. rewrite IH.
    reflexivity.
Qed.

(** C4, as amended.  [WaitAndMaybeOpenService] treats an interval of zero
    as an interval of one second, whatever the retry primitive is; the
    wait budget is handed to the retry primitive as it is, so that a wait
    of zero arrives there as a zero time budget.  On the reference
    cluster, whose retry primitive records its parameters, every call
    starts the backoff with the normalized interval and the unchanged
    budget. *)
Theorem WaitAndMaybeOpenService_backoff_parameters :
  (forall (W : Type) (K8s : K8sClient W)
          (retry_Expo : M W (option error) -> Z -> Z -> M W (option error))
          (browser_OpenURL : string -> Call W (option error))
          (url_Parse : string -> option url.URL) (api : API W)
          (namespace service : string) (urlTemplate : option Template)
          (urlMode https : bool) (wait : Z) (s : W * list Event),
      WaitAndMaybeOpenService K8s retry_Expo browser_OpenURL url_Parse api
        namespace service urlTemplate urlMode https wait 0 s
      = WaitAndMaybeOpenService K8s retry_Expo browser_OpenURL url_Parse api
          namespace service urlTemplate urlMode https wait 1 s) /\
  (forall (url_Parse : string -> option url.URL) (namespace service : string)
          (urlTemplate : option Template) (urlMode https : bool)
          (wait interval : Z) (c : fake.Cluster) (l : list Event),
      fake.polls
        (fst (snd (WaitAndMaybeOpenService fake.K8s fake.Expo fake.OpenURL
                     url_Parse fake.api namespace service urlTemplate
                     urlMode https wait interval (c, l))))
      = (fake.polls c
         ++ [(time.Seconds (if interval =? 0 then 1 else interval),
              time.Seconds wait)])%list) /\
  time.Seconds 1 = 1000000000 /\
  time.Seconds 0 = 0.
Proof.
  split; [|split; [|split; reflexivity]].
  - intros. reflexivity.
  - intros url_Parse namespace service urlTemplate urlMode https wait interval c l.
    unfold WaitAndMaybeOpenService. unfold bind at 1. unfold fake.Expo at 1.
    cbn [fst snd].
    set (p := (time.Seconds (if interval =? 0 then 1 else interval),
               time.Seconds wait)).
    pose proof (CheckService_fake_world namespace service (fake.withPoll c p) l) as Hw.
    destruct (CheckService fake.K8s namespace service (fake.withPoll c p, l))
      as [[err|] [c1 l1]]; cbn [fst snd] in Hw; subst c1; [reflexivity|].
    unfold bind at 1.
    pose proof (GetServiceURLsForService_fake_world namespace service urlTemplate
                  (fake.withPoll c p) l1) as Hg.
    destruct (GetServiceURLsForService fake.K8s fake.api namespace service
                urlTemplate (fake.withPoll c p, l1)) as [[u [err|]] s2];
      cbn [fst snd] in Hg; subst s2; [reflexivity|]. cbn [fst snd].
    unfold bind at 1.
    destruct (negb urlMode); unfold emit at 1, ret at 1; cbn [fst snd];
      (destruct (List.length (URLs u) =? 0)%nat;
       [reflexivity | unfold bind, ret; cbn [fst snd]]).
    + match goal with
      | |- context [openURLs ?o ?pa ?n ?sv ?um ?h ?us (?cc, ?ll)] =>
          pose proof (openURLs_fake_polls pa n sv um h us cc ll) as Ho;
          destruct (openURLs o pa n sv um h us (cc, ll)) as [[] [c3 l3]]
      end. cbn [fst snd] in *. exact Ho.
    + match goal with
      | |- context [openURLs ?o ?pa ?n ?sv ?um ?h ?us (?cc, ?ll)] =>
          pose proof (openURLs_fake_polls pa n sv um h us cc ll) as Ho;
          destruct (openURLs o pa n sv um h us (cc, ll)) as [[] [c3 l3]]
      end. cbn [fst snd] in *. exact Ho.
Qed.

(** A wait of zero is not raised to one second: the reference cluster
    sees a time budget of zero. *)
Lemma WaitAndMaybeOpenService_wait_zero :
  let c := fst (snd (WaitAndMaybeOpenService fake.K8s fake.Expo fake.OpenURL
                       url.Parse fake.api "default" "web"
                       (Some fake.defaultTemplate) true false 0 5
                       (fake.demo, []))) in
  fake.polls c = [(5000000000, 0)] /\
  fake.polls c <> [(5000000000, time.Seconds 1)].
Proof. vm_compute. split; [reflexivity | discriminate]. Qed.

(** C8.  When the poll succeeds and the resolver returns a [SvcURL]
    without URLs, [WaitAndMaybeOpenService] returns nil after emitting the
    notice that the service has no node port; in table mode the notice is
    preceded by the one-row table saying so.  Nothing else is printed or
    opened. *)
Theorem WaitAndMaybeOpenService_no_node_port_is_success :
  forall (W : Type) (K8s : K8sClient W)
         (retry_Expo : M W (option error) -> Z -> Z -> M W (option error))
         (browser_OpenURL : string -> Call W (option error))
         (url_Parse : string -> option url.URL) (api : API W)
         (namespace service : string) (urlTemplate : option Template)
         (urlMode https : bool) (wait interval : Z)
         (s s1 s2 : W * list Event) (serviceURL : SvcURL),
    retry_Expo (CheckService K8s namespace service)
      (time.Seconds (if interval =? 0 then 1 else interval))
      (time.Seconds wait) s = (None, s1) ->
    GetServiceURLsForService K8s api namespace service urlTemplate s1
      = ((serviceURL, None), s2) ->
    URLs serviceURL = [] ->
    let notice :=
      out_T Sad "service {{.namespace_name}}/{{.service_name}} has no node port"
        {[ "namespace_name" := VString namespace;
           "service_name" := VString service ]} in
    let table :=
      PrintServiceList [[namespace; service; EmptyString; "No node port"]] in
    WaitAndMaybeOpenService K8s retry_Expo browser_OpenURL url_Parse api
      namespace service urlTemplate urlMode https wait interval s
    = (None,
       (fst s2,
        (snd s2 ++ (if urlMode then [] else [table]) ++ [notice])%list)).
Proof.
  intros. eapply WaitAndMaybeOpenService_no_node_port; eassumption.
Qed.

Lemma WaitAndMaybeOpenService_no_node_port_is_success_witness :
  WaitAndMaybeOpenService fake.K8s fake.Expo fake.OpenURL url.Parse fake.api
    "default" "internal" (Some fake.defaultTemplate) false true 10 0
    (fake.demo, [])
  = (None,
     (fake.withPoll fake.demo (1000000000, 10000000000),
      [ glog_Infof "Found service: %+v" fake.internal;
        PrintServiceList [["default"; "internal"; EmptyString; "No node port"]];
        out_T Sad "service {{.namespace_name}}/{{.service_name}} has no node port"
          {[ "namespace_name" := VString "default";
             "service_name" := VString "internal" ]} ])).
Proof.
  apply (WaitAndMaybeOpenService_no_node_port_is_success _ fake.K8s fake.Expo
           fake.OpenURL url.Parse fake.api "default" "internal"
           (Some fake.defaultTemplate) false true 10 0 (fake.demo, [])
           (fake.withPoll fake.demo (1000000000, 10000000000),
            [glog_Infof "Found service: %+v" fake.internal])
           (fake.withPoll fake.demo (1000000000, 10000000000),
            [glog_Infof "Found service: %+v" fake.internal])
           {| Namespace := "default"; Name := "internal";
              URLs := []; PortNames := [] |}).
  - vm_compute. reflexivity.
  - vm_compute. reflexivity.
  - reflexivity.
Defined.

(** ** The secret lifecycle manager *)

(** C9.  [DeleteSecret] returns a [RetriableError] wrapping the cause
    when the client cannot be obtained and when the delete call fails,
    and nil otherwise.  On the reference cluster, deleting a secret that
    does not exist fails in this way and leaves the cluster unchanged. *)
Theorem DeleteSecret_retriable :
  (forall (W : Type) (K8s : K8sClient W) (namespace name : string)
          (s : W * list Event) err w1,
      GetCoreClient K8s (fst s) = (Err err, w1) ->
      DeleteSecret K8s namespace name s
        = (Some (RetriableError err), (w1, snd s))) /\
  (forall (W : Type) (K8s : K8sClient W) (namespace name : string)
          (s : W * list Event) client w1 err w2,
      GetCoreClient K8s (fst s) = (Ok client, w1) ->
      Secrets_Delete client namespace name w1 = (Some err, w2) ->
      DeleteSecret K8s namespace name s
        = (Some (RetriableError err), (w2, snd s))) /\
  (forall (W : Type) (K8s : K8sClient W) (namespace name : string)
          (s : W * list Event) client w1 w2,
      GetCoreClient K8s (fst s) = (Ok client, w1) ->
      Secrets_Delete client namespace name w1 = (None, w2) ->
      DeleteSecret K8s namespace name s = (None, (w2, snd s))) /\
  (forall (c : fake.Cluster) (l : list Event) (namespace name : string),
      fake.secrets c !! (namespace, name) = None ->
      DeleteSecret fake.K8s namespace name (c, l)
        = (Some (RetriableError (fake.notFound "secrets" name)), (c, l))).
Proof.
  repeat split.
  - intros W K8s namespace name s err w1 Hc.
    unfold DeleteSecret, bind, call, ret. rewrite Hc. reflexivity.
  - intros W K8s namespace name s client w1 err w2 Hc Hd.
    unfold DeleteSecret, bind, call, ret. rewrite Hc. cbn [fst snd].
    rewrite Hd. reflexivity.
  - intros W K8s namespace name s client w1 w2 Hc Hd.
    unfold DeleteSecret, bind, call, ret. rewrite Hc. cbn [fst snd].
    rewrite Hd. reflexivity.
  - intros c l namespace name Hnone.
    unfold DeleteSecret, bind, call, ret. cbn. unfold fake.secretsDelete.
    rewrite Hnone. reflexivity.
Qed.

Lemma DeleteSecret_retriable_witness :
  DeleteSecret fake.K8sDown "default" "token" (fake.demo, [])
    = (Some (RetriableError (errors_New "kubeConfig: unreachable")),
       (fake.demo, [])) /\
  DeleteSecret fake.K8s "default" "absent" (fake.demo, [])
    = (Some (RetriableError (fake.notFound "secrets" "absent")),
       (fake.demo, [])) /\
  fst (DeleteSecret fake.K8s "default" "token" (fake.demo, [])) = None.
Proof.
  destruct DeleteSecret_retriable as (Hclient & Hfail & Hok & Habsent).
  split; [|split].
  - apply (Hclient _ fake.K8sDown "default" "token" (fake.demo, [])). reflexivity.
  - apply (Habsent fake.demo [] "default" "absent"). vm_compute. reflexivity.
  - rewrite (Hok _ fake.K8s "default" "token" (fake.demo, []) fake.client fake.demo
               (fake.withSecrets fake.demo
                  (delete ("default", "token") (fake.secrets fake.demo))));
      [reflexivity | reflexivity | vm_compute; reflexivity].
Defined.

Lemma name_length_positive (name : string) :
  (0 <? String.length name)%nat = negb (String.eqb name EmptyString).
Proof. destruct name; reflexivity. Qed.

Section Secrets.

Context {W : Type}.
Variable K8s : K8sClient W.
Variables namespace name : string.
Variables dataValues labels : gmap string string.

(** [CreateSecret] after the client and the looked-up object are known;
    the error of the lookup plays no part. *)
Lemma CreateSecret_eq s client w1 g w2 secret :
  GetCoreClient K8s (fst s) = (Ok client, w1) ->
  Secrets_Get client namespace name w1 = (g, w2) ->
  fst g = Some secret ->
  CreateSecret K8s namespace name dataValues labels s =
    let d := if String.eqb (Secret_Name secret) EmptyString
             then (None, (w2, snd s))
             else DeleteSecret K8s namespace name (w2, snd s) in
    match fst d with
    | Some err => (Returned (Some (RetriableError err)), snd d)
    | None =>
        let r := Secrets_Create client namespace
                   (secretObj name dataValues labels) (fst (snd d)) in
        (createAnswer (fst r), (snd r, snd (snd d)))
    end.
Proof.
  intros Hc Hg Hsec. unfold CreateSecret, bind, call, ret.
  rewrite Hc. cbn [fst snd]. rewrite Hg. cbn [fst snd]. rewrite Hsec.
  rewrite name_length_positive.
  destruct (String.eqb (Secret_Name secret) EmptyString); cbn [negb fst snd].
  - fold (secretObj name dataValues labels).
    destruct (Secrets_Create client namespace _ w2) as [[obj|err] w3]; reflexivity.
  - destruct (DeleteSecret K8s namespace name (w2, snd s)) as [[err|] [w3 l3]];
      cbn [fst snd]; [reflexivity|].
    fold (secretObj name dataValues labels).
    destruct (Secrets_Create client namespace _ w3) as [[obj|err] w4]; reflexivity.
Qed.

End Secrets.

(** On the reference cluster [CreateSecret] with a proper name stores the
    submitted object under that name, replacing what was there. *)
Lemma CreateSecret_fake namespace name dataValues labels c l :
  name <> EmptyString ->
  CreateSecret fake.K8s namespace name dataValues labels (c, l)
    = (Returned None,
       (fake.withSecrets c
          (<[(namespace, name) := fake.bodyOf (secretObj name dataValues labels)]>
             (fake.secrets c)), l)).
Proof.
  intros Hname.
  assert (String.eqb name EmptyString = false) as Hnb
    by (apply String.eqb_neq; exact Hname).
  destruct (fake.secrets c !! (namespace, name)) as [b|] eqn:Hlook.
  - rewrite (CreateSecret_eq fake.K8s namespace name dataValues labels (c, l)
               fake.client c (Some (fake.toSecret name b), None) c
               (fake.toSecret name b) eq_refl);
      [|cbn; unfold fake.secretsGet; rewrite Hlook; reflexivity | reflexivity].
    cbn [fake.toSecret Secret_Name]. rewrite Hnb. cbv zeta.
    unfold DeleteSecret, bind, call, ret.
    cbn [fake.K8s GetCoreClient fst snd fake.client Secrets_Delete Secrets_Create].
    unfold fake.secretsDelete. rewrite Hlook. cbn [fst snd].
    unfold fake.secretsCreate. cbn [secretObj Secret_Name]. rewrite Hnb.
    cbn [fake.withSecrets fake.secrets]. rewrite lookup_delete_eq.
    cbn [fst snd createAnswer fake.withSecrets fake.services fake.endpoints
         fake.secrets fake.hostIP fake.polls fake.opened].
    rewrite insert_delete_eq. reflexivity.
  - rewrite (CreateSecret_eq fake.K8s namespace name dataValues labels (c, l)
               fake.client c (Some fake.emptySecret, Some (fake.notFound "secrets" name))
               c fake.emptySecret eq_refl);
      [|cbn; unfold fake.secretsGet; rewrite Hlook; reflexivity | reflexivity].
    cbn [fake.emptySecret Secret_Name String.eqb fst snd]. cbv zeta.
    cbn [fake.client Secrets_Create]. unfold fake.secretsCreate.
    cbn [secretObj Secret_Name]. rewrite Hnb, Hlook. reflexivity.
Qed.

Lemma secretsNamed_insert (namespace name : string) (b : fake.SecretBody)
    (store : gmap (string * string) fake.SecretBody) :
  secretsNamed namespace name (<[(namespace, name) := b]> store)
    = {[ (namespace, name) := b ]}.
Proof.
  unfold secretsNamed. apply map_eq. intros k.
  destruct (decide (k = (namespace, name))) as [->|Hk].
  - rewrite lookup_singleton_eq. apply map_lookup_filter_Some.
    split; [apply lookup_insert_eq | reflexivity].
  - rewrite lookup_singleton_ne by congruence.
    apply map_lookup_filter_None. right. intros x _ Hx. cbn in Hx. congruence.
Qed.

(** C7.  [CreateSecret] looks the secret up and goes on whatever error
    the lookup reports.  When the object it gets back has an empty name it
    creates at once; when the name is not empty it first runs
    [DeleteSecret]: a failure of the delete is returned wrapped as
    retriable, a success is followed by the create.  The created object
    is an opaque secret with the given name and labels whose data are the
    bytes of the given strings; a failed create is returned as retriable.
    On the reference cluster two calls with the same name and different
    data both succeed and leave exactly one secret of that name, holding
    the second call's data and labels, without touching other secrets. *)
Theorem CreateSecret_upsert :
  (forall (W : Type) (K8s : K8sClient W) (namespace name : string)
          (dataValues labels : gmap string string) (s : W * list Event)
          client w1 g w2 secret,
      GetCoreClient K8s (fst s) = (Ok client, w1) ->
      Secrets_Get client namespace name w1 = (g, w2) ->
      fst g = Some secret ->
      (Secret_Name secret = EmptyString ->
       CreateSecret K8s namespace name dataValues labels s =
         let r := Secrets_Create client namespace
                    (secretObj name dataValues labels) w2 in
         (createAnswer (fst r), (snd r, snd s))) /\
      (Secret_Name secret <> EmptyString ->
       forall err s3,
         DeleteSecret K8s namespace name (w2, snd s) = (Some err, s3) ->
         CreateSecret K8s namespace name dataValues labels s
           = (Returned (Some (RetriableError err)), s3)) /\
      (Secret_Name secret <> EmptyString ->
       forall s3,
         DeleteSecret K8s namespace name (w2, snd s) = (None, s3) ->
         CreateSecret K8s namespace name dataValues labels s =
           let r := Secrets_Create client namespace
                      (secretObj name dataValues labels) (fst s3) in
           (createAnswer (fst r), (snd r, snd s3)))) /\
  (forall name dataValues labels,
      Secret_Name (secretObj name dataValues labels) = name /\
      Labels (secretObj name dataValues labels) = labels /\
      Secret_Type (secretObj name dataValues labels) = SecretTypeOpaque /\
      forall key,
        Data (secretObj name dataValues labels) !! key
          = list_byte_of_string <$> (dataValues !! key)) /\
  (forall (c : fake.Cluster) (l : list Event) (namespace name : string)
          (data1 labels1 data2 labels2 : gmap string string),
      name <> EmptyString ->
      let r1 := CreateSecret fake.K8s namespace name data1 labels1 (c, l) in
      let r2 := CreateSecret fake.K8s namespace name data2 labels2 (snd r1) in
      fst r1 = Returned None /\
      fst r2 = Returned None /\
      secretsNamed namespace name (fake.secrets (fst (snd r2)))
        = {[ (namespace, name) := fake.bodyOf (secretObj name data2 labels2) ]} /\
      forall k, k <> (namespace, name) ->
        fake.secrets (fst (snd r2)) !! k = fake.secrets c !! k).
Proof.
  split; [|split].
  - intros W K8s namespace name dataValues labels s client w1 g w2 secret Hc Hg Hs.
    pose proof (CreateSecret_eq K8s namespace name dataValues labels s client
                  w1 g w2 secret Hc Hg Hs) as Heq.
    split; [|split].
    + intros Hname. rewrite Heq, Hname. reflexivity.
    + intros Hname err s3 Hd. rewrite Heq.
      apply String.eqb_neq in Hname. rewrite Hname. cbv zeta. rewrite Hd.
      reflexivity.
    + intros Hname s3 Hd. rewrite Heq.
      apply String.eqb_neq in Hname. rewrite Hname. cbv zeta. rewrite Hd.
      reflexivity.
  - intros name dataValues labels. repeat split.
    intros key. cbn [secretObj Data]. apply lookup_fmap.
  - intros c l namespace name data1 labels1 data2 labels2 Hname r1 r2.
    subst r1 r2. rewrite (CreateSecret_fake _ _ data1 labels1 c l Hname).
    cbn [fst snd]. rewrite (CreateSecret_fake _ _ data2 labels2 _ l Hname).
    cbn [fst snd fake.withSecrets fake.secrets].
    split; [reflexivity|]. split; [reflexivity|]. split.
    + apply secretsNamed_insert.
    + intros k Hk. rewrite !lookup_insert_ne by congruence. reflexivity.
Qed.

Lemma CreateSecret_upsert_witness :
  let r1 := CreateSecret fake.K8s "default" "token"
              {[ "key" := "first" ]} ∅ (fake.demo, []) in
  let r2 := CreateSecret fake.K8s "default" "token"
              {[ "key" := "second" ]} {[ "app" := "demo" ]} (snd r1) in
  fst r1 = Returned None /\
  fst r2 = Returned None /\
  secretsNamed "default" "token" (fake.secrets (fst (snd r2)))
    = {[ ("default", "token") :=
           fake.bodyOf (secretObj "token" {[ "key" := "second" ]}
                          {[ "app" := "demo" ]}) ]} /\
  forall k, k <> ("default", "token") ->
    fake.secrets (fst (snd r2)) !! k = fake.secrets fake.demo !! k.
Proof.
  apply (proj2 (proj2 CreateSecret_upsert) fake.demo [] "default" "token").
  discriminate.
Defined.

(** * Further properties of the service package *)

(** ** Listing the URLs of a namespace *)

Section ListingFacts.

Context {W : Type}.
Variable client : CoreV1Interface W.
Variable ip : string.
Variable t : option Template.

(** The loop either fails with an empty result or extends the
    accumulator by one resolver result per service, in order. *)
Lemma collectServiceURLs_spec items acc s :
  let r := fst (collectServiceURLs client ip t items acc s) in
  match snd r with
  | Some _ => fst r = []
  | None =>
      exists added,
        fst r = (acc ++ added)%list /\
        Forall2 (fun svc u =>
                   exists s', fst (printURLsForService client ip (Service_Name svc)
                                     (Service_Namespace svc) t s') = (u, None))
                items added
  end.
Proof.
  revert acc s. induction items as [|svc items IH]; intros acc s.
  - cbn. exists []. rewrite app_nil_r. split; [reflexivity | constructor].
  - cbv zeta. cbn [collectServiceURLs]. unfold bind.
    destruct (printURLsForService client ip (Service_Name svc)
                (Service_Namespace svc) t s) as [[u e] s1] eqn:Hp.
    cbn [fst snd]. destruct e as [err|]; [reflexivity|].
    specialize (IH (acc ++ [u])%list s1). cbv zeta in IH.
    destruct (snd (fst (collectServiceURLs client ip t items (acc ++ [u]) s1)));
      [exact IH|].
    destruct IH as (added & Hadd & Hall).
    exists (u :: added). split.
    + rewrite Hadd, <- app_assoc. reflexivity.
    + constructor; [|exact Hall]. exists s. rewrite Hp. reflexivity.
Qed.

Lemma collectServiceURLs_nil_template svc items acc s :
  collectServiceURLs client ip None (svc :: items) acc s
    = (([], Some nilTemplateError), s).
Proof. reflexivity. Qed.

End ListingFacts.

(** X1.  [GetServiceURLs] is all or nothing: with an error it returns no
    list at all, and without one it returns exactly one [SvcURL] per
    listed service, each being what [printURLsForService] resolves for
    that service's name and namespace, in listing order. *)
Theorem GetServiceURLs_all_or_nothing :
  forall (W : Type) (K8s : K8sClient W)
         (Services : CoreV1Interface W -> string -> ServiceInterface W)
         (api : API W) (namespace : string) (t : option Template)
         (s : W * list Event),
    let r := fst (GetServiceURLs K8s Services api namespace t s) in
    (snd r <> None -> fst r = []) /\
    (snd r = None ->
     exists host w1 ip w2 client w3 svcs w4,
       CheckIfHostExistsAndLoad api (fst s) = (Ok host, w1) /\
       Driver_GetIP host w1 = (Ok ip, w2) /\
       GetCoreClient K8s w2 = (Ok client, w3) /\
       Services_List (Services client namespace)
         {| LabelSelector := EmptyString |} w3 = (Ok svcs, w4) /\
       List.length (fst r) = List.length svcs /\
       Forall2 (fun svc u =>
                  exists s', fst (printURLsForService client ip (Service_Name svc)
                                    (Service_Namespace svc) t s') = (u, None))
               svcs (fst r)).
Proof.
  intros W K8s Services api namespace t s r. subst r.
  unfold GetServiceURLs, bind, call, ret.
  destruct (CheckIfHostExistsAndLoad api (fst s)) as [[host|e] w1] eqn:Hh;
    cbn [fst snd]; [|split; [reflexivity | discriminate]].
  destruct (Driver_GetIP host w1) as [[ip|e] w2] eqn:Hi;
    cbn [fst snd]; [|split; [reflexivity | discriminate]].
  destruct (GetCoreClient K8s w2) as [[client|e] w3] eqn:Hc;
    cbn [fst snd]; [|split; [reflexivity | discriminate]].
  destruct (Services_List (Services client namespace) _ w3) as [[svcs|e] w4] eqn:Hl;
    cbn [fst snd]; [|split; [reflexivity | discriminate]].
  pose proof (collectServiceURLs_spec client ip t svcs [] (w4, snd s)) as Hspec.
  cbv zeta in Hspec.
  destruct (snd (fst (collectServiceURLs client ip t svcs [] (w4, snd s)))) as [e|].
  - split; [intros _; exact Hspec | discriminate].
  - destruct Hspec as (added & Hadd & Hall). cbn [app] in Hadd.
    split; [congruence|]. intros _.
    exists host, w1, ip, w2, client, w3, svcs, w4.
    rewrite Hadd. repeat split; try assumption.
    symmetry. eapply Forall2_length. exact Hall.
Qed.

Lemma GetServiceURLs_all_or_nothing_witness :
  let r := fst (GetServiceURLs fake.K8s fake_Services fake.api "default"
                  (Some fake.defaultTemplate) (fake.demo, [])) in
  List.length (fst r) = 3%nat /\
  exists host w1 ip w2 client w3 svcs w4,
    CheckIfHostExistsAndLoad fake.api fake.demo = (Ok host, w1) /\
    Driver_GetIP host w1 = (Ok ip, w2) /\
    GetCoreClient fake.K8s w2 = (Ok client, w3) /\
    Services_List (fake_Services client "default")
      {| LabelSelector := EmptyString |} w3 = (Ok svcs, w4) /\
    List.length (fst r) = List.length svcs /\
    Forall2 (fun svc u =>
               exists s', fst (printURLsForService client ip (Service_Name svc)
                                 (Service_Namespace svc)
                                 (Some fake.defaultTemplate) s') = (u, None))
            svcs (fst r).
Proof.
  split; [vm_compute; reflexivity|].
  apply (proj2 (GetServiceURLs_all_or_nothing _ fake.K8s fake_Services fake.api
                  "default" (Some fake.defaultTemplate) (fake.demo, []))).
  vm_compute. reflexivity.
Defined.

(** X2.  A nil template is only noticed when there is a service to
    resolve: once the services of the namespace are listed,
    [GetServiceURLs] with a nil template succeeds with an empty result on
    an empty namespace and fails with the nil-template error, before any
    service is fetched, as soon as the namespace holds a service. *)
Theorem GetServiceURLs_nil_template :
  forall (W : Type) (K8s : K8sClient W)
         (Services : CoreV1Interface W -> string -> ServiceInterface W)
         (api : API W) (namespace : string) (s : W * list Event)
         host w1 ip w2 client w3 svcs w4,
    CheckIfHostExistsAndLoad api (fst s) = (Ok host, w1) ->
    Driver_GetIP host w1 = (Ok ip, w2) ->
    GetCoreClient K8s w2 = (Ok client, w3) ->
    Services_List (Services client namespace)
      {| LabelSelector := EmptyString |} w3 = (Ok svcs, w4) ->
    GetServiceURLs K8s Services api namespace None s
      = (match svcs with
         | [] => ([], None)
         | _ :: _ => ([], Some nilTemplateError)
         end, (w4, snd s)).
Proof.
  intros W K8s Services api namespace s host w1 ip w2 client w3 svcs w4
    Hh Hi Hc Hl.
  unfold GetServiceURLs, bind, call, ret.
  rewrite Hh. cbn [fst snd]. rewrite Hi. cbn [fst snd]. rewrite Hc.
  cbn [fst snd]. rewrite Hl. cbn [fst snd].
  destruct svcs as [|svc svcs]; [reflexivity|].
  apply collectServiceURLs_nil_template.
Qed.

Lemma GetServiceURLs_nil_template_witness :
  GetServiceURLs fake.K8s fake_Services fake.api "kube-system" None
    (fake.demo, []) = (([], None), (fake.demo, [])) /\
  GetServiceURLs fake.K8s fake_Services fake.api "default" None
    (fake.demo, []) = (([], Some nilTemplateError), (fake.demo, [])).
Proof.
  split.
  - assert (Services_List (fake_Services fake.client "kube-system")
              {| LabelSelector := EmptyString |} fake.demo
            = (Ok [], fake.demo)) as Hlist by (vm_compute; reflexivity).
    exact (GetServiceURLs_nil_template _ fake.K8s fake_Services fake.api
             "kube-system" (fake.demo, []) fake.host fake.demo "192.168.99.100"
             fake.demo fake.client fake.demo [] fake.demo
             eq_refl eq_refl eq_refl Hlist).
  - assert (Services_List (fake_Services fake.client "default")
              {| LabelSelector := EmptyString |} fake.demo
            = (Ok (map snd (List.filter
                              (fun kv => String.eqb (fst (fst kv)) "default")
                              (map_to_list (fake.services fake.demo)))),
               fake.demo)) as Hlist by (vm_compute; reflexivity).
    rewrite (GetServiceURLs_nil_template _ fake.K8s fake_Services fake.api
               "default" (fake.demo, []) fake.host fake.demo "192.168.99.100"
               fake.demo fake.client fake.demo _ fake.demo
               eq_refl eq_refl eq_refl Hlist).
    vm_compute. reflexivity.
Defined.

(** ** Listing services by label *)

(** X3.  [GetServiceListByLabel] fails only with retriable errors, and
    with an error it hands back the empty list: it does so when the
    client cannot be obtained and when the list call, made with the
    selector text of the given key and value, fails; when the list call
    succeeds its items are returned without an error. *)
Theorem GetServiceListByLabel_retriable :
  forall (W : Type) (K8s : K8sClient W)
         (Services : CoreV1Interface W -> string -> ServiceInterface W)
         (selectorString : string -> string -> string)
         (namespace key value : string) (s : W * list Event),
    let r := fst (GetServiceListByLabel K8s Services selectorString
                    namespace key value s) in
    (forall e, snd r = Some e -> isRetriable e = true /\ fst r = []) /\
    (forall err w1,
        GetCoreClient K8s (fst s) = (Err err, w1) ->
        r = ([], Some (RetriableError err))) /\
    (forall client w1 answer w2,
        GetCoreClient K8s (fst s) = (Ok client, w1) ->
        Services_List (Services client namespace)
          {| LabelSelector := selectorString key value |} w1 = (answer, w2) ->
        r = match answer with
            | Ok items => (items, None)
            | Err err => ([], Some (RetriableError err))
            end).
Proof.
  intros W K8s Services selectorString namespace key value s r. subst r.
  unfold GetServiceListByLabel, getServiceListFromServicesByLabel, bind, call, ret.
  destruct (GetCoreClient K8s (fst s)) as [[client|err] w1]; cbn [fst snd].
  - destruct (Services_List (Services client namespace) _ w1)
      as [[items|err] w2] eqn:Hl; cbn [fst snd].
    + split; [discriminate|]. split; [discriminate|].
      intros client' w1' answer w2' [= <- <-] Ha. rewrite Hl in Ha.
      injection Ha as <- <-. reflexivity.
    + split; [intros e [= <-]; split; reflexivity|]. split; [discriminate|].
      intros client' w1' answer w2' [= <- <-] Ha. rewrite Hl in Ha.
      injection Ha as <- <-. reflexivity.
  - split; [intros e [= <-]; split; reflexivity|].
    split; [intros err' w1' [= <- <-]; reflexivity | discriminate].
Qed.

Lemma GetServiceListByLabel_retriable_witness :
  fst (GetServiceListByLabel fake.K8sDown fake_Services equalitySelector
         "default" "app" "web" (fake.demo, []))
    = ([], Some (RetriableError (errors_New "kubeConfig: unreachable"))) /\
  fst (GetServiceListByLabel fake.K8s fake_Services equalitySelector
         "default" "app" "web" (fake.demo, []))
    = ([], None).
Proof.
  split.
  - apply (proj1 (proj2 (GetServiceListByLabel_retriable _ fake.K8sDown
                           fake_Services equalitySelector "default" "app" "web"
                           (fake.demo, [])))
             (errors_New "kubeConfig: unreachable") fake.demo).
    reflexivity.
  - apply (proj2 (proj2 (GetServiceListByLabel_retriable _ fake.K8s
                           fake_Services equalitySelector "default" "app" "web"
                           (fake.demo, [])))
             fake.client fake.demo (Ok []) fake.demo); reflexivity.
Defined.

(** ** The readiness check, all paths *)

(** X4.  [CheckService] traces the service it found exactly when it
    succeeds, and then the service declares a port; on every failure it
    leaves the output untouched.  A failure to obtain the client is
    returned as a plain wrapped error, not a retriable one, and the
    service is not fetched. *)
Theorem CheckService_paths :
  forall (W : Type) (K8s : K8sClient W) (namespace service : string)
         (s : W * list Event),
    let r := CheckService K8s namespace service s in
    (fst r = None ->
     exists svc, Spec_Ports svc <> [] /\
       snd (snd r) = (snd s ++ [glog_Infof "Found service: %+v" svc])%list) /\
    (fst r <> None -> snd (snd r) = snd s) /\
    (forall err w1,
        GetCoreClient K8s (fst s) = (Err err, w1) ->
        r = (Some (errors_Wrap err "Error getting kubernetes client"),
             (w1, snd s)) /\
        isRetriable (errors_Wrap err "Error getting kubernetes client") = false).
Proof.
  intros W K8s namespace service s r. subst r.
  unfold CheckService, bind, call, ret, emit.
  destruct (GetCoreClient K8s (fst s)) as [[client|err] w1]; cbn [fst snd].
  - destruct (Services_Get client namespace service w1) as [[svc|err] w2];
      cbn [fst snd].
    + destruct (Spec_Ports svc) as [|p ps] eqn:Hp; cbn [List.length Nat.eqb fst snd].
      * split; [discriminate|]. split; [reflexivity | discriminate].
      * split; [|split; [congruence | discriminate]].
        intros _. exists svc. rewrite Hp. split; [discriminate | reflexivity].
    + split; [discriminate|]. split; [reflexivity | discriminate].
  - split; [discriminate|]. split; [reflexivity|].
    intros err' w1' [= <- <-]. split; reflexivity.
Qed.

Lemma CheckService_paths_witness :
  CheckService fake.K8sDown "default" "web" (fake.demo, [])
    = (Some (errors_Wrap (errors_New "kubeConfig: unreachable")
               "Error getting kubernetes client"), (fake.demo, [])) /\
  exists svc, Spec_Ports svc <> [] /\
    snd (snd (CheckService fake.K8s "default" "web" (fake.demo, [])))
      = ([] ++ [glog_Infof "Found service: %+v" svc])%list.
Proof.
  split.
  - apply (proj2 (proj2 (CheckService_paths _ fake.K8sDown "default" "web"
                           (fake.demo, [])))
             (errors_New "kubeConfig: unreachable") fake.demo eq_refl).
  - apply (proj1 (CheckService_paths _ fake.K8s "default" "web" (fake.demo, []))).
    vm_compute. reflexivity.
Defined.

(** ** The exposure orchestrator, all paths *)

Section OrchestratorPaths.

Context {W : Type}.
Variable K8s : K8sClient W.
Variable retry_Expo : M W (option error) -> Z -> Z -> M W (option error).
Variable browser_OpenURL : string -> Call W (option error).
Variable url_Parse : string -> option url.URL.
Variable api : API W.
Variables namespace service : string.
Variable urlTemplate : option Template.
Variables urlMode https : bool.

(** In URL mode the loop prints every URL, rewritten, and leaves the
    world alone. *)
Lemma openURLs_urlMode urls s :
  openURLs browser_OpenURL url_Parse namespace service true https urls s
    = (tt, (fst s,
            (snd s ++ map (fun u => out_T Empty (rewrittenURL url_Parse https u) ∅)
                        urls)%list)).
Proof.
  revert s. induction urls as [|u urls IH]; intros [w l].
  - cbn. rewrite app_nil_r. reflexivity.
  - cbn [openURLs orb]. unfold bind, emit. cbn [fst snd]. rewrite IH.
    cbn [fst snd map]. rewrite <- app_assoc. reflexivity.
Qed.

(** The loop only ever adds to the output. *)
Lemma openURLs_log_grows urls s :
  exists events,
    snd (snd (openURLs browser_OpenURL url_Parse namespace service urlMode
                https urls s)) = (snd s ++ events)%list.
Proof.
  revert s. induction urls as [|u urls IH]; intros [w l].
  - exists []. cbn. rewrite app_nil_r. reflexivity.
  - cbn [openURLs]. unfold bind at 1.
    destruct (urlMode || negb (snd (OptionallyHTTPSFormattedURLString url_Parse u https)))%bool.
    + unfold emit at 1. cbn [fst snd].
      destruct (IH (w, (l ++ [out_T Empty
                  (fst (OptionallyHTTPSFormattedURLString url_Parse u https)) ∅])%list))
        as [events Hev].
      rewrite Hev. cbn [snd]. rewrite <- app_assoc. eauto.
    + unfold bind, emit, call, ret. cbn [fst snd].
      destruct (browser_OpenURL _ w) as [[err|] w'] eqn:Hb; cbn [fst snd];
        match goal with
        | |- context [openURLs _ _ _ _ _ _ urls ?st] =>
            destruct (IH st) as [events Hev]; rewrite Hev; cbn [snd];
            rewrite <- ?app_assoc; eauto
        end.
Qed.

(** The orchestrator after a successful poll and resolution. *)
Lemma WaitAndMaybeOpenService_resolved wait interval s s1 serviceURL s2 :
  retry_Expo (CheckService K8s namespace service)
    (time.Seconds (if interval =? 0 then 1 else interval))
    (time.Seconds wait) s = (None, s1) ->
  GetServiceURLsForService K8s api namespace service urlTemplate s1
    = ((serviceURL, None), s2) ->
  WaitAndMaybeOpenService K8s retry_Expo browser_OpenURL url_Parse api
    namespace service urlTemplate urlMode https wait interval s
  = (None,
     let s3 :=
       if urlMode then s2
       else (fst s2, (snd s2 ++ [serviceTable namespace service serviceURL])%list) in
     if (List.length (URLs serviceURL) =? 0)%nat
     then (fst s3, (snd s3 ++ [noNodePortNotice namespace service])%list)
     else snd (openURLs browser_OpenURL url_Parse namespace service urlMode
                 https (URLs serviceURL) s3)).
Proof.
  intros Hpoll Hres. unfold WaitAndMaybeOpenService. unfold bind at 1.
  rewrite Hpoll. unfold bind at 1. rewrite Hres. cbn [fst snd].
  unfold serviceTable, noNodePortNotice.
  destruct urlMode; cbn [negb]; unfold bind, ret, emit; cbn [fst snd];
    (destruct (List.length (URLs serviceURL) =? 0)%nat;
     [reflexivity
     | match goal with
       | |- context [openURLs ?o ?p ?n ?sv ?um ?h ?us ?st] =>
           destruct (openURLs o p n sv um h us st) as [[] st']
       end; reflexivity]).
Qed.

End OrchestratorPaths.

(** X5.  [WaitAndMaybeOpenService] never returns a retriable error: an
    error of the poll comes back wrapped with the message naming the
    service, without the resolver being run, and an error of the
    resolver comes back wrapped with the guidance message; there is no
    other error. *)
Theorem WaitAndMaybeOpenService_errors :
  forall (W : Type) (K8s : K8sClient W)
         (retry_Expo : M W (option error) -> Z -> Z -> M W (option error))
         (browser_OpenURL : string -> Call W (option error))
         (url_Parse : string -> option url.URL) (api : API W)
         (namespace service : string) (urlTemplate : option Template)
         (urlMode https : bool) (wait interval : Z) (s : W * list Event),
    let run := WaitAndMaybeOpenService K8s retry_Expo browser_OpenURL url_Parse
                 api namespace service urlTemplate urlMode https wait interval s in
    let poll := retry_Expo (CheckService K8s namespace service)
                  (time.Seconds (if interval =? 0 then 1 else interval))
                  (time.Seconds wait) s in
    (forall e, fst run = Some e ->
       isRetriable e = false /\
       exists cause,
         e = errors_Wrap cause
               ("Could not find finalized endpoint being pointed to by " +:+ service)
         \/ e = errors_Wrap cause
               "Check that minikube is running and that you have specified the correct namespace") /\
    (forall err, fst poll = Some err ->
       run = (Some (errors_Wrap err
                      ("Could not find finalized endpoint being pointed to by "
                         +:+ service)), snd poll)) /\
    (forall serviceURL err s2,
       fst poll = None ->
       GetServiceURLsForService K8s api namespace service urlTemplate (snd poll)
         = ((serviceURL, Some err), s2) ->
       run = (Some (errors_Wrap err
                "Check that minikube is running and that you have specified the correct namespace"),
              s2)).
Proof.
  intros W K8s retry_Expo browser_OpenURL url_Parse api namespace service
    urlTemplate urlMode https wait interval s run poll.
  assert (forall err, fst poll = Some err ->
            run = (Some (errors_Wrap err
                     ("Could not find finalized endpoint being pointed to by "
                        +:+ service)), snd poll)) as Hpoll.
  { intros err He. subst run poll. unfold WaitAndMaybeOpenService. unfold bind at 1.
    destruct (retry_Expo _ _ _ s) as [e s1]. cbn [fst snd] in *. subst e.
    reflexivity. }
  assert (forall serviceURL err s2,
            fst poll = None ->
            GetServiceURLsForService K8s api namespace service urlTemplate
              (snd poll) = ((serviceURL, Some err), s2) ->
            run = (Some (errors_Wrap err
                     "Check that minikube is running and that you have specified the correct namespace"),
                   s2)) as Hres.
  { intros serviceURL err s2 He Hr. subst run poll.
    unfold WaitAndMaybeOpenService. unfold bind at 1.
    destruct (retry_Expo _ _ _ s) as [e s1]. cbn [fst snd] in *. subst e.
    unfold bind at 1. rewrite Hr. reflexivity. }
  split; [|split; assumption].
  intros e He. destruct (fst poll) as [err|] eqn:Hp.
  - rewrite (Hpoll err eq_refl) in He. injection He as <-.
    split; [reflexivity | eauto].
  - destruct (GetServiceURLsForService K8s api namespace service urlTemplate
                (snd poll)) as [[serviceURL [err|]] s2] eqn:Hr.
    + rewrite (Hres serviceURL err s2 eq_refl eq_refl) in He. injection He as <-.
      split; [reflexivity | eauto].
    + exfalso. subst run.
      rewrite (WaitAndMaybeOpenService_resolved K8s retry_Expo browser_OpenURL
                 url_Parse api namespace service urlTemplate urlMode https
                 wait interval s (snd poll) serviceURL s2) in He;
        [discriminate | | exact Hr].
      subst poll. destruct (retry_Expo _ _ _ s) as [e' s1]. cbn [fst snd] in *.
      subst e'. reflexivity.
Qed.

Lemma WaitAndMaybeOpenService_errors_witness :
  WaitAndMaybeOpenService fake.K8s fake.Expo fake.OpenURL url.Parse fake.api
    "default" "missing" (Some fake.defaultTemplate) false false 10 2
    (fake.demo, [])
  = (Some (errors_Wrap
             (RetriableError
                (errors_Wrap (fake.notFound "services" "missing")
                   "Error getting service missing"))
             ("Could not find finalized endpoint being pointed to by "
                +:+ "missing")),
     (fake.withPoll fake.demo (2000000000, 10000000000), [])).
Proof.
  apply (proj1 (proj2 (WaitAndMaybeOpenService_errors _ fake.K8s fake.Expo
                         fake.OpenURL url.Parse fake.api "default" "missing"
                         (Some fake.defaultTemplate) false false 10 2
                         (fake.demo, [])))).
  vm_compute. reflexivity.
Defined.

(** X6.  In URL mode, after a successful poll and resolution,
    [WaitAndMaybeOpenService] prints the resolved URLs, each after the
    HTTPS rule, in order and nothing else: no table, and no call to the
    browser, so the world is left as the resolver left it. *)
Theorem WaitAndMaybeOpenService_url_mode :
  forall (W : Type) (K8s : K8sClient W)
         (retry_Expo : M W (option error) -> Z -> Z -> M W (option error))
         (browser_OpenURL : string -> Call W (option error))
         (url_Parse : string -> option url.URL) (api : API W)
         (namespace service : string) (urlTemplate : option Template)
         (https : bool) (wait interval : Z)
         (s s1 s2 : W * list Event) (serviceURL : SvcURL),
    retry_Expo (CheckService K8s namespace service)
      (time.Seconds (if interval =? 0 then 1 else interval))
      (time.Seconds wait) s = (None, s1) ->
    GetServiceURLsForService K8s api namespace service urlTemplate s1
      = ((serviceURL, None), s2) ->
    URLs serviceURL <> [] ->
    WaitAndMaybeOpenService K8s retry_Expo browser_OpenURL url_Parse api
      namespace service urlTemplate true https wait interval s
    = (None,
       (fst s2,
        (snd s2 ++ map (fun u => out_T Empty (rewrittenURL url_Parse https u) ∅)
                     (URLs serviceURL))%list)).
Proof.
  intros W K8s retry_Expo browser_OpenURL url_Parse api namespace service
    urlTemplate https wait interval s s1 s2 serviceURL Hpoll Hres Hne.
  rewrite (WaitAndMaybeOpenService_resolved K8s retry_Expo browser_OpenURL
             url_Parse api namespace service urlTemplate true https wait
             interval s s1 serviceURL s2 Hpoll Hres).
  cbv zeta. destruct (URLs serviceURL) as [|u urls]; [congruence|].
  cbn [List.length Nat.eqb]. rewrite openURLs_urlMode. reflexivity.
Qed.

Lemma WaitAndMaybeOpenService_url_mode_witness :
  WaitAndMaybeOpenService fake.K8s fake.Expo fake.OpenURL url.Parse fake.api
    "default" "web" (Some fake.defaultTemplate) true true 10 2 (fake.demo, [])
  = (None,
     (fake.withPoll fake.demo (2000000000, 10000000000),
      ([glog_Infof "Found service: %+v" fake.web]
       ++ map (fun u => out_T Empty (rewrittenURL url.Parse true u) ∅)
            ["http://192.168.99.100:30000"; "http://192.168.99.100:30001"])%list)).
Proof.
  apply (WaitAndMaybeOpenService_url_mode _ fake.K8s fake.Expo fake.OpenURL
           url.Parse fake.api "default" "web" (Some fake.defaultTemplate) true
           10 2 (fake.demo, [])
           (fake.withPoll fake.demo (2000000000, 10000000000),
            [glog_Infof "Found service: %+v" fake.web])
           (fake.withPoll fake.demo (2000000000, 10000000000),
            [glog_Infof "Found service: %+v" fake.web])
           {| Namespace := "default"; Name := "web";
              URLs := ["http://192.168.99.100:30000"; "http://192.168.99.100:30001"];
              PortNames := ["http"; EmptyString] |}).
  - vm_compute. reflexivity.
  - vm_compute. reflexivity.
  - discriminate.
Defined.

(** X7.  Once the poll and the resolution have succeeded,
    [WaitAndMaybeOpenService] returns nil whatever the browser does: a
    browser that fails on every URL does not fail the operation.  Outside
    URL mode the first thing it prints is the one-row table of the
    service, and it never removes output. *)
Theorem WaitAndMaybeOpenService_browser_failure_is_not_fatal :
  forall (W : Type) (K8s : K8sClient W)
         (retry_Expo : M W (option error) -> Z -> Z -> M W (option error))
         (browser_OpenURL : string -> Call W (option error))
         (url_Parse : string -> option url.URL) (api : API W)
         (namespace service : string) (urlTemplate : option Template)
         (urlMode https : bool) (wait interval : Z)
         (s s1 s2 : W * list Event) (serviceURL : SvcURL),
    retry_Expo (CheckService K8s namespace service)
      (time.Seconds (if interval =? 0 then 1 else interval))
      (time.Seconds wait) s = (None, s1) ->
    GetServiceURLsForService K8s api namespace service urlTemplate s1
      = ((serviceURL, None), s2) ->
    let run := WaitAndMaybeOpenService K8s retry_Expo browser_OpenURL url_Parse
                 api namespace service urlTemplate urlMode https wait interval s in
    fst run = None /\
    exists events,
      snd (snd run)
        = (snd s2
           ++ (if urlMode then []
               else [serviceTable namespace service serviceURL])
           ++ events)%list.
Proof.
  intros W K8s retry_Expo browser_OpenURL url_Parse api namespace service
    urlTemplate urlMode https wait interval s s1 s2 serviceURL Hpoll Hres run.
  subst run.
  rewrite (WaitAndMaybeOpenService_resolved K8s retry_Expo browser_OpenURL
             url_Parse api namespace service urlTemplate urlMode https wait
             interval s s1 serviceURL s2 Hpoll Hres).
  split; [reflexivity|]. cbv zeta. cbn [snd].
  set (s3 := if urlMode then s2
             else (fst s2, (snd s2 ++ [serviceTable namespace service serviceURL])%list)).
  assert (snd s3 = (snd s2 ++ (if urlMode then []
                               else [serviceTable namespace service serviceURL]))%list)
    as Hs3 by (subst s3; destruct urlMode; cbn; rewrite ?app_nil_r; reflexivity).
  destruct (List.length (URLs serviceURL) =? 0)%nat.
  - exists [noNodePortNotice namespace service]. cbn [snd].
    rewrite Hs3, <- app_assoc. reflexivity.
  - destruct (openURLs_log_grows browser_OpenURL url_Parse namespace service
                urlMode https (URLs serviceURL) s3) as [events Hev].
    exists events. rewrite Hev, Hs3, <- app_assoc. reflexivity.
Qed.

Lemma WaitAndMaybeOpenService_browser_failure_is_not_fatal_witness :
  let run := WaitAndMaybeOpenService fake.K8s fake.Expo
               (fun u c => (Some (errors_New "exec: no browser"), c))
               url.Parse fake.api "default" "web"
               (Some fake.defaultTemplate) false false 10 2 (fake.demo, []) in
  fst run = None /\
  exists events,
    snd (snd run)
      = ([glog_Infof "Found service: %+v" fake.web]
         ++ [serviceTable "default" "web"
               {| Namespace := "default"; Name := "web";
                  URLs := ["http://192.168.99.100:30000";
                           "http://192.168.99.100:30001"];
                  PortNames := ["http"; EmptyString] |}]
         ++ events)%list.
Proof.
  apply (WaitAndMaybeOpenService_browser_failure_is_not_fatal _ fake.K8s
           fake.Expo (fun u c => (Some (errors_New "exec: no browser"), c))
           url.Parse fake.api "default" "web" (Some fake.defaultTemplate)
           false false 10 2 (fake.demo, [])
           (fake.withPoll fake.demo (2000000000, 10000000000),
            [glog_Infof "Found service: %+v" fake.web])
           (fake.withPoll fake.demo (2000000000, 10000000000),
            [glog_Infof "Found service: %+v" fake.web])).
  - vm_compute. reflexivity.
  - vm_compute. reflexivity.
Defined.

(** On the reference cluster the loop asks the browser for the URLs with
    the plain HTTP scheme, after the HTTPS rule, in order, and in URL
    mode for none. *)
Lemma openURLs_fake_opened url_Parse namespace service urlMode https urls c l :
  fake.opened (fst (snd (openURLs fake.OpenURL url_Parse namespace service
                           urlMode https urls (c, l))))
    = (fake.opened c
       ++ (if urlMode then []
           else map (rewrittenURL url_Parse https)
                  (List.filter (isHTTPSchemed url_Parse https) urls)))%list.
Proof.
  revert c l. induction urls as [|u urls IH]; intros c l.
  - cbn. destruct urlMode; rewrite app_nil_r; reflexivity.
  - cbn [openURLs List.filter]. unfold bind at 1. unfold isHTTPSchemed at 1.
    destruct urlMode; cbn [orb].
    + unfold emit at 1. cbn [fst snd]. rewrite IH. reflexivity.
    + destruct (snd (OptionallyHTTPSFormattedURLString url_Parse u https));
        cbn [negb].
      * unfold bind, emit, call, ret, fake.OpenURL. cbn [fst snd].
        rewrite IH. cbn [fake.withOpened fake.opened map].
        rewrite <- app_assoc. reflexivity.
      * unfold emit at 1. cbn [fst snd]. rewrite IH. reflexivity.
Qed.

(** X8.  On the reference cluster, whose browser records what it is
    asked to open, a run of [WaitAndMaybeOpenService] that polls and
    resolves successfully opens exactly the resolved URLs whose scheme is
    plain HTTP, in order and in the form the HTTPS rule gives them; in
    URL mode it opens none. *)
Theorem WaitAndMaybeOpenService_opens_http_urls :
  forall (url_Parse : string -> option url.URL) (namespace service : string)
         (urlTemplate : option Template) (urlMode https : bool)
         (wait interval : Z) (c : fake.Cluster) (l : list Event)
         (s1 s2 : fake.Cluster * list Event) (serviceURL : SvcURL),
    fake.Expo (CheckService fake.K8s namespace service)
      (time.Seconds (if interval =? 0 then 1 else interval))
      (time.Seconds wait) (c, l) = (None, s1) ->
    GetServiceURLsForService fake.K8s fake.api namespace service urlTemplate s1
      = ((serviceURL, None), s2) ->
    fake.opened
      (fst (snd (WaitAndMaybeOpenService fake.K8s fake.Expo fake.OpenURL
                   url_Parse fake.api namespace service urlTemplate
                   urlMode https wait interval (c, l))))
    = (fake.opened c
       ++ (if urlMode then []
           else map (rewrittenURL url_Parse https)
                  (List.filter (isHTTPSchemed url_Parse https)
                     (URLs serviceURL))))%list.
Proof.
  intros url_Parse namespace service urlTemplate urlMode https wait interval
    c l s1 s2 serviceURL Hpoll Hres.
  rewrite (WaitAndMaybeOpenService_resolved fake.K8s fake.Expo fake.OpenURL
             url_Parse fake.api namespace service urlTemplate urlMode https
             wait interval (c, l) s1 serviceURL s2 Hpoll Hres).
  assert (fake.opened (fst s2) = fake.opened c) as Hw.
  { pose proof (GetServiceURLsForService_fake_world namespace service urlTemplate
                  (fst s1) (snd s1)) as Hg.
    rewrite <- surjective_pairing, Hres in Hg. cbn [snd] in Hg. subst s2.
    unfold fake.Expo in Hpoll. cbn [fst snd] in Hpoll.
    pose proof (CheckService_fake_world namespace service
                  (fake.withPoll c
                     (time.Seconds (if interval =? 0 then 1 else interval),
                      time.Seconds wait)) l) as Hc.
    rewrite Hpoll in Hc. cbn [fst snd] in Hc. rewrite Hc. reflexivity. }
  cbv zeta. cbn [snd].
  destruct (List.length (URLs serviceURL) =? 0)%nat eqn:Hlen.
  - destruct (URLs serviceURL); [|discriminate]. cbn [List.filter map].
    destruct urlMode; cbn [fst]; rewrite Hw, app_nil_r; reflexivity.
  - destruct urlMode.
    + destruct s2 as [c2 l2]. rewrite openURLs_fake_opened.
      cbn [fst] in Hw. rewrite Hw. reflexivity.
    + rewrite openURLs_fake_opened. cbn [fst]. rewrite Hw. reflexivity.
Qed.

Lemma WaitAndMaybeOpenService_opens_http_urls_witness :
  fake.opened
    (fst (snd (WaitAndMaybeOpenService fake.K8s fake.Expo fake.OpenURL
                 url.Parse fake.api "default" "web" (Some fake.defaultTemplate)
                 false true 10 2 (fake.demo, []))))
  = ["https://192.168.99.100:30000"; "https://192.168.99.100:30001"].
Proof.
  rewrite (WaitAndMaybeOpenService_opens_http_urls url.Parse "default" "web"
             (Some fake.defaultTemplate) false true 10 2 fake.demo []
             (fake.withPoll fake.demo (2000000000, 10000000000),
              [glog_Infof "Found service: %+v" fake.web])
             (fake.withPoll fake.demo (2000000000, 10000000000),
              [glog_Infof "Found service: %+v" fake.web])
             {| Namespace := "default"; Name := "web";
                URLs := ["http://192.168.99.100:30000";
                         "http://192.168.99.100:30001"];
                PortNames := ["http"; EmptyString] |});
    vm_compute; reflexivity.
Defined.

(** ** Seconds to nanoseconds *)

(** X9.  The conversion of the wait and the interval from seconds to a
    duration is exact precisely for values of at most 9223372036 seconds
    in magnitude; beyond that the 64-bit product wraps around, and from
    9223372037 up to 18446744073 seconds the duration is negative. *)
Theorem Seconds_exact_range :
  (forall n : Z,
      time.Seconds n = n * 1000000000 <-> -9223372036 <= n <= 9223372036) /\
  (forall n : Z,
      9223372037 <= n <= 18446744073 -> time.Seconds n < 0) /\
  (forall n : Z, - 2 ^ 63 <= time.Seconds n < 2 ^ 63).
Proof.
  assert (forall n : Z, - 2 ^ 63 <= time.Seconds n < 2 ^ 63) as Hrange.
  { intros n. unfold time.Seconds, time.wrap64.
    pose proof (Z.mod_pos_bound (n * time.Second + 2 ^ 63) (2 ^ 64) ltac:(lia)).
    lia. }
  split; [|split; [|exact Hrange]].
  - intros n. split.
    + intros H. pose proof (Hrange n) as Hr. rewrite H in Hr.
      change (2 ^ 63) with 9223372036854775808 in Hr. lia.
    + intros H. unfold time.Seconds, time.wrap64, time.Second.
      rewrite Z.mod_small; [lia|].
      change (2 ^ 63) with 9223372036854775808.
      change (2 ^ 64) with 18446744073709551616. lia.
  - intros n H. unfold time.Seconds, time.wrap64, time.Second.
    change (2 ^ 63) with 9223372036854775808.
    change (2 ^ 64) with 18446744073709551616.
    assert ((n * 1000000000 + 9223372036854775808) mod 18446744073709551616
            = n * 1000000000 + 9223372036854775808 - 18446744073709551616) as ->.
    { symmetry. apply Z.mod_unique_pos with (q := 1); lia. }
    lia.
Qed.

Lemma Seconds_exact_range_witness :
  time.Seconds 300 = 300 * 1000000000 /\ time.Seconds 9223372037 < 0.
Proof.
  split.
  - apply (proj1 Seconds_exact_range 300). lia.
  - apply (proj1 (proj2 Seconds_exact_range) 9223372037). lia.
Defined.

(** ** The resolver, all paths *)

Lemma qualifying_none ports :
  (forall port, In port ports -> NodePort port <= 0) -> qualifying ports = [].
Proof.
  induction ports as [|port ports IH]; intros H; [reflexivity|].
  rewrite qualifying_cons.
  assert ((0 <? NodePort port) = false) as ->
    by (apply Z.ltb_ge, H; left; reflexivity).
  apply IH. intros p Hp. apply H. right. exact Hp.
Qed.

Lemma endpointPortIndex_unavailable endpoints err :
  endpoints = None \/ err <> None -> endpointPortIndex endpoints err = ∅.
Proof.
  intros [-> | Herr]; unfold endpointPortIndex.
  - destruct err; reflexivity.
  - destruct err; [reflexivity | congruence].
Qed.

Lemma index_empty k : index ∅ k = EmptyString.
Proof. unfold index. rewrite lookup_empty. reflexivity. Qed.

(** Whatever the resolver returns, it has printed nothing, and an error
    comes with the zero [SvcURL]. *)
Lemma printURLsForService_shape {W : Type} (c : CoreV1Interface W)
    ip service namespace t s :
  let r := printURLsForService c ip service namespace t s in
  snd (snd r) = snd s /\
  (forall e, snd (fst r) = Some e -> fst (fst r) = SvcURL_zero).
Proof.
  cbv zeta. destruct t as [tpl|]; [|cbn; split; [reflexivity | intros; reflexivity]].
  destruct (Services_Get c namespace service (fst s)) as [[svc|err] w1] eqn:Hs.
  - destruct (Endpoints_Get c namespace service w1) as [eps w2] eqn:He.
    rewrite (printURLsForService_eq c ip service namespace tpl s svc w1 eps w2 Hs He).
    cbn [fst snd]. split; [reflexivity|].
    destruct (renderAll _ _ _ _); cbn [fst snd]; [discriminate | reflexivity].
  - rewrite (printURLsForService_no_service c ip service namespace tpl s err w1 Hs).
    split; reflexivity.
Qed.

(** X10.  [printURLsForService] prints nothing, and whenever it returns
    an error the [SvcURL] beside it is the zero value.  When the service
    cannot be fetched the error wraps the cause with a message naming the
    service, and the endpoints are not asked for. *)
Theorem printURLsForService_error_shape :
  forall (W : Type) (c : CoreV1Interface W) (ip service namespace : string)
         (t : option Template) (s : W * list Event),
    let r := printURLsForService c ip service namespace t s in
    snd (snd r) = snd s /\
    (forall e, snd (fst r) = Some e -> fst (fst r) = SvcURL_zero) /\
    (forall tpl err w1,
        t = Some tpl ->
        Services_Get c namespace service (fst s) = (Err err, w1) ->
        r = ((SvcURL_zero,
              Some (errors_Wrap err
                      ("service '" +:+ service +:+ "' could not be found running"))),
             (w1, snd s))).
Proof.
  intros W c ip service namespace t s r.
  destruct (printURLsForService_shape c ip service namespace t s) as [Hlog Hzero].
  split; [exact Hlog|]. split; [exact Hzero|].
  intros tpl err w1 -> Hs. apply printURLsForService_no_service. exact Hs.
Qed.

Lemma printURLsForService_error_shape_witness :
  printURLsForService fake.client "192.168.99.100" "missing" "default"
    (Some fake.defaultTemplate) (fake.demo, [])
  = ((SvcURL_zero,
      Some (errors_Wrap (fake.notFound "services" "missing")
              ("service '" +:+ "missing" +:+ "' could not be found running"))),
     (fake.demo, [])).
Proof.
  apply (proj2 (proj2 (printURLsForService_error_shape _ fake.client
                         "192.168.99.100" "missing" "default"
                         (Some fake.defaultTemplate) (fake.demo, [])))
           fake.defaultTemplate (fake.notFound "services" "missing") fake.demo
           eq_refl).
  vm_compute. reflexivity.
Defined.

(** X11.  Endpoint names are best effort: when the endpoints cannot be
    fetched, or come back nil, the resolver goes on with an empty index.
    Every reported port name is then the empty string, the template is
    given the empty name, and only the template decides whether the call
    fails. *)
Theorem printURLsForService_without_endpoints :
  forall (W : Type) (c : CoreV1Interface W) (ip service namespace : string)
         (tpl : Template) (s : W * list Event) svc w1 eps w2,
    Services_Get c namespace service (fst s) = (Ok svc, w1) ->
    Endpoints_Get c namespace service w1 = (eps, w2) ->
    fst eps = None \/ snd eps <> None ->
    let q := qualifying (Spec_Ports svc) in
    printURLsForService c ip service namespace (Some tpl) s =
      (match renderAll tpl ip ∅ q with
       | Ok us =>
           ({| Namespace := Service_Namespace svc;
               Name := Service_Name svc;
               URLs := us;
               PortNames := map (fun _ => EmptyString) q |}, None)
       | Err e => (SvcURL_zero, Some e)
       end, (w2, snd s)) /\
    forall port, renderPort tpl ip ∅ port
                 = Execute tpl {| IP := ip; Port := NodePort port;
                                  Name_ := EmptyString |}.
Proof.
  intros W c ip service namespace tpl s svc w1 eps w2 Hs He Hun q.
  rewrite (printURLsForService_eq c ip service namespace tpl s svc w1 eps w2 Hs He).
  rewrite (endpointPortIndex_unavailable _ _ Hun). fold q. split.
  - destruct (renderAll tpl ip ∅ q); [|reflexivity].
    replace (map (resolvedName ∅) q) with (map (fun _ : ServicePort => EmptyString) q);
      [reflexivity|].
    apply map_ext. intros port. symmetry. apply index_empty.
  - intros port. unfold renderPort, resolvedName. rewrite index_empty. reflexivity.
Qed.

Lemma printURLsForService_without_endpoints_witness :
  printURLsForService fake.client "192.168.99.100" "bare" "default"
    (Some fake_nameTemplate) (fake_demoNamed, [])
  = (({| Namespace := "default"; Name := "bare";
         URLs := ["http://192.168.99.100:30003/"];
         PortNames := [EmptyString] |}, None), (fake_demoNamed, [])) /\
  printURLsForService fake.client "192.168.99.100" "bare" "default"
    (Some fake_nameTemplate) (fake_demoNamed, [])
  = (match renderAll fake_nameTemplate "192.168.99.100" ∅
             (qualifying (Spec_Ports fake_bare)) with
     | Ok us =>
         ({| Namespace := "default"; Name := "bare"; URLs := us;
             PortNames := map (fun _ => EmptyString)
                            (qualifying (Spec_Ports fake_bare)) |}, None)
     | Err e => (SvcURL_zero, Some e)
     end, (fake_demoNamed, [])).
Proof.
  split; [vm_compute; reflexivity|].
  refine (proj1 (printURLsForService_without_endpoints _ fake.client
                   "192.168.99.100" "bare" "default" fake_nameTemplate
                   (fake_demoNamed, []) fake_bare fake_demoNamed
                   (Some {| Subsets := [] |},
                    Some (fake.notFound "endpoints" "bare"))
                   fake_demoNamed _ _ _)).
  - vm_compute. reflexivity.
  - vm_compute. reflexivity.
  - right. discriminate.
Defined.

(** X12.  A service none of whose ports has a positive node port
    resolves without error to empty [URLs] and [PortNames], whatever the
    template is: the template is never executed. *)
Theorem printURLsForService_no_node_port :
  forall (W : Type) (c : CoreV1Interface W) (ip service namespace : string)
         (tpl : Template) (s : W * list Event) svc w1 eps w2,
    Services_Get c namespace service (fst s) = (Ok svc, w1) ->
    Endpoints_Get c namespace service w1 = (eps, w2) ->
    (forall port, In port (Spec_Ports svc) -> NodePort port <= 0) ->
    printURLsForService c ip service namespace (Some tpl) s =
      (({| Namespace := Service_Namespace svc;
           Name := Service_Name svc;
           URLs := [];
           PortNames := [] |}, None), (w2, snd s)).
Proof.
  intros W c ip service namespace tpl s svc w1 eps w2 Hs He Hports.
  rewrite (printURLsForService_eq c ip service namespace tpl s svc w1 eps w2 Hs He).
  rewrite (qualifying_none _ Hports). reflexivity.
Qed.

Lemma printURLsForService_no_node_port_witness :
  printURLsForService fake.client "192.168.99.100" "internal" "default"
    (Some {| Execute := fun _ => Err (errors_New "template: broken") |})
    (fake.demo, [])
  = (({| Namespace := "default"; Name := "internal";
         URLs := []; PortNames := [] |}, None), (fake.demo, [])).
Proof.
  apply (printURLsForService_no_node_port _ fake.client "192.168.99.100"
           "internal" "default"
           {| Execute := fun _ => Err (errors_New "template: broken") |}
           (fake.demo, []) fake.internal fake.demo
           (Some {| Subsets := [] |}, Some (fake.notFound "endpoints" "internal"))
           fake.demo).
  - vm_compute. reflexivity.
  - vm_compute. reflexivity.
  - intros port [<- | []]. cbn. lia.
Defined.

(** ** Where port names come from *)

Lemma foldl_insertPort_Some (m : gmap Z string) l k n :
  foldl insertPort m l !! k = Some n ->
  m !! k = Some n \/
  exists p, In p l /\ EndpointPort_Port p = k /\ EndpointPort_Name p = n.
Proof.
  revert m. induction l as [|p l IH]; intros m H; [left; exact H|].
  cbn [foldl] in H. destruct (IH _ H) as [Hm | (p' & Hin & Hk & Hn)].
  - unfold insertPort in Hm.
    destruct (decide (EndpointPort_Port p = k)) as [Heq|Hne].
    + rewrite Heq, lookup_insert_eq in Hm. injection Hm as <-.
      right. exists p. split; [left; reflexivity | auto].
    + rewrite lookup_insert_ne in Hm by exact Hne. left. exact Hm.
  - right. exists p'. split; [right; exact Hin | auto].
Qed.

Lemma resolvedName_origin endpoints err port :
  let m := endpointPortIndex endpoints err in
  resolvedName m port = EmptyString \/
  exists e p,
    endpoints = Some e /\ err = None /\ In p (entries e) /\
    EndpointPort_Port p = IntVal (TargetPort port) /\
    EndpointPort_Name p = resolvedName m port.
Proof.
  cbv zeta. destruct endpoints as [e|]; [destruct err as [x|]|].
  - left. rewrite endpointPortIndex_unavailable by (right; discriminate).
    apply index_empty.
  - unfold resolvedName, index. rewrite endpointPortIndex_entries.
    destruct (foldl insertPort ∅ (entries e) !! IntVal (TargetPort port))
      as [n|] eqn:Hn; [|left; reflexivity].
    destruct (foldl_insertPort_Some _ _ _ _ Hn) as [Hm | (p & Hin & Hk & Hname)].
    + rewrite lookup_empty in Hm. discriminate.
    + right. exists e, p. cbn [default]. auto.
  - left. rewrite endpointPortIndex_unavailable by (left; reflexivity).
    apply index_empty.
Qed.

(** X13.  Every port name [printURLsForService] reports is either empty
    or the name of an endpoint port entry of the fetched endpoints whose
    port number is the integer target port of a qualifying service
    port: the resolver invents no names. *)
Theorem printURLsForService_names_come_from_endpoints :
  forall (W : Type) (c : CoreV1Interface W) (ip service namespace : string)
         (tpl : Template) (s : W * list Event) svc w1 eps w2,
    Services_Get c namespace service (fst s) = (Ok svc, w1) ->
    Endpoints_Get c namespace service w1 = (eps, w2) ->
    let r := fst (printURLsForService c ip service namespace (Some tpl) s) in
    forall n, In n (PortNames (fst r)) ->
      n = EmptyString \/
      exists e p port,
        fst eps = Some e /\ snd eps = None /\
        In p (entries e) /\ In port (qualifying (Spec_Ports svc)) /\
        EndpointPort_Port p = IntVal (TargetPort port) /\
        EndpointPort_Name p = n.
Proof.
  intros W c ip service namespace tpl s svc w1 eps w2 Hs He r n Hn. subst r.
  rewrite (printURLsForService_eq c ip service namespace tpl s svc w1 eps w2 Hs He)
    in Hn.
  destruct (renderAll _ _ _ _) as [us|e]; cbn [fst snd PortNames SvcURL_zero] in Hn;
    [|destruct Hn].
  apply in_map_iff in Hn. destruct Hn as (port & <- & Hport).
  destruct (resolvedName_origin (fst eps) (snd eps) port)
    as [Hempty | (e & p & H1 & H2 & H3 & H4 & H5)]; [left; exact Hempty|].
  right. exists e, p, port. auto 10.
Qed.

Lemma printURLsForService_names_come_from_endpoints_witness :
  "http" = EmptyString \/
  exists e p port,
    Some fake.webEndpoints = Some e /\ @None error = None /\
    In p (entries e) /\ In port (qualifying (Spec_Ports fake.web)) /\
    EndpointPort_Port p = IntVal (TargetPort port) /\
    EndpointPort_Name p = "http".
Proof.
  refine (printURLsForService_names_come_from_endpoints _ fake.client
            "192.168.99.100" "web" "default" fake.defaultTemplate (fake.demo, [])
            fake.web fake.demo (Some fake.webEndpoints, None) fake.demo
            _ _ "http" _).
  - vm_compute. reflexivity.
  - vm_compute. reflexivity.
  - vm_compute. left. reflexivity.
Defined.

(** ** Resolving one service from the host *)

(** X14.  [GetServiceURLsForService] resolves with the address the host
    driver reports: once the host, its address and the client are
    obtained it is [printURLsForService] on that client and address.
    Whatever happens it prints nothing, and every error comes with the
    zero [SvcURL]; a failure to load the host or to get its address is
    wrapped, a failure to obtain the client is passed on as it is, and in
    these three cases the cluster is not queried. *)
Theorem GetServiceURLsForService_paths :
  forall (W : Type) (K8s : K8sClient W) (api : API W)
         (namespace service : string) (t : option Template)
         (s : W * list Event),
    let r := GetServiceURLsForService K8s api namespace service t s in
    snd (snd r) = snd s /\
    (forall e, snd (fst r) = Some e -> fst (fst r) = SvcURL_zero) /\
    (forall err w1,
        CheckIfHostExistsAndLoad api (fst s) = (Err err, w1) ->
        r = ((SvcURL_zero,
              Some (errors_Wrap err "Error checking if api exist and loading it")),
             (w1, snd s))) /\
    (forall host w1 err w2,
        CheckIfHostExistsAndLoad api (fst s) = (Ok host, w1) ->
        Driver_GetIP host w1 = (Err err, w2) ->
        r = ((SvcURL_zero, Some (errors_Wrap err "Error getting ip from host")),
             (w2, snd s))) /\
    (forall host w1 ip w2 answer w3,
        CheckIfHostExistsAndLoad api (fst s) = (Ok host, w1) ->
        Driver_GetIP host w1 = (Ok ip, w2) ->
        GetCoreClient K8s w2 = (answer, w3) ->
        r = match answer with
            | Err err => ((SvcURL_zero, Some err), (w3, snd s))
            | Ok client =>
                printURLsForService client ip service namespace t (w3, snd s)
            end).
Proof.
  intros W K8s api namespace service t s r. subst r.
  unfold GetServiceURLsForService, bind, call, ret.
  destruct (CheckIfHostExistsAndLoad api (fst s)) as [[host|err] w1];
    cbn [fst snd].
  2:{ split; [reflexivity|]. split; [intros; reflexivity|].
      split; [intros err' w1' [= <- <-]; reflexivity|].
      split; discriminate. }
  destruct (Driver_GetIP host w1) as [[ip|err] w2] eqn:Hi; cbn [fst snd].
  2:{ split; [reflexivity|]. split; [intros; reflexivity|].
      split; [discriminate|]. split.
      - intros host' w1' err' w2' [= <- <-] Hi'. rewrite Hi in Hi'.
        injection Hi' as <- <-. reflexivity.
      - intros host' w1' ip' w2' answer w3 [= <- <-] Hi'. rewrite Hi in Hi'.
        discriminate. }
  destruct (GetCoreClient K8s w2) as [[client|err] w3] eqn:Hc; cbn [fst snd].
  - destruct (printURLsForService_shape client ip service namespace t (w3, snd s))
      as [Hlog Hzero]. cbn [snd] in Hlog.
    split; [exact Hlog|]. split; [exact Hzero|]. split; [discriminate|].
    split.
    + intros host' w1' err' w2' [= <- <-] Hi'. rewrite Hi in Hi'. discriminate.
    + intros host' w1' ip' w2' answer w3' [= <- <-] Hi'. rewrite Hi in Hi'.
      injection Hi' as <- <-. intros Hc'. rewrite Hc in Hc'.
      injection Hc' as <- <-. reflexivity.
  - split; [reflexivity|]. split; [intros; reflexivity|]. split; [discriminate|].
    split.
    + intros host' w1' err' w2' [= <- <-] Hi'. rewrite Hi in Hi'. discriminate.
    + intros host' w1' ip' w2' answer w3' [= <- <-] Hi'. rewrite Hi in Hi'.
      injection Hi' as <- <-. intros Hc'. rewrite Hc in Hc'.
      injection Hc' as <- <-. reflexivity.
Qed.

Lemma GetServiceURLsForService_paths_witness :
  GetServiceURLsForService fake.K8sDown fake.api "default" "web"
    (Some fake.defaultTemplate) (fake.demo, [])
  = ((SvcURL_zero, Some (errors_New "kubeConfig: unreachable")), (fake.demo, [])).
Proof.
  exact (proj2 (proj2 (proj2 (proj2
           (GetServiceURLsForService_paths _ fake.K8sDown fake.api "default" "web"
              (Some fake.defaultTemplate) (fake.demo, [])))))
           fake.host fake.demo "192.168.99.100" fake.demo
           (Err (errors_New "kubeConfig: unreachable")) fake.demo
           eq_refl eq_refl eq_refl).
Defined.

(** ** The secret lifecycle, all paths *)

Lemma DeleteSecret_error_shape {W : Type} (K8s : K8sClient W) namespace name s e :
  fst (DeleteSecret K8s namespace name s) = Some e ->
  exists cause, e = RetriableError cause.
Proof.
  unfold DeleteSecret, bind, call, ret.
  destruct (GetCoreClient K8s (fst s)) as [[client|err] w1]; cbn [fst snd].
  - destruct (Secrets_Delete client namespace name w1) as [[err|] w2];
      cbn [fst snd]; [|discriminate].
    intros [= <-]. eauto.
  - intros [= <-]. eauto.
Qed.

(** X15.  Every error [CreateSecret] returns is a [RetriableError]: it
    wraps the failure to obtain the client, the failure of the delete
    and the failure of the create alike.  Since [DeleteSecret] already
    answers with a [RetriableError], a failed delete comes back wrapped
    twice. *)
Theorem CreateSecret_errors_retriable :
  forall (W : Type) (K8s : K8sClient W) (namespace name : string)
         (dataValues labels : gmap string string) (s : W * list Event),
    let r := CreateSecret K8s namespace name dataValues labels s in
    (forall e, fst r = Returned (Some e) -> isRetriable e = true) /\
    (forall err w1,
        GetCoreClient K8s (fst s) = (Err err, w1) ->
        r = (Returned (Some (RetriableError err)), (w1, snd s))) /\
    (forall client w1 g w2 secret err s3,
        GetCoreClient K8s (fst s) = (Ok client, w1) ->
        Secrets_Get client namespace name w1 = (g, w2) ->
        fst g = Some secret ->
        Secret_Name secret <> EmptyString ->
        DeleteSecret K8s namespace name (w2, snd s) = (Some err, s3) ->
        exists cause,
          err = RetriableError cause /\
          r = (Returned (Some (RetriableError (RetriableError cause))), s3)).
Proof.
  intros W K8s namespace name dataValues labels s r. subst r.
  split; [|split].
  - intros e. unfold CreateSecret, bind, call, ret.
    destruct (GetCoreClient K8s (fst s)) as [[client|err] w1]; cbn [fst snd];
      [|intros [= <-]; reflexivity].
    destruct (Secrets_Get client namespace name w1) as [[[secret|] gerr] w2];
      cbn [fst snd]; [|discriminate].
    destruct (0 <? String.length (Secret_Name secret))%nat.
    + destruct (DeleteSecret K8s namespace name (w2, snd s)) as [[err|] s3];
        [intros [= <-]; reflexivity|].
      match goal with
      | |- context [Secrets_Create ?a ?b ?o ?w] =>
          destruct (Secrets_Create a b o w) as [[obj|err] w4]
      end; cbn [fst snd]; [discriminate | intros [= <-]; reflexivity].
    + match goal with
      | |- context [Secrets_Create ?a ?b ?o ?w] =>
          destruct (Secrets_Create a b o w) as [[obj|err] w4]
      end; cbn [fst snd]; [discriminate | intros [= <-]; reflexivity].
  - intros err w1 Hc. unfold CreateSecret, bind, call, ret. rewrite Hc.
    reflexivity.
  - intros client w1 g w2 secret err s3 Hc Hg Hsec Hname Hd.
    destruct (DeleteSecret_error_shape K8s namespace name (w2, snd s) err)
      as [cause ->]; [rewrite Hd; reflexivity|].
    exists cause. split; [reflexivity|].
    rewrite (CreateSecret_eq K8s namespace name dataValues labels s client w1 g
               w2 secret Hc Hg Hsec).
    apply String.eqb_neq in Hname. rewrite Hname. cbv zeta. rewrite Hd.
    reflexivity.
Qed.

Lemma CreateSecret_errors_retriable_witness :
  CreateSecret fake.K8sDown "default" "token" {[ "key" := "v" ]} ∅ (fake.demo, [])
  = (Returned (Some (RetriableError (errors_New "kubeConfig: unreachable"))),
     (fake.demo, [])).
Proof.
  exact (proj1 (proj2 (CreateSecret_errors_retriable _ fake.K8sDown "default"
                         "token" {[ "key" := "v" ]} ∅ (fake.demo, [])))
           (errors_New "kubeConfig: unreachable") fake.demo eq_refl).
Defined.

(** X16.  What [CreateSecret] stores can be read back: on the reference
    cluster the stored secret is opaque, carries the given labels, has
    exactly the keys of the given data, and decoding its byte values
    gives the given strings again. *)
Theorem CreateSecret_stores_given_data :
  forall (c : fake.Cluster) (l : list Event) (namespace name : string)
         (dataValues labels : gmap string string),
    name <> EmptyString ->
    let c' := fst (snd (CreateSecret fake.K8s namespace name dataValues labels
                          (c, l))) in
    exists b,
      fake.secrets c' !! (namespace, name) = Some b /\
      fake.body_Type b = SecretTypeOpaque /\
      fake.body_Labels b = labels /\
      dom (fake.body_Data b) = dom dataValues /\
      string_of_list_byte <$> fake.body_Data b = dataValues.
Proof.
  intros c l namespace name dataValues labels Hname c'. subst c'.
  rewrite (CreateSecret_fake namespace name dataValues labels c l Hname).
  cbn [fst snd fake.withSecrets fake.secrets].
  exists (fake.bodyOf (secretObj name dataValues labels)).
  split; [apply lookup_insert_eq|]. split; [reflexivity|]. split; [reflexivity|].
  cbn [fake.bodyOf secretObj fake.body_Data Data]. split.
  - apply dom_fmap_L.
  - rewrite <- map_fmap_compose. rewrite <- (map_fmap_id dataValues) at 2.
    apply map_fmap_ext. intros k v _. cbn.
    apply string_of_list_byte_of_string.
Qed.

Lemma CreateSecret_stores_given_data_witness :
  exists b,
    fake.secrets
      (fst (snd (CreateSecret fake.K8s "default" "token"
                   {[ "user" := "admin"; "pass" := "s3cret" ]}
                   {[ "app" := "demo" ]} (fake.demo, []))))
      !! ("default", "token") = Some b /\
    fake.body_Type b = SecretTypeOpaque /\
    fake.body_Labels b = {[ "app" := "demo" ]} /\
    dom (fake.body_Data b) = dom ({[ "user" := "admin"; "pass" := "s3cret" ]}
                                    : gmap string string) /\
    string_of_list_byte <$> fake.body_Data b
      = {[ "user" := "admin"; "pass" := "s3cret" ]}.
Proof.
  apply (CreateSecret_stores_given_data fake.demo [] "default" "token").
  discriminate.
Defined.

(** X17.  On the reference cluster the last [CreateSecret] wins
    outright: the cluster after two calls for the same name is the
    cluster after the second call alone, so repeating a call changes
    nothing. *)
Theorem CreateSecret_last_write_wins :
  forall (c : fake.Cluster) (l : list Event) (namespace name : string)
         (data1 labels1 data2 labels2 : gmap string string),
    name <> EmptyString ->
    CreateSecret fake.K8s namespace name data2 labels2
      (snd (CreateSecret fake.K8s namespace name data1 labels1 (c, l)))
    = CreateSecret fake.K8s namespace name data2 labels2 (c, l).
Proof.
  intros c l namespace name data1 labels1 data2 labels2 Hname.
  rewrite (CreateSecret_fake namespace name data1 labels1 c l Hname).
  cbn [snd]. rewrite !(CreateSecret_fake namespace name data2 labels2 _ l Hname).
  cbn [fake.withSecrets fake.secrets fake.services fake.endpoints fake.hostIP
       fake.polls fake.opened].
  rewrite insert_insert_eq. reflexivity.
Qed.

Lemma CreateSecret_last_write_wins_witness :
  CreateSecret fake.K8s "default" "token" {[ "key" := "v" ]} ∅
    (snd (CreateSecret fake.K8s "default" "token" {[ "key" := "v" ]} ∅
            (fake.demo, [])))
  = CreateSecret fake.K8s "default" "token" {[ "key" := "v" ]} ∅ (fake.demo, []).
Proof.
  apply (CreateSecret_last_write_wins fake.demo [] "default" "token").
  discriminate.
Defined.

Lemma DeleteSecret_fake_present namespace name c l b :
  fake.secrets c !! (namespace, name) = Some b ->
  DeleteSecret fake.K8s namespace name (c, l)
    = (None,
       (fake.withSecrets c (delete (namespace, name) (fake.secrets c)), l)).
Proof.
  intros H. unfold DeleteSecret, bind, call, ret.
  cbn [fake.K8s GetCoreClient fst snd fake.client Secrets_Delete].
  unfold fake.secretsDelete. rewrite H. reflexivity.
Qed.

Lemma DeleteSecret_fake_absent namespace name c l :
  fake.secrets c !! (namespace, name) = None ->
  DeleteSecret fake.K8s namespace name (c, l)
    = (Some (RetriableError (fake.notFound "secrets" name)), (c, l)).
Proof.
  intros H. unfold DeleteSecret, bind, call, ret.
  cbn [fake.K8s GetCoreClient fst snd fake.client Secrets_Delete].
  unfold fake.secretsDelete. rewrite H. reflexivity.
Qed.

(** X18.  On the reference cluster [DeleteSecret] undoes [CreateSecret]:
    after creating and deleting a secret the name is free, every other
    secret is as it was, and deleting once more fails with a retriable
    not-found error that leaves the cluster alone. *)
Theorem CreateSecret_then_DeleteSecret :
  forall (c : fake.Cluster) (l : list Event) (namespace name : string)
         (dataValues labels : gmap string string),
    name <> EmptyString ->
    let created := CreateSecret fake.K8s namespace name dataValues labels (c, l) in
    let deleted := DeleteSecret fake.K8s namespace name (snd created) in
    let again := DeleteSecret fake.K8s namespace name (snd deleted) in
    fst deleted = None /\
    fake.secrets (fst (snd deleted)) = delete (namespace, name) (fake.secrets c) /\
    fst again = Some (RetriableError (fake.notFound "secrets" name)) /\
    snd again = snd deleted.
Proof.
  intros c l namespace name dataValues labels Hname created deleted again.
  subst again deleted created.
  rewrite (CreateSecret_fake namespace name dataValues labels c l Hname).
  cbn [snd].
  erewrite DeleteSecret_fake_present
    by (cbn [fake.withSecrets fake.secrets]; apply lookup_insert_eq).
  cbn [fst snd fake.withSecrets fake.secrets].
  rewrite delete_insert_eq.
  rewrite DeleteSecret_fake_absent
    by (cbn [fake.withSecrets fake.secrets]; apply lookup_delete_eq).
  repeat split.
Qed.

Lemma CreateSecret_then_DeleteSecret_witness :
  let created := CreateSecret fake.K8s "default" "fresh" {[ "key" := "v" ]} ∅
                   (fake.demo, []) in
  let deleted := DeleteSecret fake.K8s "default" "fresh" (snd created) in
  let again := DeleteSecret fake.K8s "default" "fresh" (snd deleted) in
  fst deleted = None /\
  fake.secrets (fst (snd deleted))
    = delete ("default", "fresh") (fake.secrets fake.demo) /\
  fst again = Some (RetriableError (fake.notFound "secrets" "fresh")) /\
  snd again = snd deleted.
Proof.
  apply (CreateSecret_then_DeleteSecret fake.demo [] "default" "fresh").
  discriminate.
Defined.

(** ** The HTTPS rule, all inputs *)

Lemma HasPrefix_take s p :
  strings.HasPrefix s p = true -> strings.take (String.length p) s = p.
Proof.
  revert s. induction p as [|c p IH]; intros s H; [reflexivity|].
  destruct s as [|d s]; [discriminate|]. cbn in H |- *.
  destruct (Ascii.eqb_spec c d) as [->|]; [|discriminate].
  f_equal. apply IH. exact H.
Qed.

Lemma take_add j n s :
  strings.take (j + n) s = strings.take j s +:+ strings.take n (strings.drop j s).
Proof.
  revert s. induction j as [|j IH]; intros s; [reflexivity|].
  destruct s as [|c s].
  - cbn. destruct n; reflexivity.
  - cbn [Nat.add strings.take strings.drop].
    exact (f_equal (String c) (IH s)).
Qed.

Lemma app_assoc_string (a b c : string) : (a +:+ b) +:+ c = a +:+ (b +:+ c).
Proof.
  induction a as [|x a IH]; [reflexivity|].
  exact (f_equal (String x) IH).
Qed.

Lemma length_app_string (a b : string) :
  String.length (a +:+ b) = (String.length a + String.length b)%nat.
Proof.
  induction a as [|x a IH]; [reflexivity|].
  exact (f_equal S IH).
Qed.

(** Rewriting the occurrence at [j] amounts to inserting one letter
    behind it. *)
Lemma rewrite_inserts_s s j :
  strings.HasPrefix (strings.drop j s) "http" = true ->
  strings.take j s +:+ "https" +:+ strings.drop (j + 4) s
    = strings.take (j + 4) s +:+ "s" +:+ strings.drop (j + 4) s.
Proof.
  intros H. rewrite take_add.
  pose proof (HasPrefix_take (strings.drop j s) "http" H) as Ht.
  change (String.length "http") with 4%nat in Ht. rewrite Ht.
  rewrite app_assoc_string. reflexivity.
Qed.

(** X19.  For every parser, input and flag: the boolean of
    [OptionallyHTTPSFormattedURLString] does not depend on the flag,
    without the flag the string comes back as it is, and with it the
    string is either unchanged or the input with a single letter [s]
    inserted right after an occurrence of [http]; so the result is at
    most one byte longer than the input and keeps the input's bytes in
    order. *)
Theorem OptionallyHTTPSFormattedURLString_shape :
  forall (url_Parse : string -> option url.URL) (s : string) (https : bool),
    let r := OptionallyHTTPSFormattedURLString url_Parse s https in
    snd r = snd (OptionallyHTTPSFormattedURLString url_Parse s (negb https)) /\
    (https = false -> fst r = s) /\
    (snd r = false -> fst r = s) /\
    (fst r = s \/
     exists j,
       strings.HasPrefix (strings.drop j s) "http" = true /\
       fst r = strings.take (j + 4) s +:+ "s" +:+ strings.drop (j + 4) s /\
       String.length (fst r) = S (String.length s)) /\
    (String.length (fst r) <= S (String.length s))%nat.
Proof.
  intros url_Parse s https r. subst r.
  unfold OptionallyHTTPSFormattedURLString.
  set (b := match url_Parse s with
            | Some u => String.eqb (url.Scheme u) "http"
            | None => false
            end).
  cbn [fst snd]. split; [reflexivity|].
  split; [intros ->; rewrite andb_false_r; reflexivity|].
  split; [intros ->; reflexivity|].
  assert (forall j, strings.HasPrefix (strings.drop j s) "http" = true ->
            String.length (strings.take (j + 4) s +:+ "s" +:+ strings.drop (j + 4) s)
            = S (String.length s)) as Hlen.
  { intros j Hj. rewrite !length_app_string. cbn [String.length].
    rewrite <- (strings_facts.take_drop (j + 4) s) at 3.
    rewrite length_app_string. lia. }
  destruct (b && https)%bool; [|split; [left; reflexivity | lia]].
  rewrite strings_facts.Replace_once by discriminate.
  destruct (strings.Index s "http") as [j|] eqn:Hj;
    [|split; [left; reflexivity | lia]].
  destruct (strings_facts.Index_Some s "http" j Hj) as [Hpre _].
  change (String.length "http") with 4%nat.
  rewrite (rewrite_inserts_s s j Hpre). rewrite (Hlen j Hpre).
  split; [|lia]. right. exists j. auto.
Qed.

Lemma OptionallyHTTPSFormattedURLString_shape_witness :
  fst (OptionallyHTTPSFormattedURLString url.Parse "http://10.0.0.1:3000" false)
    = "http://10.0.0.1:3000" /\
  (String.length
     (fst (OptionallyHTTPSFormattedURLString url.Parse "http://10.0.0.1:3000" true))
   <= S (String.length "http://10.0.0.1:3000"))%nat.
Proof.
  split.
  - apply (proj1 (proj2 (OptionallyHTTPSFormattedURLString_shape url.Parse
                           "http://10.0.0.1:3000" false))).
    reflexivity.
  - apply (proj2 (proj2 (proj2 (proj2
             (OptionallyHTTPSFormattedURLString_shape url.Parse
                "http://10.0.0.1:3000" true))))).
Defined.

(** X20.  When the input literally begins with [http] and its scheme
    parses as [http], the rule with the flag set rewrites the scheme
    itself: the result is [https] followed by the rest of the input. *)
Theorem OptionallyHTTPSFormattedURLString_scheme_prefix :
  forall (url_Parse : string -> option url.URL) (rest : string),
    (exists u, url_Parse ("http" +:+ rest) = Some u /\ url.Scheme u = "http") ->
    OptionallyHTTPSFormattedURLString url_Parse ("http" +:+ rest) true
      = ("https" +:+ rest, true).
Proof.
  intros url_Parse rest H.
  rewrite (scheme_is_http url_Parse _ true H).
  rewrite strings_facts.Replace_once by discriminate.
  change ("http" +:+ rest)
    with (String "h" (String "t" (String "t" (String "p" rest)))).
  cbn [strings.Index strings.HasPrefix Ascii.eqb Bool.eqb].
  assert (strings.HasPrefix rest EmptyString = true) as ->
    by (destruct rest; reflexivity).
  reflexivity.
Qed.

Lemma OptionallyHTTPSFormattedURLString_scheme_prefix_witness :
  OptionallyHTTPSFormattedURLString url.Parse ("http" +:+ "://10.0.0.1:3000/http")
    true = ("https" +:+ "://10.0.0.1:3000/http", true).
Proof.
  apply (OptionallyHTTPSFormattedURLString_scheme_prefix url.Parse
           "://10.0.0.1:3000/http").
  exists {| url.Scheme := "http" |}. split; vm_compute; reflexivity.
Defined.

(** * Properties of the addon registry (package assets) *)

(** ** Enabling addons *)

Lemma ParseBool_true text :
  strconv.ParseBool text = Ok true <->
  In text ["1"; "t"; "T"; "true"; "TRUE"; "True"].
Proof.
  unfold strconv.ParseBool. split.
  - intros H.
    repeat lazymatch type of H with
           | context [String.eqb text ?b] =>
               let E := fresh "E" in
               destruct (String.eqb_spec text b) as [E|E];
               [cbn in H; first [discriminate H | rewrite E; cbn; auto 10]
               | cbn [orb] in H]
           end.
    cbn in H. discriminate H.
  - intros [<-|[<-|[<-|[<-|[<-|[<-|[]]]]]]]; reflexivity.
Qed.

Lemma ParseBool_false text :
  strconv.ParseBool text = Ok false <->
  In text ["0"; "f"; "F"; "false"; "FALSE"; "False"].
Proof.
  unfold strconv.ParseBool. split.
  - intros H.
    repeat lazymatch type of H with
           | context [String.eqb text ?b] =>
               let E := fresh "E" in
               destruct (String.eqb_spec text b) as [E|E];
               [cbn in H; first [discriminate H | rewrite E; cbn; auto 10]
               | cbn [orb] in H]
           end.
    cbn in H. discriminate H.
  - intros [<-|[<-|[<-|[<-|[<-|[<-|[]]]]]]]; reflexivity.
Qed.

(** X21.  A persisted setting overrides an addon's default in both
    directions: [IsEnabled] answers true for the six spellings
    [1 t T true TRUE True] and false for [0 f F false FALSE False],
    whatever the default.  Any other persisted text makes it fail, and
    the boolean beside the error is false even for an addon enabled by
    default.  Only when the setting cannot be read does the default
    decide, and then without an error. *)
Theorem IsEnabled_setting_overrides_default :
  forall (BinAsset : Type) (config_Get : string -> result string)
         (a : assets.Addon BinAsset),
    (forall text,
        config_Get (assets.addonName a) = Ok text ->
        (In text ["1"; "t"; "T"; "true"; "TRUE"; "True"] ->
         assets.IsEnabled config_Get a = (true, None)) /\
        (In text ["0"; "f"; "F"; "false"; "FALSE"; "False"] ->
         assets.IsEnabled config_Get a = (false, None)) /\
        (~ In text ["1"; "t"; "T"; "true"; "TRUE"; "True";
                    "0"; "f"; "F"; "false"; "FALSE"; "False"] ->
         exists err, assets.IsEnabled config_Get a = (false, Some err))) /\
    (forall err,
        config_Get (assets.addonName a) = Err err ->
        assets.IsEnabled config_Get a = (assets.enabled a, None)).
Proof.
  intros BinAsset config_Get a. split.
  - intros text Hget. unfold assets.IsEnabled. rewrite Hget.
    split; [|split].
    + intros H. apply ParseBool_true in H. rewrite H. reflexivity.
    + intros H. apply ParseBool_false in H. rewrite H. reflexivity.
    + intros H. destruct (strconv.ParseBool text) as [[|]|err] eqn:Hp.
      * exfalso. apply H. apply ParseBool_true in Hp.
        apply in_or_app with (l := ["1"; "t"; "T"; "true"; "TRUE"; "True"]).
        left. exact Hp.
      * exfalso. apply H. apply ParseBool_false in Hp.
        apply in_or_app with (l := ["1"; "t"; "T"; "true"; "TRUE"; "True"]).
        right. exact Hp.
      * eauto.
  - intros err Hget. unfold assets.IsEnabled. rewrite Hget. reflexivity.
Qed.

Lemma IsEnabled_setting_overrides_default_witness :
  assets.IsEnabled assets.demoConfig
    (assets.NewAddon assets.demoBinAsset [] false "dashboard") = (true, None) /\
  assets.IsEnabled assets.demoConfig
    (assets.NewAddon assets.demoBinAsset [] true "addon-manager") = (false, None) /\
  (exists err,
      assets.IsEnabled assets.demoConfig
        (assets.NewAddon assets.demoBinAsset [] true "ingress")
      = (false, Some err)) /\
  assets.IsEnabled assets.demoConfig
    (assets.NewAddon assets.demoBinAsset [] true "registry") = (true, None).
Proof.
  split; [|split; [|split]].
  - apply (proj1 (proj1 (IsEnabled_setting_overrides_default _ assets.demoConfig
                           (assets.NewAddon assets.demoBinAsset [] false "dashboard"))
                    "true" eq_refl)).
    cbn. auto.
  - apply (proj1 (proj2 (proj1 (IsEnabled_setting_overrides_default _
                                  assets.demoConfig
                                  (assets.NewAddon assets.demoBinAsset [] true
                                     "addon-manager"))
                           "F" eq_refl))).
    cbn. auto.
  - apply (proj2 (proj2 (proj1 (IsEnabled_setting_overrides_default _
                                  assets.demoConfig
                                  (assets.NewAddon assets.demoBinAsset [] true
                                     "ingress"))
                           "yes" eq_refl))).
    cbn. intros H. repeat destruct H as [H|H]; try discriminate H. exact H.
  - apply (proj2 (IsEnabled_setting_overrides_default _ assets.demoConfig
                    (assets.NewAddon assets.demoBinAsset [] true "registry"))
             (errors_New "no such setting")).
    reflexivity.
Defined.

(** ** The registry table *)

Section RegistryFacts.

Variable BinAsset : Type.
Variable MustBinAsset : string -> string -> string -> string -> bool -> BinAsset.
Variables GuestManifestsDir GuestAddonsDir GvisorFilesPath
          GvisorConfigTomlTargetName : string.

Lemma AddonsList_keys_NoDup : NoDup (map fst
    (assets.AddonsList BinAsset MustBinAsset GuestManifestsDir GuestAddonsDir
     GvisorFilesPath GvisorConfigTomlTargetName)).
Proof.
  cbn. repeat (apply NoDup_cons; split;
               [intros H; repeat (apply elem_of_cons in H as [H|H];
                                  [discriminate H|]);
                apply elem_of_nil in H; exact H|]).
  apply NoDup_nil. exact I.
Qed.

Lemma Addons_lookup k a :
  (assets.Addons BinAsset MustBinAsset GuestManifestsDir GuestAddonsDir
     GvisorFilesPath GvisorConfigTomlTargetName) !! k = Some a
  <-> In (k, a)
    (assets.AddonsList BinAsset MustBinAsset GuestManifestsDir GuestAddonsDir
     GvisorFilesPath GvisorConfigTomlTargetName).
Proof.
  unfold assets.Addons. rewrite <- list_elem_of_In. split.
  - apply elem_of_list_to_map_2.
  - apply elem_of_list_to_map_1. exact AddonsList_keys_NoDup.
Qed.

(** The shape of every entry of the literal. *)
Lemma AddonsList_entries :
  Forall (fun ka =>
            assets.Name (snd ka) = fst ka /\
            assets.Assets (snd ka) <> [] /\
            Forall (fun x => exists name targetDir targetName isTemplate,
                        x = MustBinAsset name targetDir targetName "0640"
                              isTemplate)
                   (assets.Assets (snd ka)))
         (assets.AddonsList BinAsset MustBinAsset GuestManifestsDir GuestAddonsDir
     GvisorFilesPath GvisorConfigTomlTargetName).
Proof.
  unfold assets.AddonsList.
  repeat (apply Forall_cons; split;
          [cbn; split; [reflexivity|]; split; [discriminate|];
           repeat (apply Forall_cons; split; [eauto|]); apply Forall_nil; exact I|]).
  apply Forall_nil. exact I.
Qed.


End RegistryFacts.

(** X22.  The registry is keyed by addon name: whatever [MustBinAsset]
    and the guest paths are, every addon found under a key has that key
    as its name, has at least one asset, and has all its assets built
    with permissions [0640]; and no entry of the literal is shadowed by
    another: each is found under its key. *)
Theorem Addons_registry_well_formed :
  forall (BinAsset : Type)
         (MustBinAsset : string -> string -> string -> string -> bool -> BinAsset)
         (GuestManifestsDir GuestAddonsDir GvisorFilesPath
          GvisorConfigTomlTargetName : string),
    let registry := assets.Addons BinAsset MustBinAsset GuestManifestsDir
                      GuestAddonsDir GvisorFilesPath GvisorConfigTomlTargetName in
    (forall k a,
        registry !! k = Some a ->
        assets.Name a = k /\
        assets.Assets a <> [] /\
        Forall (fun x => exists name targetDir targetName isTemplate,
                    x = MustBinAsset name targetDir targetName "0640" isTemplate)
               (assets.Assets a)) /\
    (forall k a,
        In (k, a) (assets.AddonsList BinAsset MustBinAsset GuestManifestsDir
                     GuestAddonsDir GvisorFilesPath GvisorConfigTomlTargetName) ->
        registry !! k = Some a).
Proof.
  intros BinAsset MustBinAsset d1 d2 d3 d4 registry. subst registry.
  split.
  - intros k a H. apply Addons_lookup in H.
    pose proof (AddonsList_entries BinAsset MustBinAsset d1 d2 d3 d4) as Hall.
    rewrite List.Forall_forall in Hall. exact (Hall (k, a) H).
  - intros k a H. apply Addons_lookup. exact H.
Qed.

Lemma Addons_registry_well_formed_witness :
  exists a,
    assets.demoAddons !! "gvisor" = Some a /\
    assets.Name a = "gvisor" /\
    assets.Assets a <> [] /\
    Forall (fun x => exists name targetDir targetName isTemplate,
                x = assets.demoMustBinAsset name targetDir targetName "0640"
                      isTemplate)
           (assets.Assets a).
Proof.
  destruct (assets.demoAddons !! "gvisor") as [a|] eqn:Ha;
    [|vm_compute in Ha; discriminate Ha].
  exists a. split; [reflexivity|].
  exact (proj1 (Addons_registry_well_formed assets.demoBinAsset
                  assets.demoMustBinAsset "/etc/kubernetes/manifests"
                  "/etc/kubernetes/addons" "/tmp/gvisor" "gvisor-config.toml")
           "gvisor" a Ha).
Defined.



(** ** Permission strings *)

(** X24.  For the permission bits a file can have (0 to 0777 octal) the
    permission string always reads back, as an octal number, to those
    bits.  It has four characters, a leading zero and three digits,
    exactly when some owner bit is set; when no owner bit is set the
    leading zero is not put back and the string has one or two digits
    only. *)
Theorem permStringOf_reads_back :
  forall perm : Z,
    0 <= perm <= 511 ->
    parseOctal (assets.permStringOf perm) = Some perm /\
    (64 <= perm ->
     assets.permStringOf perm = "0" +:+ assets.formatOctal perm /\
     String.length (assets.permStringOf perm) = 4%nat) /\
    (perm < 64 ->
     assets.permStringOf perm = assets.formatOctal perm /\
     (String.length (assets.permStringOf perm) <= 2)%nat).
Proof.
  intros perm Hperm.
  assert (forallb
            (fun n : nat =>
               let p := Z.of_nat n in
               (match parseOctal (assets.permStringOf p) with
                | Some q => q =? p
                | None => false
                end)
               && (if 64 <=? p
                   then String.eqb (assets.permStringOf p)
                          ("0" +:+ assets.formatOctal p)
                        && Nat.eqb (String.length (assets.permStringOf p)) 4
                   else String.eqb (assets.permStringOf p) (assets.formatOctal p)
                        && Nat.leb (String.length (assets.permStringOf p)) 2))%bool
            (List.seq 0 512) = true) as Hall by (vm_compute; reflexivity).
  rewrite forallb_forall in Hall.
  specialize (Hall (Z.to_nat perm)).
  rewrite Z2Nat.id in Hall by lia. cbv zeta in Hall.
  assert (In (Z.to_nat perm) (List.seq 0 512)) as Hin
    by (apply in_seq; lia).
  apply Hall in Hin. apply andb_prop in Hin as [Hparse Hshape].
  split.
  - destruct (parseOctal (assets.permStringOf perm)) as [q|]; [|discriminate].
    apply Z.eqb_eq in Hparse. congruence.
  - destruct (64 <=? perm) eqn:Hge.
    + apply Z.leb_le in Hge. apply andb_prop in Hshape as [H1 H2].
      apply String.eqb_eq in H1. apply Nat.eqb_eq in H2.
      split; [intros _; split; assumption | lia].
    + apply Z.leb_gt in Hge. apply andb_prop in Hshape as [H1 H2].
      apply String.eqb_eq in H1. apply Nat.leb_le in H2.
      split; [lia | intros _; split; assumption].
Qed.

Lemma permStringOf_reads_back_witness :
  (parseOctal (assets.permStringOf 420) = Some 420 /\
   assets.permStringOf 420 = "0644") /\
  (parseOctal (assets.permStringOf 36) = Some 36 /\
   assets.permStringOf 36 = "44").
Proof.
  split.
  - destruct (permStringOf_reads_back 420 ltac:(lia)) as (Hp & Hge & _).
    split; [exact Hp|]. destruct (Hge ltac:(lia)) as [-> _]. reflexivity.
  - destruct (permStringOf_reads_back 36 ltac:(lia)) as (Hp & _ & Hlt).
    split; [exact Hp|]. destruct (Hlt ltac:(lia)) as [-> _]. reflexivity.
Defined.

(** ** Collecting the files of the minikube directories *)

Section WalkFacts.

Variable CopyableFile : Type.
Variable NewFileAsset : string -> string -> string -> string -> result CopyableFile.
Variable util_IsDirectory : string -> result bool.
Variable filepath_Rel : string -> string -> result string.
Variables filepath_Dir filepath_ToSlash filepath_Base : string -> string.
Variable path_Join : string -> string -> string.
Variables basedir vmpath : string.

(** What the callback does with one visit. *)
Lemma walkFn_cases assets v :
  let r := assets.walkFn CopyableFile NewFileAsset util_IsDirectory filepath_Rel
        filepath_Dir filepath_ToSlash filepath_Base path_Join basedir vmpath assets v in
  (snd r <> None /\ fst r = assets) \/
  (snd r = None /\ assets.isFile util_IsDirectory v = false /\ fst r = assets) \/
  (snd r = None /\ assets.isFile util_IsDirectory v = true /\
   exists f, fst r = (assets ++ [f])%list /\ assets.placed CopyableFile NewFileAsset filepath_Rel filepath_Dir
        filepath_ToSlash filepath_Base path_Join basedir vmpath v f).
Proof.
  cbv zeta. unfold assets.walkFn, assets.isFile, assets.placed.
  destruct (assets.walkErr v) as [err|]; [left; split; [discriminate | reflexivity]|].
  destruct (util_IsDirectory (assets.hostpath v)) as [[|]|err];
    cbn [negb fst snd].
  - right. left. auto.
  - destruct (String.eqb_spec vmpath EmptyString) as [Hv|Hv].
    + destruct (filepath_Rel basedir (assets.hostpath v)) as [rPath|err] eqn:Hrel;
        [|left; split; [discriminate | reflexivity]].
      destruct (NewFileAsset _ _ _ _) as [f|err] eqn:Hnew;
        [|left; split; [discriminate | reflexivity]].
      right. right. split; [reflexivity|]. split; [reflexivity|].
      exists f. split; [reflexivity|].
      eexists. split; [exact Hnew|]. split; [congruence|]. eauto.
    + destruct (NewFileAsset _ _ _ _) as [f|err] eqn:Hnew;
        [|left; split; [discriminate | reflexivity]].
      right. right. split; [reflexivity|]. split; [reflexivity|].
      exists f. split; [reflexivity|].
      eexists. split; [exact Hnew|]. split; [reflexivity | congruence].
  - left. split; [discriminate | reflexivity].
Qed.

(** The walk only appends, and on success it has appended one asset per
    visited file, in visiting order. *)
Lemma walk_spec visits assets :
  let r := assets.walk CopyableFile (assets.walkFn CopyableFile NewFileAsset util_IsDirectory filepath_Rel
        filepath_Dir filepath_ToSlash filepath_Base path_Join basedir vmpath) visits assets in
  exists added,
    fst r = (assets ++ added)%list /\
    (snd r = None ->
     Forall2 (assets.placed CopyableFile NewFileAsset filepath_Rel filepath_Dir
        filepath_ToSlash filepath_Base path_Join basedir vmpath)
       (List.filter (assets.isFile util_IsDirectory) visits) added).
Proof.
  cbv zeta. revert assets. induction visits as [|v visits IH]; intros assets.
  - exists []. cbn. rewrite app_nil_r. split; [reflexivity | constructor].
  - cbn [assets.walk List.filter].
    destruct (walkFn_cases assets v) as [[He Ha] | [(He & Hf & Ha) | (He & Hf & f & Ha & Hp)]];
      cbv zeta in He, Ha;
      destruct (assets.walkFn CopyableFile NewFileAsset util_IsDirectory filepath_Rel
        filepath_Dir filepath_ToSlash filepath_Base path_Join basedir vmpath assets v) as [assets' e];
      cbn [fst snd] in He, Ha; subst.
    + destruct e as [err|]; [|congruence].
      exists []. cbn. rewrite app_nil_r. split; [reflexivity | discriminate].
    + rewrite Hf. apply IH.
    + rewrite Hf. destruct (IH (assets ++ [f])%list) as (added & Hadd & Hall).
      exists (f :: added). split.
      * rewrite Hadd, <- app_assoc. reflexivity.
      * intros Hok. constructor; [exact Hp | apply Hall; exact Hok].
Qed.

(** A failing visit ends the walk with what was collected before it. *)
Lemma walk_stops done v rest assets assets' e :
  assets.walk CopyableFile (assets.walkFn CopyableFile NewFileAsset util_IsDirectory filepath_Rel
        filepath_Dir filepath_ToSlash filepath_Base path_Join basedir vmpath) done assets = (assets', None) ->
  snd (assets.walkFn CopyableFile NewFileAsset util_IsDirectory filepath_Rel
        filepath_Dir filepath_ToSlash filepath_Base path_Join basedir vmpath assets' v) = Some e ->
  assets.walk CopyableFile (assets.walkFn CopyableFile NewFileAsset util_IsDirectory filepath_Rel
        filepath_Dir filepath_ToSlash filepath_Base path_Join basedir vmpath) (done ++ v :: rest) assets
    = (assets', Some e).
Proof.
  revert assets. induction done as [|d done IH]; intros assets Hdone Hfail.
  - cbn in Hdone. injection Hdone as ->. cbn [app assets.walk].
    destruct (walkFn_cases assets' v) as [[He Ha] | [(He & _) | (He & _)]];
      cbv zeta in He; try congruence.
    cbv zeta in Ha.
    destruct (assets.walkFn CopyableFile NewFileAsset util_IsDirectory filepath_Rel
        filepath_Dir filepath_ToSlash filepath_Base path_Join basedir vmpath assets' v) as [a e'].
    cbn [fst snd] in *. subst. reflexivity.
  - cbn [app assets.walk] in Hdone |- *.
    destruct (assets.walkFn CopyableFile NewFileAsset util_IsDirectory filepath_Rel
        filepath_Dir filepath_ToSlash filepath_Base path_Join basedir vmpath assets d) as [a [err|]]; [discriminate|].
    apply IH; assumption.
Qed.

End WalkFacts.

(** X25.  [addMinikubeDirToAssets] only ever appends to the list it is
    given, also when it fails.  When it succeeds it has appended exactly
    one asset per visited file, none for a directory, in the order of the
    walk; each asset is made from the file's host path, with the base
    name as target name, the permission string of the file's mode as
    permissions, and as target directory the given [vmpath] or, when that
    is blank, the absolute slash form of the file's directory relative to
    the base directory. *)
Theorem addMinikubeDirToAssets_appends_files :
  forall (CopyableFile : Type)
         (NewFileAsset : string -> string -> string -> string -> result CopyableFile)
         (util_IsDirectory : string -> result bool)
         (filepath_Rel : string -> string -> result string)
         (filepath_Dir filepath_ToSlash filepath_Base : string -> string)
         (path_Join : string -> string -> string)
         (filepath_Walk : string -> list assets.Visit)
         (basedir vmpath : string) (assets : list CopyableFile),
    let r := assets.addMinikubeDirToAssets CopyableFile NewFileAsset util_IsDirectory
        filepath_Rel filepath_Dir filepath_ToSlash filepath_Base path_Join filepath_Walk basedir vmpath assets in
    let files := List.filter (assets.isFile util_IsDirectory)
                   (filepath_Walk basedir) in
    exists added,
      fst r = (assets ++ added)%list /\
      (snd r = None ->
       List.length added = List.length files /\
       Forall2 (assets.placed CopyableFile NewFileAsset filepath_Rel filepath_Dir
        filepath_ToSlash filepath_Base path_Join basedir vmpath) files added).
Proof.
  intros CopyableFile NewFileAsset util_IsDirectory filepath_Rel filepath_Dir
    filepath_ToSlash filepath_Base path_Join filepath_Walk basedir vmpath assets
    r files. subst r files. unfold assets.addMinikubeDirToAssets.
  destruct (walk_spec CopyableFile NewFileAsset util_IsDirectory filepath_Rel
              filepath_Dir filepath_ToSlash filepath_Base path_Join basedir
              vmpath (filepath_Walk basedir) assets) as (added & Hadd & Hall).
  exists added. split; [exact Hadd|]. intros Hok. specialize (Hall Hok).
  split; [symmetry; eapply Forall2_length; exact Hall | exact Hall].
Qed.

Lemma addMinikubeDirToAssets_appends_files_witness :
  assets.addMinikubeDirToAssets assets.demoFile assets.demoNewFileAsset
    assets.demoIsDirectory assets.demoRel assets.demoDir (fun p => p)
    assets.demoBase assets.demoJoin assets.demoWalk "/m/addons" EmptyString []
  = ([ ("/m/addons/a.yaml", "/", "a.yaml", "0644");
       ("/m/addons/sub/b.yaml", "/sub", "b.yaml", "44") ], None) /\
  exists added,
    fst (assets.addMinikubeDirToAssets assets.demoFile assets.demoNewFileAsset
           assets.demoIsDirectory assets.demoRel assets.demoDir (fun p => p)
           assets.demoBase assets.demoJoin assets.demoWalk "/m/addons"
           "/etc/kubernetes/addons" [])
      = ([] ++ added)%list /\
    List.length added = 2%nat.
Proof.
  split; [vm_compute; reflexivity|].
  destruct (addMinikubeDirToAssets_appends_files assets.demoFile
              assets.demoNewFileAsset assets.demoIsDirectory assets.demoRel
              assets.demoDir (fun p => p) assets.demoBase assets.demoJoin
              assets.demoWalk "/m/addons" "/etc/kubernetes/addons" [])
    as (added & Hadd & Hok).
  exists added. split; [exact Hadd|].
  destruct (Hok ltac:(vm_compute; reflexivity)) as [Hlen _].
  rewrite Hlen. vm_compute. reflexivity.
Defined.

(** X26.  A failing visit ends [addMinikubeDirToAssets] at once: the
    visits after it are not looked at, and the assets collected before it
    stay in the list.  An error of the walk itself is passed on as it is;
    a failed directory test and a failed asset creation, under a given
    target directory as under a blank one, come back wrapped with a
    message naming the host path; and under a blank target directory a
    host path that cannot be made relative to the base directory comes
    back wrapped as a relative-path error. *)
Theorem addMinikubeDirToAssets_stops_at_first_error :
  forall (CopyableFile : Type)
         (NewFileAsset : string -> string -> string -> string -> result CopyableFile)
         (util_IsDirectory : string -> result bool)
         (filepath_Rel : string -> string -> result string)
         (filepath_Dir filepath_ToSlash filepath_Base : string -> string)
         (path_Join : string -> string -> string)
         (filepath_Walk : string -> list assets.Visit)
         (basedir vmpath : string) (assets assets' : list CopyableFile)
         (done rest : list assets.Visit) (v : assets.Visit),
    filepath_Walk basedir = (done ++ v :: rest)%list ->
    assets.walk CopyableFile (assets.walkFn CopyableFile NewFileAsset util_IsDirectory
        filepath_Rel filepath_Dir filepath_ToSlash filepath_Base path_Join basedir vmpath) done assets
      = (assets', None) ->
    (forall err,
        assets.walkErr v = Some err ->
        assets.addMinikubeDirToAssets CopyableFile NewFileAsset util_IsDirectory
        filepath_Rel filepath_Dir filepath_ToSlash filepath_Base path_Join filepath_Walk basedir vmpath assets = (assets', Some err)) /\
    (forall err,
        assets.walkErr v = None ->
        util_IsDirectory (assets.hostpath v) = Err err ->
        assets.addMinikubeDirToAssets CopyableFile NewFileAsset util_IsDirectory
        filepath_Rel filepath_Dir filepath_ToSlash filepath_Base path_Join filepath_Walk basedir vmpath assets
          = (assets',
             Some (errors_Wrap err
                     ("checking if " +:+ assets.hostpath v +:+ " is directory")))) /\
    (forall err,
        assets.isFile util_IsDirectory v = true ->
        vmpath <> EmptyString ->
        NewFileAsset (assets.hostpath v) vmpath
          (filepath_Base (assets.hostpath v))
          (assets.permStringOf (assets.Mode_Perm (assets.info v))) = Err err ->
        assets.addMinikubeDirToAssets CopyableFile NewFileAsset util_IsDirectory
        filepath_Rel filepath_Dir filepath_ToSlash filepath_Base path_Join filepath_Walk basedir vmpath assets
          = (assets',
             Some (errors_Wrap err
                     ("creating file asset for " +:+ assets.hostpath v)))) /\
    (forall err,
        assets.isFile util_IsDirectory v = true ->
        vmpath = EmptyString ->
        filepath_Rel basedir (assets.hostpath v) = Err err ->
        assets.addMinikubeDirToAssets CopyableFile NewFileAsset util_IsDirectory
        filepath_Rel filepath_Dir filepath_ToSlash filepath_Base path_Join filepath_Walk basedir vmpath assets
          = (assets', Some (errors_Wrap err "generating relative path"))) /\
    (forall rPath err,
        assets.isFile util_IsDirectory v = true ->
        vmpath = EmptyString ->
        filepath_Rel basedir (assets.hostpath v) = Ok rPath ->
        NewFileAsset (assets.hostpath v)
          (path_Join "/" (filepath_ToSlash (filepath_Dir rPath)))
          (filepath_Base (assets.hostpath v))
          (assets.permStringOf (assets.Mode_Perm (assets.info v))) = Err err ->
        assets.addMinikubeDirToAssets CopyableFile NewFileAsset util_IsDirectory
        filepath_Rel filepath_Dir filepath_ToSlash filepath_Base path_Join filepath_Walk basedir vmpath assets
          = (assets',
             Some (errors_Wrap err
                     ("creating file asset for " +:+ assets.hostpath v)))).
Proof.
  intros CopyableFile NewFileAsset util_IsDirectory filepath_Rel filepath_Dir
    filepath_ToSlash filepath_Base path_Join filepath_Walk basedir vmpath assets
    assets' done rest v Hwalk Hdone.
  unfold assets.addMinikubeDirToAssets. rewrite Hwalk.
  assert (forall e,
            snd (assets.walkFn CopyableFile NewFileAsset util_IsDirectory
        filepath_Rel filepath_Dir filepath_ToSlash filepath_Base path_Join basedir vmpath assets' v) = Some e ->
            assets.walk CopyableFile (assets.walkFn CopyableFile NewFileAsset util_IsDirectory
        filepath_Rel filepath_Dir filepath_ToSlash filepath_Base path_Join basedir vmpath)
              (done ++ v :: rest) assets = (assets', Some e)) as Hstop.
  { intros e He.
    exact (walk_stops CopyableFile NewFileAsset util_IsDirectory filepath_Rel
             filepath_Dir filepath_ToSlash filepath_Base path_Join basedir vmpath
             done v rest assets assets' e Hdone He). }
  assert (forall P : Prop,
            assets.isFile util_IsDirectory v = true ->
            (assets.walkErr v = None ->
             util_IsDirectory (assets.hostpath v) = Ok false -> P) -> P) as Hfile.
  { intros P H HP. unfold assets.isFile in H.
    destruct (assets.walkErr v); [discriminate|].
    destruct (util_IsDirectory (assets.hostpath v)) as [[|]|]; try discriminate.
    apply HP; reflexivity. }
  split; [|split; [|split; [|split]]].
  - intros err Herr. apply Hstop.
    unfold assets.walkFn. rewrite Herr. reflexivity.
  - intros err Hnone Hdir. apply Hstop.
    unfold assets.walkFn. rewrite Hnone, Hdir. reflexivity.
  - intros err Hf Hvm Hnew. apply Hstop. apply (Hfile _ Hf). intros Hn Hd.
    unfold assets.walkFn. rewrite Hn, Hd. cbn [negb].
    apply String.eqb_neq in Hvm. rewrite Hvm, Hnew. reflexivity.
  - intros err Hf Hvm Hrel. apply Hstop. apply (Hfile _ Hf). intros Hn Hd.
    unfold assets.walkFn. rewrite Hn, Hd. cbn [negb].
    rewrite Hvm. cbn [String.eqb]. rewrite Hrel. reflexivity.
  - intros rPath err Hf Hvm Hrel Hnew. apply Hstop. apply (Hfile _ Hf).
    intros Hn Hd. unfold assets.walkFn. rewrite Hn, Hd. cbn [negb].
    rewrite Hvm. cbn [String.eqb]. rewrite Hrel, Hnew. reflexivity.
Qed.

Lemma addMinikubeDirToAssets_stops_at_first_error_witness :
  assets.addMinikubeDirToAssets assets.demoFile assets.demoNewFileAsset
    assets.demoIsDirectory assets.demoRel assets.demoDir (fun p => p)
    assets.demoBase assets.demoJoin assets.demoWalk "/m/broken" "/target" []
  = ([ ("/m/broken/ok", "/target", "ok", "0644") ],
     Some (errors_Wrap (errors_New "open: permission denied")
             ("creating file asset for " +:+ "/m/broken/locked"))) /\
  assets.addMinikubeDirToAssets assets.demoFile assets.demoNewFileAsset
    assets.demoIsDirectory assets.demoRel assets.demoDir (fun p => p)
    assets.demoBase assets.demoJoin assets.demoWalk "/m/broken" EmptyString []
  = ([ ("/m/broken/ok", "/", "ok", "0644") ],
     Some (errors_Wrap (errors_New "open: permission denied")
             ("creating file asset for " +:+ "/m/broken/locked"))) /\
  assets.addMinikubeDirToAssets assets.demoFile assets.demoNewFileAsset
    demoNoDirectory assets.demoRel assets.demoDir (fun p => p)
    assets.demoBase assets.demoJoin demoStrayWalk "/m/root" EmptyString []
  = ([ ("/m/root/kept", "/", "kept", "0644") ],
     Some (errors_Wrap (errors_New "Rel: can't make relative")
             "generating relative path")).
Proof.
  split; [|split].
  - refine (proj1 (proj2 (proj2 (addMinikubeDirToAssets_stops_at_first_error
              assets.demoFile assets.demoNewFileAsset assets.demoIsDirectory
              assets.demoRel assets.demoDir (fun p => p) assets.demoBase
              assets.demoJoin assets.demoWalk "/m/broken" "/target" []
              [ ("/m/broken/ok", "/target", "ok", "0644") ]
              [ assets.demoVisit "/m/broken" 493;
                assets.demoVisit "/m/broken/ok" 420 ]
              [ assets.demoVisit "/m/broken/later" 420 ]
              (assets.demoVisit "/m/broken/locked" 420) _ _)))
              (errors_New "open: permission denied") _ _ _).
    + vm_compute. reflexivity.
    + vm_compute. reflexivity.
    + vm_compute. reflexivity.
    + discriminate.
    + vm_compute. reflexivity.
  - refine (proj2 (proj2 (proj2 (proj2
              (addMinikubeDirToAssets_stops_at_first_error
                 assets.demoFile assets.demoNewFileAsset assets.demoIsDirectory
                 assets.demoRel assets.demoDir (fun p => p) assets.demoBase
                 assets.demoJoin assets.demoWalk "/m/broken" EmptyString []
                 [ ("/m/broken/ok", "/", "ok", "0644") ]
                 [ assets.demoVisit "/m/broken" 493;
                   assets.demoVisit "/m/broken/ok" 420 ]
                 [ assets.demoVisit "/m/broken/later" 420 ]
                 (assets.demoVisit "/m/broken/locked" 420) _ _))))
              "locked" (errors_New "open: permission denied") _ _ _ _).
    + vm_compute. reflexivity.
    + vm_compute. reflexivity.
    + vm_compute. reflexivity.
    + reflexivity.
    + vm_compute. reflexivity.
    + vm_compute. reflexivity.
  - refine (proj1 (proj2 (proj2 (proj2
              (addMinikubeDirToAssets_stops_at_first_error
                 assets.demoFile assets.demoNewFileAsset demoNoDirectory
                 assets.demoRel assets.demoDir (fun p => p) assets.demoBase
                 assets.demoJoin demoStrayWalk "/m/root" EmptyString []
                 [ ("/m/root/kept", "/", "kept", "0644") ]
                 [ assets.demoVisit "/m/root/kept" 420 ]
                 [ assets.demoVisit "/m/root/later" 420 ]
                 (assets.demoVisit "/elsewhere/stray" 420) _ _))))
              (errors_New "Rel: can't make relative") _ _ _).
    + vm_compute. reflexivity.
    + vm_compute. reflexivity.
    + vm_compute. reflexivity.
    + reflexivity.
    + vm_compute. reflexivity.
Defined.

(** X27.  [AddMinikubeDirAssets] walks the addons directory with the
    guest addons directory as target and then, only if that succeeded,
    the files directory with a blank target.  It only appends; when it
    succeeds the addon files come first and the rootfs files after them,
    each group in walk order.  A failure of the first walk is wrapped
    with the addons message and the files directory is not walked; a
    failure of the second is wrapped with the rootfs message. *)
Theorem AddMinikubeDirAssets_order :
  forall (CopyableFile : Type)
         (NewFileAsset : string -> string -> string -> string -> result CopyableFile)
         (util_IsDirectory : string -> result bool)
         (filepath_Rel : string -> string -> result string)
         (filepath_Dir filepath_ToSlash filepath_Base : string -> string)
         (path_Join : string -> string -> string)
         (filepath_Walk : string -> list assets.Visit)
         (MakeMiniPath : string -> string) (GuestAddonsDir : string)
         (assets : list CopyableFile),
    let run := assets.AddMinikubeDirAssets CopyableFile NewFileAsset util_IsDirectory
        filepath_Rel filepath_Dir filepath_ToSlash filepath_Base path_Join
        filepath_Walk MakeMiniPath GuestAddonsDir assets in
    let first := assets.addMinikubeDirToAssets CopyableFile NewFileAsset util_IsDirectory
        filepath_Rel filepath_Dir filepath_ToSlash filepath_Base path_Join filepath_Walk (MakeMiniPath "addons") GuestAddonsDir assets in
    let second := assets.addMinikubeDirToAssets CopyableFile NewFileAsset util_IsDirectory
        filepath_Rel filepath_Dir filepath_ToSlash filepath_Base path_Join filepath_Walk (MakeMiniPath "files") EmptyString (fst first) in
    (exists added, fst run = (assets ++ added)%list) /\
    (forall err, snd first = Some err ->
       run = (fst first, Some (errors_Wrap err "adding addons folder to assets"))) /\
    (forall err, snd first = None -> snd second = Some err ->
       run = (fst second, Some (errors_Wrap err "adding files rootfs to assets"))) /\
    (snd run = None ->
     exists addons files,
       fst run = (assets ++ addons ++ files)%list /\
       Forall2 (assets.placed CopyableFile NewFileAsset filepath_Rel filepath_Dir
        filepath_ToSlash filepath_Base path_Join (MakeMiniPath "addons") GuestAddonsDir)
         (List.filter (assets.isFile util_IsDirectory)
            (filepath_Walk (MakeMiniPath "addons"))) addons /\
       Forall2 (assets.placed CopyableFile NewFileAsset filepath_Rel filepath_Dir
        filepath_ToSlash filepath_Base path_Join (MakeMiniPath "files") EmptyString)
         (List.filter (assets.isFile util_IsDirectory)
            (filepath_Walk (MakeMiniPath "files"))) files).
Proof.
  intros CopyableFile NewFileAsset util_IsDirectory filepath_Rel filepath_Dir
    filepath_ToSlash filepath_Base path_Join filepath_Walk MakeMiniPath
    GuestAddonsDir assets run first second.
  subst run second first. unfold assets.AddMinikubeDirAssets.
  unfold assets.addMinikubeDirToAssets.
  destruct (walk_spec CopyableFile NewFileAsset util_IsDirectory filepath_Rel
              filepath_Dir filepath_ToSlash filepath_Base path_Join
              (MakeMiniPath "addons") GuestAddonsDir
              (filepath_Walk (MakeMiniPath "addons")) assets)
    as (a1 & Ha1 & Hall1).
  destruct (assets.walk CopyableFile _ (filepath_Walk (MakeMiniPath "addons")) assets)
    as [assets1 e1]. cbn [fst snd] in *. subst assets1.
  destruct e1 as [err1|].
  - split; [eauto|]. split; [intros err [= <-]; reflexivity|].
    split; [discriminate | discriminate].
  - destruct (walk_spec CopyableFile NewFileAsset util_IsDirectory filepath_Rel
                filepath_Dir filepath_ToSlash filepath_Base path_Join
                (MakeMiniPath "files") EmptyString
                (filepath_Walk (MakeMiniPath "files")) (assets ++ a1)%list)
      as (a2 & Ha2 & Hall2).
    destruct (assets.walk CopyableFile _ (filepath_Walk (MakeMiniPath "files"))
                (assets ++ a1)%list) as [assets2 e2].
    cbn [fst snd] in *. subst assets2.
    split; [exists (a1 ++ a2)%list; destruct e2; cbn [fst];
            rewrite app_assoc; reflexivity|].
    split; [discriminate|].
    destruct e2 as [err2|].
    + split; [intros err _ [= <-]; reflexivity | discriminate].
    + split; [discriminate|]. intros _. exists a1, a2.
      split; [rewrite app_assoc; reflexivity|]. auto.
Qed.

Lemma AddMinikubeDirAssets_order_witness :
  let run := assets.AddMinikubeDirAssets assets.demoFile assets.demoNewFileAsset
               assets.demoIsDirectory assets.demoRel assets.demoDir (fun p => p)
               assets.demoBase assets.demoJoin assets.demoWalk
               assets.demoMakeMiniPath "/etc/kubernetes/addons" [] in
  run = ([ ("/m/addons/a.yaml", "/etc/kubernetes/addons", "a.yaml", "0644");
           ("/m/addons/sub/b.yaml", "/etc/kubernetes/addons", "b.yaml", "44");
           ("/m/files/etc/hosts", "/etc", "hosts", "0600") ], None) /\
  exists addons files,
    fst run = ([] ++ addons ++ files)%list /\
    Forall2 (assets.placed assets.demoFile assets.demoNewFileAsset assets.demoRel
               assets.demoDir (fun p => p) assets.demoBase assets.demoJoin
               (assets.demoMakeMiniPath "addons") "/etc/kubernetes/addons")
      (List.filter (assets.isFile assets.demoIsDirectory)
         (assets.demoWalk (assets.demoMakeMiniPath "addons"))) addons /\
    Forall2 (assets.placed assets.demoFile assets.demoNewFileAsset assets.demoRel
               assets.demoDir (fun p => p) assets.demoBase assets.demoJoin
               (assets.demoMakeMiniPath "files") EmptyString)
      (List.filter (assets.isFile assets.demoIsDirectory)
         (assets.demoWalk (assets.demoMakeMiniPath "files"))) files.
Proof.
  split; [vm_compute; reflexivity|].
  apply (proj2 (proj2 (proj2 (AddMinikubeDirAssets_order assets.demoFile
           assets.demoNewFileAsset assets.demoIsDirectory assets.demoRel
           assets.demoDir (fun p => p) assets.demoBase assets.demoJoin
           assets.demoWalk assets.demoMakeMiniPath "/etc/kubernetes/addons" [])))).
  vm_compute. reflexivity.
Defined.
